(** * The dashboard script: session store, reply normalisation and view switching

    A shallow embedding of the browser script [script.js] (the variant wired
    to a backend) and of its older demo variant, followed by the properties
    of the specification that can be stated over them.

    Layout:
    - JavaScript values and the conversions the script relies on;
    - the mutable world the script runs in (the [App] object, local storage,
      the page, the network log);
    - the functions of [script.js], in source order;
    - [Module Legacy]: the functions of the demo variant that differ;
    - an engine and worlds for concrete runs, and the vocabulary of the
      properties;
    - frame lemmas and the properties.

    A handler is modelled as one step that runs to its end: each [await]
    of [apiFetch] takes its answer from the environment, which stands for
    the backend, and handlers do not overlap.  Built-ins of the engine
    (trimming, conversions between strings and numbers, locale formatting,
    JSON printing) are parameters, so the properties hold for every
    engine. *)

From Stdlib Require Import ZArith String Ascii Bool List.
From Stdlib.Floats Require Import SpecFloat.
From stdpp Require Import base option gmap strings list pretty.

Set Warnings "-register-all".
Local Open Scope string_scope.

(** ** JavaScript values *)

(** Numbers are IEEE-754 binary64 values, in the representation of
    [SpecFloat]. *)
Abbreviation number := spec_float.

(** The values a decoded JSON body, a field of [App] or an expression of the
    script can hold.  Objects are finite maps from property names.  A
    caught [Error] object is known by its [message] and by what [String]
    makes of it. *)
Inductive JSValue :=
| JUndefined
| JNull
| JBool (b : bool)
| JNum (n : number)
| JStr (s : string)
| JArr (l : list JSValue)
| JObj (m : gmap string JSValue)
| JError (message asString : string).

(** A completed evaluation: a value, or a thrown exception. *)
Inductive Completion (A : Type) :=
| Normal (a : A)
| Throw (e : string).
Arguments Normal {A} a.
Arguments Throw {A} e.

(** Evaluation in sequence: what throws first ends it. *)
Definition cbind {A B} (c : Completion A) (k : A -> Completion B) : Completion B :=
  match c with
  | Normal a => k a
  | Throw e => Throw e
  end.

(** Number literals, rounded to binary64. *)
Definition lit (neg : bool) (m : positive) (e : Z) : number :=
  binary_round 53 1024 neg m e.

Definition num_0 : number := S754_zero false.
Definition num_1 : number := Eval cbv in lit false 1 0.
Definition num_49 : number := Eval cbv in lit false 49 0.
Definition num_50 : number := Eval cbv in lit false 50 0.
Definition num_100 : number := Eval cbv in lit false 100 0.
Definition NaN : number := S754_nan.

(** What the JavaScript engine supplies: the built-in conversions between
    strings and numbers, string trimming, locale formatting, rounding and
    JSON printing.  The script is embedded over any engine. *)
Class Engine := {
  (** [String.prototype.trim] *)
  trim : string -> string;
  (** [Number(s)] for a string [s] *)
  StringToNumber : string -> number;
  (** [String(n)] for a number [n] *)
  NumberToString : number -> string;
  (** [n.toLocaleString(undefined, {minimumFractionDigits: 2,
      maximumFractionDigits: 2})] *)
  toLocaleString : number -> string;
  (** [Math.round] *)
  Math_round : number -> number;
  (** [JSON.stringify] of a value that is not [undefined] *)
  JSON_stringify : JSValue -> string
}.

Section Values.
Context `{Engine}.

(** ToBoolean: the falsy values are [undefined], [null], [false], the empty
    string, both zeros and NaN. *)
Definition truthy (v : JSValue) : bool :=
  match v with
  | JUndefined | JNull => false
  | JBool b => b
  | JNum (S754_zero _) | JNum S754_nan => false
  | JNum _ => true
  | JStr s => negb (String.eqb s "")
  | JArr _ | JObj _ | JError _ _ => true
  end.

(** [a || b] *)
Definition js_or (a b : JSValue) : JSValue := if truthy a then a else b.
Infix "|||" := js_or (at level 50, left associativity).

(** [typeof v] *)
Definition typeof (v : JSValue) : string :=
  match v with
  | JUndefined => "undefined"
  | JNull | JArr _ | JObj _ | JError _ _ => "object"
  | JBool _ => "boolean"
  | JNum _ => "number"
  | JStr _ => "string"
  end.

Definition nullish (v : JSValue) : bool :=
  match v with JUndefined | JNull => true | _ => false end.

(** [v?.k], and [v.k] when [v] is known not to be [null] or [undefined]:
    the own property of an object, [undefined] on everything else.  Only
    used with the property names of the script ([token], [message],
    [title], ...), none of which is a built-in member of strings, numbers,
    booleans or arrays. *)
Definition field (v : JSValue) (k : string) : JSValue :=
  match v with
  | JObj m => default JUndefined (m !! k)
  | JError message _ => if String.eqb k "message" then JStr message else JUndefined
  | _ => JUndefined
  end.

(** [v.k] without a guard: a TypeError on [null] and [undefined]. *)
Definition getProp (v : JSValue) (k : string) : Completion JSValue :=
  if nullish v then Throw "TypeError" else Normal (field v k).

Definition join (sep : string) (l : list string) : string :=
  match l with
  | [] => ""
  | x :: r => fold_left (fun acc y => acc +:+ sep +:+ y) r x
  end.

(** *** Conversions

    A conversion to a string or to a number first turns an object into a
    primitive.  A decoded JSON body holds no function, so a member named
    [toString] of its own shadows [Object.prototype.toString] with
    something that cannot be called, [valueOf] gives back the object, and
    the conversion throws a TypeError.  An array is converted by joining
    the conversions of its elements other than [null] and [undefined], so
    it throws when one of them does.  [convertible] says whether the
    conversion completes, [stringOf] and [numberOf] are what it yields
    when it does; [ToString] and [ToNumber] are the conversions
    themselves. *)
Fixpoint convertible (v : JSValue) : bool :=
  match v with
  | JObj m => match m !! "toString" with Some _ => false | None => true end
  | JArr l =>
      (fix all (l : list JSValue) : bool :=
         match l with
         | [] => true
         | x :: r => convertible x && all r
         end) l
  | _ => true
  end.

(** The string a completed conversion yields.  An array prints as its
    elements joined by commas, [null] and [undefined] elements printing as
    nothing; a plain object prints as [[object Object]]. *)
Fixpoint stringOf (v : JSValue) : string :=
  match v with
  | JUndefined => "undefined"
  | JNull => "null"
  | JBool true => "true"
  | JBool false => "false"
  | JNum n => NumberToString n
  | JStr s => s
  | JArr l =>
      join "," ((fix elems (l : list JSValue) : list string :=
                   match l with
                   | [] => []
                   | x :: r => (if nullish x then "" else stringOf x) :: elems r
                   end) l)
  | JObj _ => "[object Object]"
  | JError _ asString => asString
  end.

(** The number a completed conversion yields. *)
Definition numberOf (v : JSValue) : number :=
  match v with
  | JUndefined => NaN
  | JNull => num_0
  | JBool true => num_1
  | JBool false => num_0
  | JNum n => n
  | JStr s => StringToNumber s
  | JArr _ | JObj _ | JError _ _ => StringToNumber (stringOf v)
  end.

(** ToString: [String(v)], a template substitution, the operand of a
    string concatenation, the argument of [setItem], [alert] and
    [encodeURIComponent]. *)
Definition ToString (v : JSValue) : Completion string :=
  if convertible v then Normal (stringOf v) else Throw "TypeError".

(** ToNumber: [Number(v)], the operand of a comparison with a number and
    of [Math.abs]. *)
Definition ToNumber (v : JSValue) : Completion number :=
  if convertible v then Normal (numberOf v) else Throw "TypeError".

(** [n || 0] for a number [n] *)
Definition orZero (n : number) : number :=
  if truthy (JNum n) then n else num_0.

(** The value of [Number(v) || 0] when the conversion completes. *)
Definition numberOrZero (v : JSValue) : number := orZero (numberOf v).

(** [Number(v) || 0] *)
Definition NumberOr0 (v : JSValue) : Completion number :=
  cbind (ToNumber v) (fun n => Normal (orZero n)).

(** The text an element holds after [v] was assigned to its
    [textContent], when the assignment completes: nothing for [null] and
    [undefined]. *)
Definition textFor (v : JSValue) : string :=
  if nullish v then "" else stringOf v.

(** The conversion that assigning [v] to [textContent] performs. *)
Definition textOf (v : JSValue) : Completion string :=
  if nullish v then Normal "" else ToString v.

(** [s.includes(sub)] *)
Definition includes (s sub : string) : bool :=
  match index 0 sub s with Some _ => true | None => false end.

End Values.

Infix "|||" := js_or (at level 50, left associativity).

(** ** The world of the script *)

(** The [App] object. *)
Record AppState := mkApp {
  token : JSValue;
  user : JSValue;
  balanceVisible : bool;
  balance : JSValue;
  transactions : JSValue
}.

(** The elements whose [hidden] class the script switches. *)
Inductive Element :=
| authScreen | dashboardScreen | addMoneyModal | serviceModal | toastEl.

#[global] Instance Element_eq_dec : EqDecision Element.
Proof. solve_decision. Defined.

#[global] Instance Element_countable : Countable Element.
Proof.
  refine (inj_countable'
    (fun e => match e with
              | authScreen => 0 | dashboardScreen => 1 | addMoneyModal => 2
              | serviceModal => 3 | toastEl => 4 end)
    (fun n => match n with
              | 0 => authScreen | 1 => dashboardScreen | 2 => addMoneyModal
              | 3 => serviceModal | _ => toastEl end) _).
  intros []; reflexivity.
Defined.

(** One child of the transaction list: the placeholder line, or a row with
    the strings interpolated into its markup. *)
Inductive TxItem :=
| NoTransactions
| TxRow (title meta date : string) (debit : bool) (amount : string).

(** The page: the elements carrying the [hidden] class, the text of the
    output elements, the children of the transaction list and the values
    of the form inputs, by selector.  The page is assumed to provide every
    element the script dereferences without a guard; the toast element,
    which [toast] guards, may be missing. *)
Record Page := mkPage {
  hidden : gset Element;
  greeting : string;
  userEmail : string;
  balanceValue : string;
  txList : list TxItem;
  toastPresent : bool;
  toastText : string;
  value : string -> string
}.

(** A request handed to [fetch]: address, method, body and the bearer
    header.  The constant content-type header is not recorded. *)
Record Request := mkRequest {
  url : string;
  method : string;
  body : option string;
  authorization : option string
}.

(** [window.PaystackPop]: missing, present without [setup], or usable. *)
Inductive Widget := WidgetAbsent | WidgetNoSetup | WidgetReady.

(** The parameters [startPayment] hands to [PaystackPop.setup] before it
    opens the payment frame. *)
Record Checkout := mkCheckout {
  co_key : string;
  co_email : JSValue;
  co_amount : number;
  co_phone : JSValue
}.

Record World := mkWorld {
  App : AppState;
  localStorage : gmap string string;
  page : Page;
  currentService : JSValue;
  (** requests passed to [fetch], oldest first *)
  fetchLog : list Request;
  (** every text shown by [toast], oldest first *)
  notices : list string;
  PaystackPop : Widget;
  (** whether the Paystack script element has been appended *)
  paystackScript : bool;
  (** the payment frame opened last *)
  checkout : option Checkout;
  (** the reading of [Date.now()] *)
  clock : number
}.

(** What [fetch] followed by the decoding of the body comes to: a thrown
    [Error] object, or a reply with its [ok] flag, status and decoded
    body. *)
Inductive FetchOutcome :=
| Rejected (message : string) (asString : string)
| Replied (ok : bool) (status : number) (json : JSValue).

(** The environment: what the [n]-th request is answered with, and whether
    an appended Paystack script has attached the widget by the end of the
    wait in [startPayment]. *)
Record Env := mkEnv {
  respond : nat -> Request -> FetchOutcome;
  widgetLoads : bool
}.

(** The result object of [apiFetch]: [{ ok, data, error, status }], absent
    members being [undefined]. *)
Record ApiResult := mkResult {
  ok : bool;
  data : JSValue;
  error : JSValue;
  status : JSValue
}.

Record Config := mkConfig {
  API_BASE : string;
  PAYSTACK_PUBLIC_KEY : string;
  PAYSTACK_VERIFY_ENDPOINT : string
}.

(** *** Updating the world *)

Definition set_App (f : AppState -> AppState) (w : World) : World :=
  mkWorld (f (App w)) (localStorage w) (page w) (currentService w)
    (fetchLog w) (notices w) (PaystackPop w) (paystackScript w) (checkout w)
    (clock w).

Definition set_localStorage (f : gmap string string -> gmap string string)
    (w : World) : World :=
  mkWorld (App w) (f (localStorage w)) (page w) (currentService w)
    (fetchLog w) (notices w) (PaystackPop w) (paystackScript w) (checkout w)
    (clock w).

Definition set_page (f : Page -> Page) (w : World) : World :=
  mkWorld (App w) (localStorage w) (f (page w)) (currentService w)
    (fetchLog w) (notices w) (PaystackPop w) (paystackScript w) (checkout w)
    (clock w).

Definition set_fetchLog (f : list Request -> list Request) (w : World) : World :=
  mkWorld (App w) (localStorage w) (page w) (currentService w)
    (f (fetchLog w)) (notices w) (PaystackPop w) (paystackScript w)
    (checkout w) (clock w).

Definition set_notices (f : list string -> list string) (w : World) : World :=
  mkWorld (App w) (localStorage w) (page w) (currentService w)
    (fetchLog w) (f (notices w)) (PaystackPop w) (paystackScript w)
    (checkout w) (clock w).

Definition set_PaystackPop (p : Widget) (w : World) : World :=
  mkWorld (App w) (localStorage w) (page w) (currentService w)
    (fetchLog w) (notices w) p (paystackScript w) (checkout w) (clock w).

Definition set_paystackScript (b : bool) (w : World) : World :=
  mkWorld (App w) (localStorage w) (page w) (currentService w)
    (fetchLog w) (notices w) (PaystackPop w) b (checkout w) (clock w).

Definition set_checkout (c : option Checkout) (w : World) : World :=
  mkWorld (App w) (localStorage w) (page w) (currentService w)
    (fetchLog w) (notices w) (PaystackPop w) (paystackScript w) c (clock w).

Definition set_token (v : JSValue) (a : AppState) : AppState :=
  mkApp v (user a) (balanceVisible a) (balance a) (transactions a).
Definition set_user (v : JSValue) (a : AppState) : AppState :=
  mkApp (token a) v (balanceVisible a) (balance a) (transactions a).
Definition set_balanceVisible (b : bool) (a : AppState) : AppState :=
  mkApp (token a) (user a) b (balance a) (transactions a).
Definition set_balance (v : JSValue) (a : AppState) : AppState :=
  mkApp (token a) (user a) (balanceVisible a) v (transactions a).
Definition set_transactions (v : JSValue) (a : AppState) : AppState :=
  mkApp (token a) (user a) (balanceVisible a) (balance a) v.

Definition set_hidden (f : gset Element -> gset Element) (p : Page) : Page :=
  mkPage (f (hidden p)) (greeting p) (userEmail p) (balanceValue p) (txList p)
    (toastPresent p) (toastText p) (value p).
Definition set_greeting (s : string) (p : Page) : Page :=
  mkPage (hidden p) s (userEmail p) (balanceValue p) (txList p)
    (toastPresent p) (toastText p) (value p).
Definition set_userEmail (s : string) (p : Page) : Page :=
  mkPage (hidden p) (greeting p) s (balanceValue p) (txList p)
    (toastPresent p) (toastText p) (value p).
Definition set_balanceValue (s : string) (p : Page) : Page :=
  mkPage (hidden p) (greeting p) (userEmail p) s (txList p)
    (toastPresent p) (toastText p) (value p).
Definition set_txList (f : list TxItem -> list TxItem) (p : Page) : Page :=
  mkPage (hidden p) (greeting p) (userEmail p) (balanceValue p) (f (txList p))
    (toastPresent p) (toastText p) (value p).
Definition set_toastText (s : string) (p : Page) : Page :=
  mkPage (hidden p) (greeting p) (userEmail p) (balanceValue p) (txList p)
    (toastPresent p) s (value p).

(** *** Sequencing

    A step of the script takes a world to a completion and the world it
    leaves; what was changed before an exception stays changed. *)
Definition M (A : Type) : Type := World -> Completion A * World.

Definition ret {A} (a : A) : M A := fun w => (Normal a, w).

Definition bind {A B} (m : M A) (k : A -> M B) : M B :=
  fun w => match m w with
           | (Normal a, w') => k a w'
           | (Throw e, w') => (Throw e, w')
           end.

Definition modify (f : World -> World) : M unit := fun w => (Normal tt, f w).
Definition gets {A} (f : World -> A) : M A := fun w => (Normal (f w), w).
Definition throw {A} (e : string) : M A := fun w => (Throw e, w).
Definition lift {A} (c : Completion A) : M A := fun w => (c, w).

(** A call of an async function whose promise nobody awaits: it runs, and
    an exception it ends with goes nowhere. *)
Definition detached {A} (m : M A) : M unit := fun w => (Normal tt, snd (m w)).

Declare Scope js_scope.
Delimit Scope js_scope with js.
Notation "x <- c1 ;; c2" := (bind c1 (fun x => c2))
  (at level 100, c1 at next level, right associativity) : js_scope.
Notation "c1 ;; c2" := (bind c1 (fun _ => c2))
  (at level 100, right associativity) : js_scope.
Notation "x <-- c1 ;; c2" := (cbind c1 (fun x => c2))
  (at level 100, c1 at next level, right associativity) : js_scope.
Local Open Scope js_scope.

(** The world a step leaves. *)
Definition after {A} (m : M A) (w : World) : World := snd (m w).

(** ** The functions of [script.js] *)

(** An object literal. *)
Definition obj (l : list (string * JSValue)) : JSValue := JObj (list_to_map l).

(** The fixture of the script, [MOCK]. *)
Record Mock := mkMock {
  mock_token : JSValue;
  mock_user : JSValue;
  mock_balance : JSValue;
  mock_transactions : JSValue
}.

Definition mock_tx (id title meta : string) (amount : number) (date : string)
    : JSValue :=
  obj [("id", JStr id); ("title", JStr title); ("meta", JStr meta);
       ("amount", JNum amount); ("date", JStr date)].

Definition num_15200_5 : number := Eval cbv in lit false 30401 (-1).

Definition mock_rows : JSValue :=
  JArr [ mock_tx "tx_1" "Top up" "Card" (lit false 5000 0) "2025-11-10";
         mock_tx "tx_2" "Electricity" "Ibadan Elec" (lit true 2300 0) "2025-11-09";
         mock_tx "tx_3" "Airtime" "0813xxxxxxx" (lit true 500 0) "2025-11-02" ].

Definition MOCK : Mock :=
  mkMock (JStr "demo-token")
    (obj [("name", JStr "Demo User");
          ("email", JStr "demo@example.com");
          ("phone", JStr "08130000000")])
    (JNum num_15200_5)
    mock_rows.

(** The configuration [script.js] ships with. *)
Definition CONFIG_script : Config :=
  mkConfig "https://paymomentbackend.onrender.com/api" "" "/pay/verify".

(** The [App] object at start-up. *)
Definition App0 : AppState := mkApp JNull JNull true (JNum num_0) (JArr []).

(** The options object callers pass to [apiFetch]. *)
Record Options := mkOptions {
  o_method : option string;
  o_body : option string
}.
Definition no_options : Options := mkOptions None None.
Definition post (b : string) : Options := mkOptions (Some "POST") (Some b).

(** The two result shapes [apiFetch] builds. *)
Definition success (d : JSValue) : ApiResult := mkResult true d JUndefined JUndefined.
Definition failure (e : JSValue) : ApiResult := mkResult false JUndefined e JUndefined.

Section Script.
Context {engine : Engine}.
Variable CONFIG : Config.
Variable env : Env.

Definition show (el : Element) : M unit :=
  modify (set_page (set_hidden (fun h => h ∖ {[el]}))).
Definition hide (el : Element) : M unit :=
  modify (set_page (set_hidden (fun h => {[el]} ∪ h))).

(** [toast(msg)]: without a toast element the text goes to [alert];
    otherwise it becomes the element's text and the element is shown.
    Either way the message is converted to a string first, and a message
    that cannot be converted makes the call throw before anything is
    shown.  The timer that hides the element again is not modelled. *)
Definition toast (msg : JSValue) : M unit :=
  present <- gets (fun w => toastPresent (page w));;
  if negb present then
    s <- lift (ToString msg);;
    modify (set_notices (fun l => (l ++ [s])%list))
  else
    s <- lift (textOf msg);;
    modify (set_page (set_toastText s));;
    show toastEl;;
    modify (set_notices (fun l => (l ++ [s])%list)).

(** The text of an amount: the sign of the naira and the number with two
    fraction digits. *)
Definition money (n : number) : string := "₦" +:+ toLocaleString n.

(** The text [currency(n)] returns when it returns. *)
Definition currencyText (n : JSValue) : string :=
  money (match n with JNum x => x | _ => numberOrZero n end).

(** [currency(n)] *)
Definition currency (n : JSValue) : Completion string :=
  match n with
  | JNum x => Normal (money x)
  | _ => x <-- NumberOr0 n;; Normal (money x)
  end.

(** The base address [apiFetch] works with:
    [CONFIG.API_BASE && CONFIG.API_BASE.trim()]. *)
Definition base : string :=
  if String.eqb (API_BASE CONFIG) "" then "" else trim (API_BASE CONFIG).

(** The reply demo mode makes up for a path. *)
Definition mockReply (path : string) (now : number) : ApiResult :=
  let session := obj [("token", mock_token MOCK); ("user", mock_user MOCK)] in
  let done (prefix : string) :=
    obj [("result", JStr "success");
         ("id", JStr (prefix +:+ NumberToString now))] in
  if includes path "/auth/login" then success session
  else if includes path "/auth/register" then success session
  else if includes path "/me/balance" then
    success (obj [("balance", mock_balance MOCK)])
  else if includes path "/me/transactions" then
    success (obj [("transactions", mock_transactions MOCK)])
  else if includes path "/pay/service" then success (done "svc_")
  else if includes path "/pay/topup" then success (done "top_")
  else failure (JStr "No API configured").

(** [apiFetch(path, options)].  What [fetch] or the decoding of the body
    throws is caught and turned into a failure.  The bearer header is
    built before the [try]: a token that cannot be converted to a string
    makes the call throw before anything is sent. *)
Definition apiFetch (path : string) (options : Options) : M ApiResult :=
  if String.eqb base "" then
    now <- gets clock;;
    ret (mockReply path now)
  else
    tok <- gets (fun w => token (App w));;
    auth <- (if truthy tok then
               t <- lift (ToString tok);;
               ret (Some ("Bearer " +:+ t))
             else ret None);;
    n <- gets (fun w => length (fetchLog w));;
    let req := mkRequest (base +:+ path) (default "GET" (o_method options))
                 (o_body options) auth in
    modify (set_fetchLog (fun l => (l ++ [req])%list));;
    match respond env n req with
    | Replied ok status json => ret (mkResult ok json JUndefined (JNum status))
    | Rejected message asString =>
        let err := JError message asString in
        ret (failure (field err "message" ||| JStr (stringOf err)))
    end.

(** The message the failure branches show:
    [res.data?.message || res.data?.error || res.error || fallback]. *)
Definition failureMessage (res : ApiResult) (fallback : string) : JSValue :=
  field (data res) "message" ||| field (data res) "error" ||| error res
    ||| JStr fallback.

(** [updateBalanceUI()] *)
Definition updateBalanceUI : M unit :=
  a <- gets App;;
  s <- (if balanceVisible a then lift (currency (balance a)) else ret "****");;
  modify (set_page (set_balanceValue s)).

(** [refreshBalance()] *)
Definition refreshBalance : M unit :=
  res <- apiFetch "/me/balance" no_options;;
  (if ok res && negb (String.eqb (typeof (field (data res) "balance")) "undefined")
   then
     n <- lift (NumberOr0 (field (data res) "balance"));;
     modify (set_App (set_balance (JNum n)))
   else if ok res && String.eqb (typeof (data res)) "number"
   then
     n <- lift (ToNumber (data res));;
     modify (set_App (set_balance (JNum n)))
   else modify (set_App (set_balance (mock_balance MOCK ||| JNum num_0))));;
  updateBalanceUI.

Definition isArray (v : JSValue) : bool :=
  match v with JArr _ => true | _ => false end.

(** Whether [v.length] is truthy, for a truthy [v]. *)
Definition hasLength (v : JSValue) : bool :=
  match v with
  | JArr l => negb (bool_decide (l = []))
  | JStr s => negb (String.eqb s "")
  | JObj _ => truthy (field v "length")
  | _ => false
  end.

(** The body of the [forEach] callback of [renderTransactions]: the row
    built for one element.  Reading [tx.title] throws on [null] and
    [undefined]; [Number] and the substitutions of the template throw on
    what cannot be converted. *)
Definition renderRow (tx : JSValue) : Completion TxItem :=
  t <-- getProp tx "title";;
  let title := t ||| field tx "description" ||| field tx "type" ||| JStr "Transaction" in
  let meta := field tx "meta" ||| field tx "source" ||| field tx "note" ||| JStr "" in
  let date := field tx "date" ||| field tx "created_at" ||| JStr "" in
  amount <-- ToNumber (field tx "amount" ||| field tx "value" ||| JNum num_0);;
  titleText <-- ToString title;;
  metaText <-- ToString meta;;
  dateText <-- ToString date;;
  amountText <-- currency (JNum (SFabs amount));;
  Normal (TxRow titleText metaText dateText (SFltb amount num_0) amountText).

(** [forEach] over the elements: each row is appended as soon as it is
    built, so the rows before a throwing element stay in the list. *)
Fixpoint appendRows (row : JSValue -> Completion TxItem) (l : list JSValue)
    : M unit :=
  match l with
  | [] => ret tt
  | tx :: r =>
      item <- lift (row tx);;
      modify (set_page (set_txList (fun items => (items ++ [item])%list)));;
      appendRows row r
  end.

(** [renderTransactions()] *)
Definition renderTransactions : M unit :=
  modify (set_page (set_txList (fun _ => [])));;
  txs <- gets (fun w => transactions (App w));;
  if negb (truthy txs) || negb (hasLength txs) then
    modify (set_page (set_txList (fun _ => [NoTransactions])))
  else
    match txs with
    | JArr l => appendRows renderRow l
    | _ => throw "TypeError"
    end.

(** [loadTransactions()] *)
Definition loadTransactions : M unit :=
  res <- apiFetch "/me/transactions" no_options;;
  (if ok res && isArray (field (data res) "transactions")
   then modify (set_App (set_transactions (field (data res) "transactions")))
   else if ok res && isArray (data res)
   then modify (set_App (set_transactions (data res)))
   else modify (set_App (set_transactions (mock_transactions MOCK))));;
  renderTransactions.

(** [onLoggedIn()] *)
Definition onLoggedIn : M unit :=
  hide authScreen;;
  show dashboardScreen;;
  u <- gets (fun w => user (App w));;
  name <- lift (ToString (field u "name" ||| JStr "User"));;
  modify (set_page (set_greeting ("Hi, " +:+ name)));;
  email <- lift (textOf (field u "email" ||| JStr ""));;
  modify (set_page (set_userEmail email));;
  refreshBalance;;
  loadTransactions.

(** What both [handleLogin] and [handleRegister] do with the reply [res];
    [done] is the success notice and [fallback] the last-resort failure
    text.  [setItem] converts the token to a string and throws when that
    cannot be done: by then [App] holds the token and the user, and
    nothing that follows is run.  [onLoggedIn()] is called without
    [await]: it touches neither the toast nor the notices, so running it
    to its end before the notice leaves the same world as the
    interleaving of the browser. *)
Definition enterSession (res : ApiResult) (done fallback : string) : M unit :=
  if ok res && truthy (data res)
     && truthy (field (data res) "token" ||| field (data res) "access_token")
  then
    modify (set_App (set_token (field (data res) "token" ||| field (data res) "access_token")));;
    modify (set_App (set_user (field (data res) "user" ||| field (data res) "profile"
                                 ||| mock_user MOCK)));;
    tok <- gets (fun w => token (App w));;
    t <- lift (ToString tok);;
    modify (set_localStorage (insert "pd_token" t));;
    u <- gets (fun w => user (App w));;
    modify (set_localStorage (insert "pd_user" (JSON_stringify u)));;
    detached onLoggedIn;;
    toast (JStr done)
  else
    toast (failureMessage res fallback).

(** [handleLogin(e)] *)
Definition handleLogin : M unit :=
  identifier <- gets (fun w => trim (value (page w) "#login-identifier"));;
  password <- gets (fun w => trim (value (page w) "#login-password"));;
  if String.eqb identifier "" || String.eqb password "" then
    toast (JStr "Provide email/phone and password")
  else
    res <- apiFetch "/auth/login"
             (post (JSON_stringify (obj
                [("identifier", JStr identifier); ("password", JStr password)])));;
    enterSession res "Logged in" "Login failed".

(** [handleRegister(e)] *)
Definition handleRegister : M unit :=
  name <- gets (fun w => trim (value (page w) "#register-name"));;
  email <- gets (fun w => trim (value (page w) "#register-email"));;
  phone <- gets (fun w => trim (value (page w) "#register-phone"));;
  password <- gets (fun w => trim (value (page w) "#register-password"));;
  if String.eqb name "" || String.eqb email "" || String.eqb password "" then
    toast (JStr "Complete required fields")
  else
    res <- apiFetch "/auth/register"
             (post (JSON_stringify (obj
                [("name", JStr name); ("email", JStr email);
                 ("phone", JStr phone); ("password", JStr password)])));;
    enterSession res "Account created" "Register failed".

Definition openAddMoneyModal : M unit := show addMoneyModal.
Definition closeAddMoneyModal : M unit := hide addMoneyModal.
Definition closeServiceModal : M unit := hide serviceModal.

(** [window.PaystackPop && window.PaystackPop.setup] *)
Definition widgetUsable (w : World) : bool :=
  match PaystackPop w with WidgetReady => true | _ => false end.

(** [loadPaystackKey()] *)
Definition loadPaystackKey : M unit :=
  p <- gets PaystackPop;;
  if negb (String.eqb (PAYSTACK_PUBLIC_KEY CONFIG) "")
     && match p with WidgetAbsent => true | _ => false end
  then modify (set_paystackScript true)
  else ret tt.

(** The wait of 800 ms in [startPayment], by the end of which an appended
    script may have attached the widget. *)
Definition awaitWidget : M unit :=
  modify (fun w => if widgetLoads env && paystackScript w
                   then set_PaystackPop WidgetReady w else w).

(** The card branch of [startPayment()]: whether the payment frame was
    opened. *)
Definition openWidget (amount : number) (method : string) : M bool :=
  if String.eqb method "card" && negb (String.eqb (PAYSTACK_PUBLIC_KEY CONFIG) "")
  then
    usable <- gets widgetUsable;;
    (if negb usable then
       toast (JStr "Loading Paystack script...");;
       loadPaystackKey;;
       awaitWidget
     else ret tt);;
    usable <- gets widgetUsable;;
    if usable then
      u <- gets (fun w => user (App w));;
      modify (set_checkout (Some (mkCheckout (PAYSTACK_PUBLIC_KEY CONFIG)
        (field u "email" ||| JStr "customer@example.com")
        (Math_round (SFmul 53 1024 amount num_100))
        (field u "phone" ||| JStr ""))));;
      closeAddMoneyModal;;
      ret true
    else
      toast (JStr "Paystack failed to initialize; falling back to transfer flow.");;
      ret false
  else ret false.

(** [startPayment()] past its amount check. *)
Definition startPayment_pay (amount : number) (method : string) : M unit :=
  opened <- openWidget amount method;;
  if opened : bool then ret tt
  else
    res <- apiFetch "/pay/topup"
             (post (JSON_stringify (obj
                [("amount", JNum amount); ("method", JStr method)])));;
    if ok res then
      toast (JStr "Top up initiated");;
      refreshBalance;;
      loadTransactions;;
      closeAddMoneyModal
    else toast (failureMessage res "Top up failed").

(** The amount [startPayment] reads: [Number(input.value) || 0]. *)
Definition topupAmount (w : World) : number :=
  orZero (StringToNumber (value (page w) "#add-amount")).

(** [startPayment()] *)
Definition startPayment : M unit :=
  amount <- gets topupAmount;;
  method <- gets (fun w => value (page w) "#add-method");;
  if negb (truthy (JNum amount)) || SFltb amount num_50 then
    toast (JStr "Provide a valid amount (min 50)")
  else startPayment_pay amount method.

(** [payService()] *)
Definition payService : M unit :=
  customer <- gets (fun w => trim (value (page w) "#service-customer"));;
  amount <- gets (fun w => StringToNumber (value (page w) "#service-amount"));;
  if String.eqb customer "" || negb (truthy (JNum amount)) || SFleb amount num_0 then
    toast (JStr "Complete the service form")
  else
    service <- gets currentService;;
    res <- apiFetch "/pay/service"
             (post (JSON_stringify (obj
                [("service", service); ("customer", JStr customer);
                 ("amount", JNum amount)])));;
    if ok res then
      toast (JStr "Service paid");;
      refreshBalance;;
      loadTransactions;;
      closeServiceModal
    else toast (failureMessage res "Service payment failed").

(** The click handler of the logout button, from [wireUI]. *)
Definition logout_click : M unit :=
  modify (set_App (set_token JNull));;
  modify (set_App (set_user JNull));;
  modify (set_localStorage (delete "pd_token"));;
  modify (set_localStorage (delete "pd_user"));;
  hide dashboardScreen;;
  show authScreen.

(** The click handler of the balance toggle, from [wireUI]. *)
Definition toggle_balance_click : M unit :=
  modify (set_App (fun a => set_balanceVisible (negb (balanceVisible a)) a));;
  updateBalanceUI.

End Script.

(** ** The demo variant

    The older variant of the script has the same [App] object, page and
    helpers.  The functions below are the ones whose text differs; [show],
    [hide], [currency], [updateBalanceUI] and [closeServiceModal] are used
    as above, their text being the same up to the missing null guards. *)
Module Legacy.

Definition MOCK : Mock :=
  mkMock (JStr "demo-token")
    (obj [("name", JStr "Eunice Chidi");
          ("email", JStr "eunice@example.com");
          ("phone", JStr "08130000000")])
    (JNum num_15200_5)
    mock_rows.

(** The configuration the demo variant ships with: no backend. *)
Definition CONFIG_demo : Config := mkConfig "" "" "".

Section Legacy.
Context {engine : Engine}.
Variable CONFIG : Config.
Variable env : Env.

(** [toast(msg)], which dereferences the toast element without a guard. *)
Definition toast (msg : JSValue) : M unit :=
  present <- gets (fun w => toastPresent (page w));;
  if negb present then throw "TypeError"
  else
    s <- lift (textOf msg);;
    modify (set_page (set_toastText s));;
    show toastEl;;
    modify (set_notices (fun l => (l ++ [s])%list)).

Definition base : string :=
  if String.eqb (API_BASE CONFIG) "" then "" else trim (API_BASE CONFIG).

Definition mockReply (path : string) (now : number) : ApiResult :=
  let session := obj [("token", mock_token MOCK); ("user", mock_user MOCK)] in
  if includes path "/auth/login" then success session
  else if includes path "/auth/register" then success session
  else if includes path "/me/balance" then
    success (obj [("balance", mock_balance MOCK)])
  else if includes path "/me/transactions" then
    success (obj [("transactions", mock_transactions MOCK)])
  else if includes path "/pay/service" then
    success (obj [("result", JStr "success");
                  ("id", JStr ("svc_" +:+ NumberToString now))])
  else failure (JStr "No API configured (demo mode)").

(** [apiFetch(path, options)], with the bearer header built before the
    [try] as in [script.js]. *)
Definition apiFetch (path : string) (options : Options) : M ApiResult :=
  if String.eqb base "" then
    now <- gets clock;;
    ret (mockReply path now)
  else
    tok <- gets (fun w => token (App w));;
    auth <- (if truthy tok then
               t <- lift (ToString tok);;
               ret (Some ("Bearer " +:+ t))
             else ret None);;
    n <- gets (fun w => length (fetchLog w));;
    let req := mkRequest (base +:+ path) (default "GET" (o_method options))
                 (o_body options) auth in
    modify (set_fetchLog (fun l => (l ++ [req])%list));;
    match respond env n req with
    | Replied ok status json => ret (mkResult ok json JUndefined (JNum status))
    | Rejected message asString =>
        let err := JError message asString in
        ret (failure (field err "message" ||| err))
    end.

(** [refreshBalance()] *)
Definition refreshBalance : M unit :=
  res <- apiFetch "/me/balance" no_options;;
  (if ok res then
     b <- lift (getProp (data res) "balance");;
     modify (set_App (set_balance b))
   else modify (set_App (set_balance (mock_balance MOCK ||| JNum num_0))));;
  updateBalanceUI.

(** The row [renderTransactions] builds for one element. *)
Definition renderRow (tx : JSValue) : Completion TxItem :=
  t <-- getProp tx "title";;
  titleText <-- ToString t;;
  metaText <-- ToString (field tx "meta");;
  dateText <-- ToString (field tx "date");;
  amount <-- ToNumber (field tx "amount");;
  amountText <-- currency (JNum (SFabs amount));;
  Normal (TxRow titleText metaText dateText (SFltb amount num_0) amountText).

(** [renderTransactions()] *)
Definition renderTransactions : M unit :=
  modify (set_page (set_txList (fun _ => [])));;
  txs <- gets (fun w => transactions (App w));;
  if negb (truthy txs) || negb (hasLength txs) then
    modify (set_page (set_txList (fun _ => [NoTransactions])))
  else
    match txs with
    | JArr l => appendRows renderRow l
    | _ => throw "TypeError"
    end.

(** [loadTransactions()] *)
Definition loadTransactions : M unit :=
  res <- apiFetch "/me/transactions" no_options;;
  (if ok res then
     t <- lift (getProp (data res) "transactions");;
     modify (set_App (set_transactions t))
   else modify (set_App (set_transactions (mock_transactions MOCK))));;
  renderTransactions.

(** [payService()] *)
Definition payService : M unit :=
  customer <- gets (fun w => trim (value (page w) "#service-customer"));;
  amount <- gets (fun w => StringToNumber (value (page w) "#service-amount"));;
  if String.eqb customer "" || negb (truthy (JNum amount)) || SFleb amount num_0 then
    toast (JStr "Complete the service form")
  else
    service <- gets currentService;;
    res <- apiFetch "/pay/service"
             (post (JSON_stringify (obj
                [("service", service); ("customer", JStr customer);
                 ("amount", JNum amount)])));;
    if ok res then
      toast (JStr "Service paid");;
      refreshBalance;;
      loadTransactions;;
      closeServiceModal
    else
      e <- lift (ToString (error res ||| JStr "server error"));;
      toast (JStr ("Service failed: " +:+ e)).

(** The click handler of the logout button, from [wireUI]. *)
Definition logout_click : M unit :=
  modify (set_App (set_token JNull));;
  modify (set_App (set_user JNull));;
  hide dashboardScreen;;
  show authScreen.

End Legacy.
End Legacy.

(** ** The rest of [script.js]

    Start-up, the completion callback of the payment frame and the
    opening of the service modal.  [wireUI()] registers the handlers
    modelled above and below and changes nothing by itself. *)

(** The built-ins these functions add to those of [Engine]. *)
Class Builtins := {
  (** [JSON.parse(text)]: the value, or the SyntaxError it throws *)
  JSON_parse : string -> Completion JSValue;
  (** [encodeURIComponent] *)
  encodeURIComponent : string -> string;
  (** [String.prototype.toUpperCase] *)
  toUpperCase : string -> string
}.

(** [localStorage.getItem(k)]: the stored string, or [null]. *)
Definition getItem (k : string) (w : World) : JSValue :=
  match localStorage w !! k with
  | Some s => JStr s
  | None => JNull
  end.

(** [s.startsWith(p)] *)
Definition startsWith (s p : string) : bool := String.prefix p s.

(** [s.charAt(0)] and [s.slice(1)], on strings of one-byte characters. *)
Definition charAt0 (s : string) : string :=
  match s with String a _ => String a EmptyString | EmptyString => EmptyString end.
Definition slice1 (s : string) : string :=
  match s with String _ r => r | EmptyString => EmptyString end.

Definition set_currentService (v : JSValue) (w : World) : World :=
  mkWorld (App w) (localStorage w) (page w) v (fetchLog w) (notices w)
    (PaystackPop w) (paystackScript w) (checkout w) (clock w).

(** [$(sel).value = v] *)
Definition set_value (sel v : string) (p : Page) : Page :=
  mkPage (hidden p) (greeting p) (userEmail p) (balanceValue p) (txList p)
    (toastPresent p) (toastText p)
    (fun s => if String.eqb s sel then v else value p s).

(** The world together with the title of the service modal, which only
    [openServiceModal] writes. *)
Record Shell := mkShell {
  world : World;
  serviceTitle : string
}.

Section Startup.
Context {engine : Engine} {builtins : Builtins}.
Variable CONFIG : Config.
Variable env : Env.

(** [init()], past [wireUI()].  [JSON.parse] is handed what [getItem]
    returns, so a missing profile is parsed as the text [null]; a profile
    that does not parse is replaced by the user of the fixture.
    [onLoggedIn()] is called without [await]. *)
Definition init : M unit :=
  loadPaystackKey CONFIG;;
  tok <- gets (getItem "pd_token");;
  if truthy tok then
    modify (set_App (set_token tok));;
    stored <- gets (getItem "pd_user");;
    text <- lift (ToString stored);;
    modify (set_App (set_user
      match JSON_parse text with
      | Normal u => u
      | Throw _ => mock_user MOCK
      end));;
    detached (onLoggedIn CONFIG env)
  else
    hide dashboardScreen;;
    show authScreen.

(** The path of the verification request. *)
Definition verifyPath : string :=
  if startsWith (PAYSTACK_VERIFY_ENDPOINT CONFIG) "/"
  then PAYSTACK_VERIFY_ENDPOINT CONFIG
  else "/" +:+ PAYSTACK_VERIFY_ENDPOINT CONFIG.

(** The [callback] that [startPayment] hands to the payment frame, called
    by the frame with [response.reference]. *)
Definition paymentCallback (reference : JSValue) : M unit :=
  toast (JStr "Payment successful. Verifying...");;
  (if negb (String.eqb (PAYSTACK_VERIFY_ENDPOINT CONFIG) "") then
     r <- lift (ToString reference);;
     v <- apiFetch CONFIG env
            (verifyPath +:+ "?reference=" +:+ encodeURIComponent r)
            no_options;;
     if ok v then toast (JStr "Payment verified")
     else toast (JStr "Verification failed")
   else ret tt);;
  refreshBalance CONFIG env;;
  loadTransactions CONFIG env.

(** [openServiceModal(service)], for a service kind given as a string. *)
Definition openServiceModal (service : string) (sh : Shell) : Shell :=
  let w := set_currentService (JStr service) (world sh) in
  let title := toUpperCase (charAt0 service) +:+ slice1 service in
  let w := set_page (set_value "#service-customer" "") w in
  let w := set_page (set_value "#service-amount" "") w in
  mkShell (after (show serviceModal) w) title.

End Startup.

(** ** The rest of the demo variant

    Its start-up, its login and registration handlers, its top-up and the
    callback of its payment frame.  The wrappers that [init] stores in
    [window.handleLogin] and [window.handleRegister] are installed after
    [wireUI()] has bound the forms to the functions below, and change
    nothing in the world. *)
Module LegacyFlows.

Section LegacyFlows.
Context {engine : Engine} {builtins : Builtins}.
Variable CONFIG : Config.
Variable env : Env.

(** [onLoggedIn()] *)
Definition onLoggedIn : M unit :=
  hide authScreen;;
  show dashboardScreen;;
  u <- gets (fun w => user (App w));;
  name <- lift (ToString (field u "name" ||| JStr "User"));;
  modify (set_page (set_greeting ("Hi, " +:+ name)));;
  email <- lift (textOf (field u "email" ||| JStr ""));;
  modify (set_page (set_userEmail email));;
  Legacy.refreshBalance CONFIG env;;
  Legacy.loadTransactions CONFIG env.

(** What both handlers do with the reply: any reply that is [ok] signs
    in, with whatever its [token] and [user] fields read. *)
Definition enterSession (res : ApiResult) (done failed : string) : M unit :=
  if ok res then
    t <- lift (getProp (data res) "token");;
    modify (set_App (set_token t));;
    u <- lift (getProp (data res) "user");;
    modify (set_App (set_user u));;
    detached onLoggedIn;;
    Legacy.toast (JStr done)
  else
    e <- lift (ToString (error res ||| JStr "server error"));;
    Legacy.toast (JStr (failed +:+ e)).

(** [handleLogin(e)] *)
Definition handleLogin : M unit :=
  identifier <- gets (fun w => trim (value (page w) "#login-identifier"));;
  password <- gets (fun w => trim (value (page w) "#login-password"));;
  if String.eqb identifier "" || String.eqb password "" then
    Legacy.toast (JStr "Provide email/phone and password")
  else
    res <- Legacy.apiFetch CONFIG env "/auth/login"
             (post (JSON_stringify (obj
                [("identifier", JStr identifier); ("password", JStr password)])));;
    enterSession res "Logged in" "Login failed: ".

(** [handleRegister(e)] *)
Definition handleRegister : M unit :=
  name <- gets (fun w => trim (value (page w) "#register-name"));;
  email <- gets (fun w => trim (value (page w) "#register-email"));;
  phone <- gets (fun w => trim (value (page w) "#register-phone"));;
  password <- gets (fun w => trim (value (page w) "#register-password"));;
  if String.eqb name "" || String.eqb email "" || String.eqb password "" then
    Legacy.toast (JStr "Complete required fields")
  else
    res <- Legacy.apiFetch CONFIG env "/auth/register"
             (post (JSON_stringify (obj
                [("name", JStr name); ("email", JStr email);
                 ("phone", JStr phone); ("password", JStr password)])));;
    enterSession res "Account created" "Register failed: ".

(** The card branch of [startPayment()]: whether the payment frame was
    opened. *)
Definition openWidget (amount : number) (method : string) : M bool :=
  if String.eqb method "card" && negb (String.eqb (PAYSTACK_PUBLIC_KEY CONFIG) "")
  then
    usable <- gets widgetUsable;;
    if usable then
      u <- gets (fun w => user (App w));;
      modify (set_checkout (Some (mkCheckout (PAYSTACK_PUBLIC_KEY CONFIG)
        (field u "email" ||| JStr "customer@example.com")
        (Math_round (SFmul 53 1024 amount num_100))
        (field u "phone" ||| JStr ""))));;
      closeAddMoneyModal;;
      ret true
    else
      Legacy.toast (JStr "Paystack script not loaded; falling back to demo top up");;
      ret false
  else ret false.

(** [startPayment()] past its amount check. *)
Definition startPayment_pay (amount : number) (method : string) : M unit :=
  opened <- openWidget amount method;;
  if opened : bool then ret tt
  else
    res <- Legacy.apiFetch CONFIG env "/pay/topup"
             (post (JSON_stringify (obj [("amount", JNum amount)])));;
    if ok res then
      Legacy.toast (JStr "Top up success");;
      Legacy.refreshBalance CONFIG env;;
      Legacy.loadTransactions CONFIG env;;
      closeAddMoneyModal
    else
      e <- lift (ToString (error res ||| JStr "server error"));;
      Legacy.toast (JStr ("Top up failed: " +:+ e)).

(** [startPayment()] *)
Definition startPayment : M unit :=
  amount <- gets topupAmount;;
  method <- gets (fun w => value (page w) "#add-method");;
  if negb (truthy (JNum amount)) || SFltb amount num_50 then
    Legacy.toast (JStr "Provide a valid amount (min 50)")
  else startPayment_pay amount method.

(** The [callback] handed to the payment frame: a verification that
    fails ends it without a refresh. *)
Definition paymentCallback (reference : JSValue) : M unit :=
  Legacy.toast (JStr "Payment success, verifying...");;
  if negb (String.eqb (PAYSTACK_VERIFY_ENDPOINT CONFIG) "") then
    r <- lift (ToString reference);;
    v <- Legacy.apiFetch CONFIG env
           (PAYSTACK_VERIFY_ENDPOINT CONFIG +:+ "?reference=" +:+ encodeURIComponent r)
           no_options;;
    if ok v then
      Legacy.toast (JStr "Payment verified");;
      Legacy.refreshBalance CONFIG env;;
      Legacy.loadTransactions CONFIG env
    else Legacy.toast (JStr "Verification failed")
  else
    Legacy.refreshBalance CONFIG env;;
    Legacy.loadTransactions CONFIG env.

(** [init()], past [wireUI()].  A stored profile that does not parse
    makes it throw, the token already restored. *)
Definition init : M unit :=
  loadPaystackKey CONFIG;;
  tok <- gets (getItem "pd_token");;
  if truthy tok then
    modify (set_App (set_token tok));;
    stored <- gets (getItem "pd_user");;
    text <- lift (ToString (stored ||| JStr "null"));;
    match JSON_parse text with
    | Throw e => throw e
    | Normal u =>
        modify (set_App (set_user (u ||| mock_user Legacy.MOCK)));;
        detached onLoggedIn
    end
  else
    hide dashboardScreen;;
    show authScreen.

End LegacyFlows.
End LegacyFlows.

(** ** An engine for the examples

    A small engine on which the examples below run.  It does what a
    browser with an en-US locale does on the inputs it is meant for:
    trimming of ASCII white space, [Number] of unsigned decimal integer
    literals, [String] of numbers with a short exact decimal expansion
    below 1e21, [toLocaleString] with two fraction digits, [Math.round]
    and [JSON.stringify] of values whose strings need no escape beyond
    quotes and backslashes (object keys are printed in the order of the
    map).  The properties are proved for every engine; this one only
    supplies concrete runs. *)
Module RefEngine.

Definition take (n : nat) (s : string) : string := substring 0 n s.
Definition drop (n : nat) (s : string) : string :=
  substring n (String.length s - n) s.

Fixpoint trimStart (s : string) : string :=
  match s with
  | String a r => if Ascii.is_space a then trimStart r else s
  | EmptyString => EmptyString
  end.

Definition trim (s : string) : string :=
  String.rev (trimStart (String.rev (trimStart s))).

Definition digit (a : ascii) : option N :=
  let n := N_of_ascii a in
  if (48 <=? n)%N && (n <=? 57)%N then Some (n - 48)%N else None.

Fixpoint digits (acc : N) (s : string) : option N :=
  match s with
  | EmptyString => Some acc
  | String a r =>
      match digit a with
      | Some d => digits (10 * acc + d)%N r
      | None => None
      end
  end.

Definition ofN (neg : bool) (n : N) : number :=
  match n with
  | N0 => S754_zero neg
  | Npos p => lit neg p 0
  end.

Definition StringToNumber (s : string) : number :=
  match digits 0 (trim s) with
  | Some n => ofN false n
  | None => NaN
  end.

Fixpoint dropZeros (s : string) : string :=
  match s with
  | String "0" r => dropZeros r
  | _ => s
  end.

Fixpoint zeros (n : nat) : string :=
  match n with O => "" | S k => "0" +:+ zeros k end.

(** The decimal expansion of [n / 10^k], without trailing zeros. *)
Definition decimal (n : N) (k : nat) : string :=
  let d := pretty n in
  let d := zeros (S k - String.length d) +:+ d in
  let whole := take (String.length d - k) d in
  let frac := String.rev (dropZeros (String.rev (drop (String.length d - k) d))) in
  if String.eqb frac "" then whole else whole +:+ "." +:+ frac.

Definition NumberToString (n : number) : string :=
  match n with
  | S754_zero _ => "0"
  | S754_nan => "NaN"
  | S754_infinity false => "Infinity"
  | S754_infinity true => "-Infinity"
  | S754_finite neg m e =>
      (if neg then "-" else "") +:+
      match e with
      | Zneg k => decimal (Npos m * 5 ^ Npos k) (Pos.to_nat k)
      | _ => pretty (Npos m * 2 ^ Z.to_N e)%N
      end
  end.

(** The integer nearest to [m * 2^e * scale], ties away from zero. *)
Definition scaled (m : positive) (e : Z) (scale : N) : N :=
  match e with
  | Zneg k => ((Npos m * scale * 2 + 2 ^ Npos k) / 2 ^ (Npos k + 1))%N
  | _ => (Npos m * 2 ^ Z.to_N e * scale)%N
  end.

Fixpoint group (n : nat) (s : string) : string :=
  match n with
  | O => s
  | S k =>
      if Nat.leb (String.length s) 3 then s
      else group k (take (String.length s - 3) s)
             +:+ "," +:+ drop (String.length s - 3) s
  end.

Definition toLocaleString (n : number) : string :=
  let fixed (neg : bool) (cents : N) :=
    let frac := pretty (cents mod 100)%N in
    let whole := pretty (cents / 100)%N in
    (if neg then "-" else "") +:+ group (String.length whole) whole +:+ "."
      +:+ zeros (2 - String.length frac) +:+ frac in
  match n with
  | S754_zero neg => fixed neg 0%N
  | S754_nan => "NaN"
  | S754_infinity neg => (if neg then "-" else "") +:+ "∞"
  | S754_finite neg m e => fixed neg (scaled m e 100)
  end.

Definition Math_round (n : number) : number :=
  match n with
  | S754_finite false m e => ofN false (scaled m e 1)
  | S754_finite true m e =>
      match e with
      | Zneg k => ofN true ((Npos m * 2 + 2 ^ Npos k - 1) / 2 ^ (Npos k + 1))%N
      | _ => n
      end
  | _ => n
  end.

Definition quote : string := String (ascii_of_nat 34) EmptyString.
Definition backslash : string := String (ascii_of_nat 92) EmptyString.

Fixpoint escape (s : string) : string :=
  match s with
  | EmptyString => EmptyString
  | String a r =>
      (if Nat.eqb (nat_of_ascii a) 34 || Nat.eqb (nat_of_ascii a) 92
       then backslash else "") +:+ String a (escape r)
  end.

Definition quoted (s : string) : string := quote +:+ escape s +:+ quote.

Definition commas (l : list string) : string := join "," l.

Fixpoint JSON_stringify (v : JSValue) : string :=
  match v with
  | JUndefined | JNull => "null"
  | JBool true => "true"
  | JBool false => "false"
  | JNum (S754_nan) | JNum (S754_infinity _) => "null"
  | JNum n => NumberToString n
  | JStr s => quoted s
  | JArr l =>
      "[" +:+ commas ((fix elems (l : list JSValue) : list string :=
                         match l with
                         | [] => []
                         | x :: r => JSON_stringify x :: elems r
                         end) l) +:+ "]"
  | JObj m =>
      "{" +:+ commas (map_fold (fun k x acc =>
                        match x with
                        | JUndefined => acc
                        | _ => (quoted k +:+ ":" +:+ JSON_stringify x) :: acc
                        end) [] m) +:+ "}"
  | JError _ _ => "{}"
  end.

End RefEngine.

Definition refEngine : Engine :=
  Build_Engine RefEngine.trim RefEngine.StringToNumber RefEngine.NumberToString
    RefEngine.toLocaleString RefEngine.Math_round RefEngine.JSON_stringify.

(** The further built-ins for the examples: a JSON reader for documents
    whose numbers are integers and whose strings escape nothing but
    quotes, backslashes and slashes, percent-encoding of bytes, and upper
    case of ASCII letters. *)
Module RefBuiltins.

Definition isWs (a : ascii) : bool :=
  let n := nat_of_ascii a in
  Nat.eqb n 32 || Nat.eqb n 9 || Nat.eqb n 10 || Nat.eqb n 13.

Fixpoint skipWs (s : string) : string :=
  match s with
  | String a r => if isWs a then skipWs r else s
  | EmptyString => EmptyString
  end.

(** The characters of a string literal past its opening quote, and what
    follows its closing quote. *)
Fixpoint readString (s : string) : option (string * string) :=
  match s with
  | EmptyString => None
  | String a r =>
      if Nat.eqb (nat_of_ascii a) 34 then Some (EmptyString, r)
      else if Nat.eqb (nat_of_ascii a) 92 then
        match r with
        | String b r' =>
            let n := nat_of_ascii b in
            if Nat.eqb n 34 || Nat.eqb n 92 || Nat.eqb n 47 then
              match readString r' with
              | Some (c, rest) => Some (String b c, rest)
              | None => None
              end
            else None
        | EmptyString => None
        end
      else
        match readString r with
        | Some (c, rest) => Some (String a c, rest)
        | None => None
        end
  end.

(** The digits a number starts with, and what follows them. *)
Fixpoint readDigits (s : string) : string * string :=
  match s with
  | String a r =>
      match RefEngine.digit a with
      | Some _ => let (d, rest) := readDigits r in (String a d, rest)
      | None => (EmptyString, s)
      end
  | EmptyString => (EmptyString, EmptyString)
  end.

Definition readNumber (s : string) : option (JSValue * string) :=
  let (neg, s') :=
    match s with
    | String a r => if Nat.eqb (nat_of_ascii a) 45 then (true, r) else (false, s)
    | EmptyString => (false, s)
    end in
  let (d, rest) := readDigits s' in
  match d with
  | EmptyString => None
  | String "0" (String _ _) => None
  | _ =>
      match rest with
      | String a _ =>
          let n := nat_of_ascii a in
          if Nat.eqb n 46 || Nat.eqb n 101 || Nat.eqb n 69 then None
          else option_map (fun n => (JNum (RefEngine.ofN neg n), rest)) (RefEngine.digits 0 d)
      | EmptyString =>
          option_map (fun n => (JNum (RefEngine.ofN neg n), rest)) (RefEngine.digits 0 d)
      end
  end.

Definition readWord (word : string) (v : JSValue) (s : string)
    : option (JSValue * string) :=
  if String.prefix word s
  then Some (v, substring (String.length word) (String.length s - String.length word) s)
  else None.

(** The elements of an array past its first bracket. *)
Fixpoint readElements (value : string -> option (JSValue * string)) (n : nat)
    (s : string) : option (list JSValue * string) :=
  match n with
  | O => None
  | S n' =>
      match value s with
      | None => None
      | Some (v, rest) =>
          match skipWs rest with
          | String "," r =>
              match readElements value n' r with
              | Some (vs, rest') => Some (v :: vs, rest')
              | None => None
              end
          | String "]" r => Some ([v], r)
          | _ => None
          end
      end
  end.

(** The members of an object past its brace. *)
Fixpoint readMembers (value : string -> option (JSValue * string)) (n : nat)
    (s : string) : option (list (string * JSValue) * string) :=
  match n with
  | O => None
  | S n' =>
      match skipWs s with
      | String q r =>
          if negb (Nat.eqb (nat_of_ascii q) 34) then None
          else
            match readString r with
            | None => None
            | Some (k, rest) =>
                match skipWs rest with
                | String ":" r1 =>
                    match value r1 with
                    | None => None
                    | Some (v, rest1) =>
                        match skipWs rest1 with
                        | String "," r2 =>
                            match readMembers value n' r2 with
                            | Some (kvs, rest') => Some ((k, v) :: kvs, rest')
                            | None => None
                            end
                        | String "}" r2 => Some ([(k, v)], r2)
                        | _ => None
                        end
                    end
                | _ => None
                end
            end
      | EmptyString => None
      end
  end.

(** A value, nested at most [depth] deep, and what follows it.  Of
    members with the same key the last one counts. *)
Fixpoint readValue (depth : nat) (s : string) : option (JSValue * string) :=
  match depth with
  | O => None
  | S d =>
      match skipWs s with
      | EmptyString => None
      | String a r as s' =>
          let n := nat_of_ascii a in
          if Nat.eqb n 34 then
            option_map (fun '(c, rest) => (JStr c, rest)) (readString r)
          else if Nat.eqb n 91 then
            match skipWs r with
            | String "]" r' => Some (JArr [], r')
            | _ => option_map (fun '(vs, rest) => (JArr vs, rest))
                     (readElements (readValue d) (String.length r) r)
            end
          else if Nat.eqb n 123 then
            match skipWs r with
            | String "}" r' => Some (JObj ∅, r')
            | _ => option_map
                     (fun '(kvs, rest) =>
                        (JObj (fold_left (fun m kv => <[fst kv := snd kv]> m) kvs ∅), rest))
                     (readMembers (readValue d) (String.length r) r)
            end
          else if Nat.eqb n 110 then readWord "null" JNull s'
          else if Nat.eqb n 116 then readWord "true" (JBool true) s'
          else if Nat.eqb n 102 then readWord "false" (JBool false) s'
          else readNumber s'
      end
  end.

Definition JSON_parse (s : string) : Completion JSValue :=
  match readValue (S (String.length s)) s with
  | Some (v, rest) =>
      match skipWs rest with
      | EmptyString => Normal v
      | _ => Throw "SyntaxError"
      end
  | None => Throw "SyntaxError"
  end.

Definition hexDigit (n : nat) : string :=
  substring n 1 "0123456789ABCDEF".

Definition unreserved (a : ascii) : bool :=
  let n := nat_of_ascii a in
  (Nat.leb 48 n && Nat.leb n 57) || (Nat.leb 65 n && Nat.leb n 90)
  || (Nat.leb 97 n && Nat.leb n 122)
  || existsb (Nat.eqb n) [45; 95; 46; 33; 126; 42; 39; 40; 41].

Fixpoint encodeURIComponent (s : string) : string :=
  match s with
  | EmptyString => EmptyString
  | String a r =>
      (if unreserved a then String a EmptyString
       else "%" +:+ hexDigit (nat_of_ascii a / 16) +:+ hexDigit (nat_of_ascii a mod 16))
      +:+ encodeURIComponent r
  end.

Fixpoint toUpperCase (s : string) : string :=
  match s with
  | EmptyString => EmptyString
  | String a r =>
      let n := nat_of_ascii a in
      String (if Nat.leb 97 n && Nat.leb n 122 then ascii_of_nat (n - 32) else a)
        (toUpperCase r)
  end.

End RefBuiltins.

Definition refBuiltins : Builtins :=
  Build_Builtins RefBuiltins.JSON_parse RefBuiltins.encodeURIComponent
    RefBuiltins.toUpperCase.

(** ** Worlds and environments for the examples *)

Definition page0 : Page :=
  mkPage {[dashboardScreen; addMoneyModal; serviceModal; toastEl]}
    "" "" "" [] true "" (fun _ => "").

(** The world at start-up with nothing in local storage: the login screen
    is shown and [App] is [App0]. *)
Definition world0 : World :=
  mkWorld App0 ∅ page0 JNull [] [] WidgetAbsent false None num_0.

Definition fill (sel v : string) (w : World) : World :=
  set_page (fun p => mkPage (hidden p) (greeting p) (userEmail p)
                       (balanceValue p) (txList p) (toastPresent p) (toastText p)
                       (fun s => if String.eqb s sel then v else value p s)) w.

(** The login form filled in. *)
Definition world_login : World :=
  fill "#login-identifier" "ada@example.com" (fill "#login-password" "secret" world0).

(** The registration form filled in. *)
Definition world_register : World :=
  fill "#register-name" "Ada"
    (fill "#register-email" "ada@example.com"
       (fill "#register-password" "secret" world0)).

(** A backend that answers every request with the same outcome. *)
Definition always (o : FetchOutcome) : Env := mkEnv (fun _ _ => o) false.

(** A backend that answers by the path the address ends in. *)
Definition byPath (routes : list (string * FetchOutcome)) (other : FetchOutcome)
    : Env :=
  mkEnv (fun _ req =>
           default other
             (snd <$> List.find (fun r => includes (url req) (fst r)) routes))
        false.

Definition num_200 : number := Eval cbv in lit false 200 0.
Definition num_401 : number := Eval cbv in lit false 401 0.

(** A reply that names its token [access_token] and its user [profile]. *)
Definition body_alternate : JSValue :=
  obj [("access_token", JStr "t-1"); ("profile", obj [("name", JStr "Ada")])].

(** A reply whose [token] field is the empty string. *)
Definition body_empty_token : JSValue := obj [("token", JStr "")].

(** A reply without a token. *)
Definition body_no_token : JSValue := obj [("status", JStr "pending")].

(** The result [apiFetch] makes of a reply. *)
Definition replied (ok : bool) (status : number) (json : JSValue) : ApiResult :=
  mkResult ok json JUndefined (JNum status).

(** A transaction whose [title] is there but empty. *)
Definition tx_empty_title : JSValue :=
  obj [("title", JStr ""); ("description", JStr "Fee"); ("amount", JNum num_50)].

(** A transaction that only has a [type]. *)
Definition tx_typed : JSValue := obj [("type", JStr "debit"); ("value", JNum num_49)].

(** A value that cannot be converted to a string or to a number: the
    object that the JSON text [{"toString": null}] decodes to. *)
Definition odd : JSValue := obj [("toString", JNull)].

(** A transaction whose title cannot be converted. *)
Definition tx_odd_title : JSValue := obj [("title", odd); ("amount", JNum num_50)].

(** Reply bodies whose token, balance or message cannot be converted. *)
Definition body_odd_token : JSValue := obj [("token", odd)].
Definition body_odd_balance : JSValue := obj [("balance", odd)].
Definition body_odd_message : JSValue := obj [("message", odd)].

(** The start-up world with [l] loaded as the transactions. *)
Definition world_with_rows (l : list JSValue) : World :=
  set_App (set_transactions (JArr l)) world0.

Definition num_120 : number := Eval cbv in lit false 120 0.

(** Balance replies: a number under [balance], a string under [balance],
    and an object without a balance. *)
Definition body_balance_120 : JSValue := obj [("balance", JNum num_120)].
Definition body_balance_text : JSValue := obj [("balance", JStr "100")].
Definition body_no_balance : JSValue := obj [("amount", JNum num_120)].

(** The world of a signed-in user: the session of the fixture in [App]
    and in local storage, the dashboard shown. *)
Definition world_signed_in : World :=
  mkWorld (mkApp (mock_token MOCK) (mock_user MOCK) true (mock_balance MOCK) mock_rows)
    (<["pd_token" := "demo-token"]> (<["pd_user" := "{}"]> (<["theme" := "dark"]> ∅)))
    (set_hidden (fun _ => {[authScreen; addMoneyModal; serviceModal; toastEl]}) page0)
    JNull [] [] WidgetAbsent false None num_0.

(** The service form filled in for electricity. *)
Definition world_service : World :=
  let w := fill "#service-customer" "1234567890" (fill "#service-amount" "2000" world0) in
  mkWorld (App w) (localStorage w) (page w) (JStr "electricity") (fetchLog w)
    (notices w) (PaystackPop w) (paystackScript w) (checkout w) (clock w).

Definition num_402 : number := Eval cbv in lit false 402 0.

(** Replies of a backend that refuses. *)
Definition body_invalid : JSValue := obj [("message", JStr "invalid credentials")].
Definition body_insufficient : JSValue := obj [("message", JStr "Insufficient funds")].

(** The add-money form filled in with an amount, for a bank transfer. *)
Definition world_topup (amount : string) : World :=
  fill "#add-amount" amount (fill "#add-method" "transfer" world0).

(** The signed-in world with its balance on display. *)
Definition world_dashboard : World :=
  set_page (set_balanceValue "₦15,200.50") world_signed_in.

(** ** Vocabulary of the properties *)

(** [keeps proj m]: whatever [m] does, and however it completes, the part
    [proj] of the world is the same afterwards. *)
Definition keeps {A B} (proj : World -> B) (m : M A) : Prop :=
  forall w, proj (after m w) = proj w.

(** A part of the world that none of the writes of the two refreshes
    reaches: the request log, the balance and its text, the transactions
    and their list. *)
Definition refresh_blind {B} (proj : World -> B) : Prop :=
  (forall f w, proj (set_fetchLog f w) = proj w)
  /\ (forall s w, proj (set_page (set_balanceValue s) w) = proj w)
  /\ (forall f w, proj (set_page (set_txList f) w) = proj w)
  /\ (forall v w, proj (set_App (set_balance v) w) = proj w)
  /\ (forall v w, proj (set_App (set_transactions v) w) = proj w).

(** The session proper: token and user. *)
Definition session (w : World) : JSValue * JSValue :=
  (token (App w), user (App w)).

(** The token is the one signal of being authenticated. *)
Definition authenticated (w : World) : bool := truthy (token (App w)).

(** Whether [v] is an object that has a field [k]. *)
Definition hasOwn (v : JSValue) (k : string) : bool :=
  match v with
  | JObj m => bool_decide (is_Some (m !! k))
  | _ => false
  end.

(** The endpoint families demo mode knows. *)
Definition endpointFamilies : list string :=
  ["/auth/login"; "/auth/register"; "/me/balance"; "/me/transactions";
   "/pay/service"; "/pay/topup"].

Definition inFamily (path : string) : bool :=
  existsb (includes path) endpointFamilies.

(** The first candidate that is truthy, else the last resort. *)
Fixpoint firstTruthy (l : list JSValue) (last : JSValue) : JSValue :=
  match l with
  | [] => last
  | x :: r => if truthy x then x else firstTruthy r last
  end.

(** The text of a row, when the item is a row. *)
Definition rowTitle (i : TxItem) : option string :=
  match i with
  | TxRow title _ _ _ _ => Some title
  | NoTransactions => None
  end.

Section Vocabulary.
Context {engine : Engine}.

(** The title a row shows for the element [tx]: the first truthy one of
    its [title], [description] and [type], else the fixed word. *)
Definition titleShown (tx : JSValue) : string :=
  stringOf (firstTruthy [field tx "title"; field tx "description"; field tx "type"]
              (JStr "Transaction")).

(** The values a row shows of the element [tx], before they are
    converted. *)
Definition shownTitle (tx : JSValue) : JSValue :=
  firstTruthy [field tx "title"; field tx "description"; field tx "type"]
    (JStr "Transaction").
Definition shownMeta (tx : JSValue) : JSValue :=
  firstTruthy [field tx "meta"; field tx "source"; field tx "note"] (JStr "").
Definition shownDate (tx : JSValue) : JSValue :=
  firstTruthy [field tx "date"; field tx "created_at"] (JStr "").
Definition shownAmount (tx : JSValue) : JSValue :=
  firstTruthy [field tx "amount"; field tx "value"] (JNum num_0).

(** Whether a row can be built for the element [tx]: it is neither
    [null] nor [undefined], and its amount, title, meta and date can be
    converted. *)
Definition renderable (tx : JSValue) : bool :=
  negb (nullish tx) && convertible (shownAmount tx) && convertible (shownTitle tx)
  && convertible (shownMeta tx) && convertible (shownDate tx).

(** The title by presence of the fields rather than by their truth. *)
Definition titleByPresence (tx : JSValue) : string :=
  if hasOwn tx "title" then stringOf (field tx "title")
  else if hasOwn tx "description" then stringOf (field tx "description")
  else if hasOwn tx "type" then stringOf (field tx "type")
  else "Transaction".

(** The options [handleLogin] calls [apiFetch] with, and whether its
    check of the form lets the call happen. *)
Definition loginOptions (w : World) : Options :=
  post (JSON_stringify (obj
    [("identifier", JStr (trim (value (page w) "#login-identifier")));
     ("password", JStr (trim (value (page w) "#login-password")))])).

Definition loginFilled (w : World) : bool :=
  negb (String.eqb (trim (value (page w) "#login-identifier")) ""
        || String.eqb (trim (value (page w) "#login-password")) "").

(** The same for [handleRegister]. *)
Definition registerOptions (w : World) : Options :=
  post (JSON_stringify (obj
    [("name", JStr (trim (value (page w) "#register-name")));
     ("email", JStr (trim (value (page w) "#register-email")));
     ("phone", JStr (trim (value (page w) "#register-phone")));
     ("password", JStr (trim (value (page w) "#register-password")))])).

Definition registerFilled (w : World) : bool :=
  negb (String.eqb (trim (value (page w) "#register-name")) ""
        || String.eqb (trim (value (page w) "#register-email")) ""
        || String.eqb (trim (value (page w) "#register-password")) "").

(** The test both handlers put a reply to:
    [res.ok && res.data && (res.data.token || res.data.access_token)]. *)
Definition accepts (res : ApiResult) : bool :=
  ok res && truthy (data res)
  && truthy (field (data res) "token" ||| field (data res) "access_token").

(** The options [payService] calls [apiFetch] with, and whether its check
    of the form lets the call happen. *)
Definition serviceAmount (w : World) : number :=
  StringToNumber (value (page w) "#service-amount").

Definition serviceOptions (w : World) : Options :=
  post (JSON_stringify (obj
    [("service", currentService w);
     ("customer", JStr (trim (value (page w) "#service-customer")));
     ("amount", JNum (serviceAmount w))])).

Definition serviceFilled (w : World) : bool :=
  negb (String.eqb (trim (value (page w) "#service-customer")) ""
        || negb (truthy (JNum (serviceAmount w)))
        || SFleb (serviceAmount w) num_0).

(** The balance text that belongs to the state of [App], which is what
    [updateBalanceUI] computes, and whether the page shows it. *)
Definition balanceShown (a : AppState) : Completion string :=
  if balanceVisible a then currency (balance a) else Normal "****".

Definition rendered (w : World) : Prop :=
  balanceShown (App w) = Normal (balanceValue (page w)).

(** The options [startPayment] calls [apiFetch] with. *)
Definition topupOptions (amount : number) (method : string) : Options :=
  post (JSON_stringify (obj [("amount", JNum amount); ("method", JStr method)])).

(** What a failed attempt leaves: the [App] object and local storage as
    they were, every screen where it was, and one more notice. *)
Definition refusedWith (msg : JSValue) (w w' : World) : Prop :=
  App w' = App w
  /\ (token (App w) = JNull -> token (App w') = JNull)
  /\ localStorage w' = localStorage w
  /\ (forall el, el <> toastEl -> el ∈ hidden (page w') <-> el ∈ hidden (page w))
  /\ notices w' = (notices w ++ [stringOf msg])%list.

(** The token and the user both handlers take from an accepted reply. *)
Definition tokenOf (res : ApiResult) : JSValue :=
  firstTruthy [field (data res) "token"] (field (data res) "access_token").

Definition userOf (res : ApiResult) : JSValue :=
  firstTruthy [field (data res) "user"; field (data res) "profile"] (mock_user MOCK).

(** How a handler that ran as [run] from the world [w] turned a reply
    away: the [App] object and local storage are as they were and every
    screen is where it was; the message is shown when it can be converted
    to a string, and the handler throws with nothing shown when it
    cannot. *)
Definition turnedAway (msg : JSValue) (run : Completion unit * World) (w : World)
    : Prop :=
  App (snd run) = App w
  /\ (token (App w) = JNull -> token (App (snd run)) = JNull)
  /\ localStorage (snd run) = localStorage w
  /\ (forall el, el <> toastEl ->
      el ∈ hidden (page (snd run)) <-> el ∈ hidden (page w))
  /\ (convertible msg = true ->
      fst run = Normal tt /\ notices (snd run) = (notices w ++ [stringOf msg])%list)
  /\ (convertible msg = false ->
      fst run = Throw "TypeError" /\ notices (snd run) = notices w).

(** What a session entered from the reply [res] looks like in [w]. *)
Definition enteredFrom (res : ApiResult) (w : World) : Prop :=
  token (App w) = firstTruthy [field (data res) "token"] (field (data res) "access_token")
  /\ authenticated w = true
  /\ user (App w) = firstTruthy [field (data res) "user"; field (data res) "profile"]
                      (mock_user MOCK)
  /\ localStorage w !! "pd_token" = Some (stringOf (token (App w)))
  /\ localStorage w !! "pd_user" = Some (JSON_stringify (user (App w)))
  /\ (dashboardScreen ∉ hidden (page w))
  /\ (authScreen ∈ hidden (page w)).

(** How a handler that ran as [run] from the world [w] signed in from the
    accepted reply [res].  The token and the user are in [App] whatever
    follows.  When the token can be converted to a string the handler
    completes, both are persisted and the dashboard is entered; when it
    cannot, [setItem] throws: nothing is persisted, no screen is switched
    and nothing is shown. *)
Definition signedIn (res : ApiResult) (run : Completion unit * World) (w : World)
    : Prop :=
  token (App (snd run)) = tokenOf res
  /\ authenticated (snd run) = true
  /\ user (App (snd run)) = userOf res
  /\ (convertible (tokenOf res) = true ->
      fst run = Normal tt /\ enteredFrom res (snd run))
  /\ (convertible (tokenOf res) = false ->
      fst run = Throw "TypeError"
      /\ localStorage (snd run) = localStorage w
      /\ page (snd run) = page w
      /\ notices (snd run) = notices w).

End Vocabulary.

(** ** Worlds and vocabulary of the further properties *)

(** A world whose page has the login form filled in and whose local
    storage holds a session. *)
Definition world_returning : World :=
  set_localStorage (fun _ => localStorage world_signed_in) world_login.

(** The page loaded afresh over the local storage that [w] leaves. *)
Definition reloaded (w : World) : World :=
  set_localStorage (fun _ => localStorage w) world0.

(** Local storage with a token and a profile that does not parse. *)
Definition world_bad_profile : World :=
  set_localStorage (fun _ => <["pd_token" := "demo-token"]> ({["pd_user" := "{oops"]}))
    world0.

(** A configuration with a key for the payment frame. *)
Definition CONFIG_card : Config :=
  mkConfig "https://paymomentbackend.onrender.com/api" "pk_test_1" "pay/verify".

(** The add-money form filled in for a card payment, the frame usable. *)
Definition world_card (amount : string) : World :=
  set_PaystackPop WidgetReady
    (set_page (set_value "#add-method" "card")
       (set_page (set_value "#add-amount" amount) world_signed_in)).

(** The same form, the frame missing. *)
Definition world_card_missing (amount : string) : World :=
  set_PaystackPop WidgetAbsent (world_card amount).

(** The demo variant's add-money form, for a transfer. *)
Definition world_topup_signed_in (amount : string) : World :=
  set_page (set_value "#add-method" "transfer")
    (set_page (set_value "#add-amount" amount) world_signed_in).

(** What a step that only shows [text] leaves: one more notice, every
    screen where it was, and nothing sent, stored or opened. *)
Definition onlyNotice (text : string) (w w' : World) : Prop :=
  App w' = App w /\ localStorage w' = localStorage w /\ fetchLog w' = fetchLog w
  /\ checkout w' = checkout w
  /\ notices w' = (notices w ++ [text])%list
  /\ (forall el, el <> toastEl -> el ∈ hidden (page w') <-> el ∈ hidden (page w)).

(** A backend none of whose replies holds a [balance] that cannot be
    converted to a number. *)
Definition balancesConvert (env : Env) : Prop :=
  forall n req ok status json,
    respond env n req = Replied ok status json ->
    convertible (field json "balance") = true.

(** The titles of the rows of the fixture. *)
Definition mock_titles : list (option string) :=
  [Some "Top up"; Some "Electricity"; Some "Airtime"].

Section Vocabulary2.
Context {engine : Engine}.
Variable CONFIG : Config.

(** The bearer header for a token. *)
Definition bearer (tok : JSValue) : option string :=
  if truthy tok then Some ("Bearer " +:+ stringOf tok) else None.

(** The request [apiFetch] hands to [fetch] in the world [w]. *)
Definition requestFor (path : string) (options : Options) (w : World) : Request :=
  mkRequest (base CONFIG +:+ path) (default "GET" (o_method options))
    (o_body options) (bearer (token (App w))).

(** The request of a refresh made with the token [tok]. *)
Definition refreshRequest (path : string) (tok : JSValue) : Request :=
  mkRequest (base CONFIG +:+ path) "GET" None (bearer tok).

(** The result [apiFetch] makes of an outcome of [fetch]. *)
Definition resultOf (o : FetchOutcome) : ApiResult :=
  match o with
  | Replied ok status json => mkResult ok json JUndefined (JNum status)
  | Rejected message asString =>
      failure (field (JError message asString) "message"
               ||| JStr (stringOf (JError message asString)))
  end.

(** The user [init] of [script.js] restores from what is stored. *)
Definition restoredUser {builtins : Builtins} (w : World) : JSValue :=
  match JSON_parse (stringOf (getItem "pd_user" w)) with
  | Normal u => u
  | Throw _ => mock_user MOCK
  end.

End Vocabulary2.

(** * Properties *)

(** ** Sequencing *)

Lemma bind_normal {A B} (m : M A) (k : A -> M B) w a w1 :
  m w = (Normal a, w1) -> bind m k w = k a w1.
Proof. intros E. unfold bind. rewrite E. reflexivity. Qed.

Lemma after_bind {A B} (m : M A) (k : A -> M B) w a w1 :
  m w = (Normal a, w1) -> after (bind m k) w = after (k a) w1.
Proof. intros E. unfold after. rewrite (bind_normal _ _ _ _ _ E). reflexivity. Qed.

Lemma bind_modify {B} f (k : unit -> M B) w : bind (modify f) k w = k tt (f w).
Proof. reflexivity. Qed.

Lemma bind_gets {A B} (f : World -> A) (k : A -> M B) w :
  bind (gets f) k w = k (f w) w.
Proof. reflexivity. Qed.

Lemma after_modify_bind {B} f (k : unit -> M B) w :
  after (bind (modify f) k) w = after (k tt) (f w).
Proof. reflexivity. Qed.

Lemma after_gets_bind {A B} (f : World -> A) (k : A -> M B) w :
  after (bind (gets f) k) w = after (k (f w)) w.
Proof. reflexivity. Qed.

Lemma bind_lift_normal {A B} (a : A) (k : A -> M B) w :
  bind (lift (Normal a)) k w = k a w.
Proof. reflexivity. Qed.

Lemma bind_lift_throw {A B} e (k : A -> M B) w :
  bind (lift (Throw e)) k w = (Throw e, w).
Proof. reflexivity. Qed.

Lemma after_lift_bind {A B} (a : A) (k : A -> M B) w :
  after (bind (lift (Normal a)) k) w = after (k a) w.
Proof. reflexivity. Qed.

Lemma bind_throws {A B} (m : M A) (k : A -> M B) w e w1 :
  m w = (Throw e, w1) -> bind m k w = (Throw e, w1).
Proof. intros E. unfold bind. rewrite E. reflexivity. Qed.

Lemma run_normal {A} (m : M A) w a :
  fst (m w) = Normal a -> m w = (Normal a, after m w).
Proof. unfold after. destruct (m w) as [c w1]; simpl. intros ->. reflexivity. Qed.

Lemma run_throws {A} (m : M A) w e :
  fst (m w) = Throw e -> m w = (Throw e, after m w).
Proof. unfold after. destruct (m w) as [c w1]; simpl. intros ->. reflexivity. Qed.

Lemma fst_bind {A B} (m : M A) (k : A -> M B) w a :
  fst (m w) = Normal a -> fst (bind m k w) = fst (k a (after m w)).
Proof. intros E. rewrite (bind_normal _ _ _ _ _ (run_normal _ _ _ E)). reflexivity. Qed.

Lemma after_bind_fst {A B} (m : M A) (k : A -> M B) w a :
  fst (m w) = Normal a -> after (bind m k) w = after (k a) (after m w).
Proof. intros E. exact (after_bind _ _ _ _ _ (run_normal _ _ _ E)). Qed.

(** A sequence that completed went through both of its steps. *)
Lemma bind_normal_inv {A B} (m : M A) (k : A -> M B) w b :
  fst (bind m k w) = Normal b ->
  exists a, fst (m w) = Normal a /\ fst (k a (after m w)) = Normal b
            /\ after (bind m k) w = after (k a) (after m w).
Proof.
  unfold after, bind. destruct (m w) as [[a | e] w1]; simpl; [| discriminate].
  intros E. exists a. auto.
Qed.

(** What follows a step that keeps a part of the world does not show in
    that part, whether the step before it completes or throws. *)
Lemma keeps_after_bind {A B C} (proj : World -> C) (m : M A) (k : A -> M B) w :
  (forall a, keeps proj (k a)) -> proj (after (bind m k) w) = proj (after m w).
Proof.
  intros Hk. unfold after, bind. destruct (m w) as [[a | e] w1]; simpl; [| reflexivity].
  apply Hk.
Qed.

(** ** Conversions *)

Section Conversions.
Context {engine : Engine}.

Lemma ToString_convertible v :
  convertible v = true -> ToString v = Normal (stringOf v).
Proof. intros E. unfold ToString. rewrite E. reflexivity. Qed.

Lemma ToString_throws v :
  convertible v = false -> ToString v = Throw "TypeError".
Proof. intros E. unfold ToString. rewrite E. reflexivity. Qed.

Lemma ToNumber_convertible v :
  convertible v = true -> ToNumber v = Normal (numberOf v).
Proof. intros E. unfold ToNumber. rewrite E. reflexivity. Qed.

Lemma ToNumber_throws v :
  convertible v = false -> ToNumber v = Throw "TypeError".
Proof. intros E. unfold ToNumber. rewrite E. reflexivity. Qed.

Lemma NumberOr0_convertible v :
  convertible v = true -> NumberOr0 v = Normal (numberOrZero v).
Proof. intros E. unfold NumberOr0. rewrite (ToNumber_convertible _ E). reflexivity. Qed.

Lemma NumberOr0_throws v :
  convertible v = false -> NumberOr0 v = Throw "TypeError".
Proof. intros E. unfold NumberOr0. rewrite (ToNumber_throws _ E). reflexivity. Qed.

(** Only objects and arrays can fail to convert, and they are truthy. *)
Lemma unconvertible_truthy v : convertible v = false -> truthy v = true.
Proof. destruct v; simpl; try discriminate; reflexivity. Qed.

Lemma nullish_convertible v : nullish v = true -> convertible v = true.
Proof. destruct v; simpl; try discriminate; reflexivity. Qed.

Lemma textOf_convertible v :
  convertible v = true -> textOf v = Normal (textFor v).
Proof.
  intros E. unfold textOf, textFor. destruct (nullish v); [reflexivity |].
  apply ToString_convertible, E.
Qed.

Lemma textOf_throws v :
  convertible v = false -> textOf v = Throw "TypeError".
Proof.
  intros E. unfold textOf. destruct (nullish v) eqn:En.
  - rewrite (nullish_convertible _ En) in E. discriminate.
  - apply ToString_throws, E.
Qed.

Lemma currency_convertible v :
  convertible v = true -> currency v = Normal (currencyText v).
Proof.
  intros E. unfold currency, currencyText.
  destruct v; try reflexivity; rewrite (NumberOr0_convertible _ E); reflexivity.
Qed.

Lemma currency_throws v :
  convertible v = false -> currency v = Throw "TypeError".
Proof.
  intros E. unfold currency.
  destruct v; try discriminate; rewrite (NumberOr0_throws _ E); reflexivity.
Qed.

(** A conversion either completes with its value or throws a TypeError. *)
Lemma ToString_cases v :
  (convertible v = true /\ ToString v = Normal (stringOf v))
  \/ (convertible v = false /\ ToString v = Throw "TypeError").
Proof.
  destruct (convertible v) eqn:E;
    [left; split; [reflexivity | apply ToString_convertible, E]
    | right; split; [reflexivity | apply ToString_throws, E]].
Qed.

End Conversions.


(** ** Frames: what a step leaves alone *)

Section Keeps.
Context {B : Type} (proj : World -> B).

Lemma keeps_ret {A} (a : A) : keeps proj (ret a).
Proof. intros w. reflexivity. Qed.

Lemma keeps_gets {A} (f : World -> A) : keeps proj (gets f).
Proof. intros w. reflexivity. Qed.

Lemma keeps_throw {A} e : keeps proj (@throw A e).
Proof. intros w. reflexivity. Qed.

Lemma keeps_lift {A} (c : Completion A) : keeps proj (lift c).
Proof. intros w. reflexivity. Qed.

Lemma keeps_modify f : (forall w, proj (f w) = proj w) -> keeps proj (modify f).
Proof. intros Hf w. apply Hf. Qed.

Lemma keeps_bind {A C} (m : M A) (k : A -> M C) :
  keeps proj m -> (forall a, keeps proj (k a)) -> keeps proj (bind m k).
Proof.
  intros Hm Hk w. specialize (Hm w). unfold after, bind in *.
  destruct (m w) as [[a | e] w1]; simpl in *.
  - rewrite <- Hm. apply Hk.
  - exact Hm.
Qed.

Lemma keeps_appendRows row l :
  (forall item w,
      proj (set_page (set_txList (fun items => (items ++ [item])%list)) w) = proj w) ->
  keeps proj (appendRows row l).
Proof.
  intros Hp. induction l as [| tx r IH]; simpl.
  - apply keeps_ret.
  - apply keeps_bind; [apply keeps_lift |]. intros item.
    apply keeps_bind; [apply keeps_modify; intros; apply Hp | intros _; exact IH].
Qed.

End Keeps.

(** Steps through a frame goal, one constructor of the step at a time. *)
Ltac keeps_step :=
  match goal with
  | |- keeps _ (bind _ _) => apply keeps_bind; [| intros ?]
  | |- keeps _ (if ?b then _ else _) => destruct b
  | |- keeps _ (match ?c with Normal _ => _ | Throw _ => _ end) => destruct c
  | |- keeps _ (ret _) => apply keeps_ret
  | |- keeps _ (gets _) => apply keeps_gets
  | |- keeps _ (lift _) => apply keeps_lift
  | |- keeps _ (throw _) => apply keeps_throw
  | |- keeps _ (modify _) => apply keeps_modify; intros
  end.

Section Frames.
Context {engine : Engine}.
Variable CONFIG : Config.
Variable env : Env.

(** The header [apiFetch] sends for the token [tok]. *)
Lemma apiFetch_header {A} tok (k : option string -> M A) w :
  convertible tok = true ->
  bind (if truthy tok then
          bind (lift (ToString tok)) (fun t => ret (Some ("Bearer " +:+ t)))
        else ret None) k w
  = k (bearer tok) w.
Proof.
  intros Hc. unfold bearer. destruct (truthy tok); [| reflexivity].
  rewrite (ToString_convertible _ Hc). reflexivity.
Qed.

Lemma apiFetch_header_throws {A} tok (k : option string -> M A) w :
  convertible tok = false ->
  bind (if truthy tok then
          bind (lift (ToString tok)) (fun t => ret (Some ("Bearer " +:+ t)))
        else ret None) k w
  = (Throw "TypeError", w).
Proof.
  intros Hc. rewrite (unconvertible_truthy _ Hc), (ToString_throws _ Hc). reflexivity.
Qed.

(** [apiFetch] completes normally when the token it finds can be put in
    the header; otherwise it throws before anything is sent. *)
Lemma apiFetch_total path options w :
  convertible (token (App w)) = true ->
  exists res w1, apiFetch CONFIG env path options w = (Normal res, w1).
Proof.
  intros Hc. unfold apiFetch. destruct (String.eqb (base CONFIG) ""); [eauto |].
  rewrite bind_gets, (apiFetch_header _ _ _ Hc).
  unfold bind, gets, modify, ret; simpl.
  destruct (respond env _ _); eauto.
Qed.

Lemma apiFetch_throws path options w :
  base CONFIG <> "" -> convertible (token (App w)) = false ->
  apiFetch CONFIG env path options w = (Throw "TypeError", w).
Proof.
  intros Hb Hc. unfold apiFetch.
  destruct (String.eqb_spec (base CONFIG) ""); [contradiction |].
  rewrite bind_gets. apply apiFetch_header_throws, Hc.
Qed.

Lemma apiFetch_keeps {B} (proj : World -> B) path options :
  (forall f w, proj (set_fetchLog f w) = proj w) ->
  keeps proj (apiFetch CONFIG env path options).
Proof.
  intros Hp. unfold apiFetch.
  destruct (String.eqb (base CONFIG) ""); [repeat keeps_step |].
  keeps_step; [keeps_step |]. keeps_step; [repeat keeps_step |].
  keeps_step; [keeps_step |]. keeps_step; [keeps_step; apply Hp |].
  destruct (respond env _ _); keeps_step.
Qed.

Lemma apiFetch_frame path options w :
  let w1 := after (apiFetch CONFIG env path options) w in
  App w1 = App w /\ localStorage w1 = localStorage w /\ page w1 = page w
  /\ notices w1 = notices w /\ currentService w1 = currentService w
  /\ checkout w1 = checkout w.
Proof.
  cbv zeta.
  rewrite (apiFetch_keeps App), (apiFetch_keeps localStorage), (apiFetch_keeps page),
    (apiFetch_keeps notices), (apiFetch_keeps currentService), (apiFetch_keeps checkout)
    by reflexivity.
  auto 10.
Qed.

Lemma toast_keeps {B} (proj : World -> B) msg :
  (forall s w, proj (set_page (set_toastText s) w) = proj w) ->
  (forall f w, proj (set_page (set_hidden f) w) = proj w) ->
  (forall f w, proj (set_notices f w) = proj w) ->
  keeps proj (toast msg).
Proof.
  intros Ht Hh Hn. unfold toast, show.
  repeat keeps_step; first [apply Ht | apply Hh | apply Hn].
Qed.

Lemma updateBalanceUI_keeps {B} (proj : World -> B) :
  (forall s w, proj (set_page (set_balanceValue s) w) = proj w) ->
  keeps proj updateBalanceUI.
Proof. intros Hp. unfold updateBalanceUI. repeat keeps_step. apply Hp. Qed.

Lemma renderTransactions_keeps {B} (proj : World -> B) :
  (forall f w, proj (set_page (set_txList f) w) = proj w) ->
  keeps proj renderTransactions.
Proof.
  intros Hp. unfold renderTransactions.
  apply keeps_bind; [apply keeps_modify; intros; apply Hp | intros _].
  apply keeps_bind; [apply keeps_gets | intros txs].
  destruct (_ || _); [apply keeps_modify; intros; apply Hp |].
  destruct txs; try apply keeps_throw.
  apply keeps_appendRows. intros; apply Hp.
Qed.

Lemma refreshBalance_keeps {B} (proj : World -> B) :
  refresh_blind proj -> keeps proj (refreshBalance CONFIG env).
Proof.
  intros (Hl & Hb & _ & Ha & _). unfold refreshBalance.
  apply keeps_bind; [apply apiFetch_keeps, Hl | intros res].
  apply keeps_bind; [| intros _; apply updateBalanceUI_keeps, Hb].
  repeat keeps_step; apply Ha.
Qed.

Lemma loadTransactions_keeps {B} (proj : World -> B) :
  refresh_blind proj -> keeps proj (loadTransactions CONFIG env).
Proof.
  intros (Hl & _ & Hx & _ & Ht). unfold loadTransactions.
  apply keeps_bind; [apply apiFetch_keeps, Hl | intros res].
  apply keeps_bind; [| intros _; apply renderTransactions_keeps, Hx].
  repeat match goal with |- keeps _ (if ?b then _ else _) => destruct b end;
    apply keeps_modify; intros; apply Ht.
Qed.

(** Entering the dashboard hides the login screen, shows the dashboard
    and leaves the rest of a part that the refreshes do not write. *)
Lemma onLoggedIn_keeps {B} (proj : World -> B) :
  refresh_blind proj ->
  (forall f w, proj (set_page (set_hidden f) w) = proj w) ->
  (forall s w, proj (set_page (set_greeting s) w) = proj w) ->
  (forall s w, proj (set_page (set_userEmail s) w) = proj w) ->
  keeps proj (onLoggedIn CONFIG env).
Proof.
  intros Hr Hh Hg He. unfold onLoggedIn, hide, show.
  apply keeps_bind; [apply keeps_modify; intros; apply Hh | intros _].
  apply keeps_bind; [apply keeps_modify; intros; apply Hh | intros _].
  apply keeps_bind; [apply keeps_gets | intros u].
  apply keeps_bind; [apply keeps_lift | intros name].
  apply keeps_bind; [apply keeps_modify; intros; apply Hg | intros _].
  apply keeps_bind; [apply keeps_lift | intros email].
  apply keeps_bind; [apply keeps_modify; intros; apply He | intros _].
  apply keeps_bind; [apply refreshBalance_keeps, Hr | intros _].
  apply loadTransactions_keeps, Hr.
Qed.

(** The screens are switched first, so they are switched however the
    rest of [onLoggedIn] ends. *)
Lemma onLoggedIn_screens w :
  hidden (page (after (onLoggedIn CONFIG env) w))
  = ({[authScreen]} ∪ hidden (page w)) ∖ {[dashboardScreen]}.
Proof.
  unfold onLoggedIn, hide, show.
  rewrite !after_modify_bind.
  match goal with |- hidden (page (after ?m ?w0)) = _ =>
    assert (Hk : keeps (fun x => hidden (page x)) m) end.
  { do 5 (keeps_step; [keeps_step; reflexivity |]).
    apply keeps_bind; [apply refreshBalance_keeps | intros _; apply loadTransactions_keeps];
      repeat split; reflexivity. }
  etransitivity; [apply Hk | reflexivity].
Qed.

End Frames.

(** ** Values *)

Section ValueFacts.
Context {engine : Engine}.

Lemma or_first a b : a ||| b = firstTruthy [a] b.
Proof. reflexivity. Qed.

Lemma or_first3 a b c : a ||| b ||| c = firstTruthy [a; b] c.
Proof.
  unfold js_or; simpl.
  destruct (truthy a) eqn:Ea; rewrite ?Ea; [reflexivity |].
  destruct (truthy b) eqn:Eb; rewrite ?Eb; reflexivity.
Qed.

Lemma or_first4 a b c d : a ||| b ||| c ||| d = firstTruthy [a; b; c] d.
Proof.
  rewrite (or_first3 a b c). unfold js_or; simpl.
  destruct (truthy a) eqn:Ea; rewrite ?Ea; [reflexivity |].
  destruct (truthy b) eqn:Eb; rewrite ?Eb; [reflexivity |].
  destruct (truthy c) eqn:Ec; rewrite ?Ec; reflexivity.
Qed.

Lemma truthy_or a b : truthy (a ||| b) = truthy a || truthy b.
Proof. unfold js_or. destruct (truthy a) eqn:Ea; rewrite ?Ea; reflexivity. Qed.

(** Only an object or an error has a truthy field. *)
Lemma truthy_field v k : truthy (field v k) = true -> truthy v = true.
Proof. destruct v; simpl; try discriminate; reflexivity. Qed.

(** A value without the field reads as [undefined] there. *)
Lemma field_absent v k :
  hasOwn v k = false -> k <> "message" -> field v k = JUndefined.
Proof.
  destruct v; simpl; auto.
  - intros Hm _. apply bool_decide_eq_false in Hm.
    destruct (m !! k) eqn:E; [exfalso; apply Hm; eauto | reflexivity].
  - intros _ Hk. destruct (String.eqb_spec k "message"); [contradiction | reflexivity].
Qed.

Lemma textOf_truthy v : truthy v = true -> textFor v = stringOf v.
Proof. destruct v; simpl; try discriminate; reflexivity. Qed.

Lemma firstTruthy_truthy l last :
  truthy last = true -> truthy (firstTruthy l last) = true.
Proof.
  intros Hl. induction l as [| x r IH]; simpl; [exact Hl |].
  destruct (truthy x) eqn:Ex; [exact Ex | exact IH].
Qed.

End ValueFacts.

(** ** Notices *)

Section Notices.
Context {engine : Engine}.

(** What [toast] changes when its message can be converted: the notice
    is logged, and the toast element, when the page has one, takes the
    text and is shown. *)
Lemma toast_effect msg w :
  convertible msg = true ->
  let w' := after (toast msg) w in
  fst (toast msg w) = Normal tt
  /\ App w' = App w /\ localStorage w' = localStorage w /\ fetchLog w' = fetchLog w
  /\ notices w' = (notices w ++ [if toastPresent (page w) then textFor msg
                               else stringOf msg])%list
  /\ hidden (page w') = (if toastPresent (page w) then hidden (page w) ∖ {[toastEl]}
                         else hidden (page w)).
Proof.
  intros Hc. unfold after, toast, show. rewrite bind_gets.
  rewrite (ToString_convertible _ Hc), (textOf_convertible _ Hc).
  destruct (toastPresent (page w)); simpl; auto 10.
Qed.

(** A message that cannot be converted makes [toast] throw with nothing
    shown. *)
Lemma toast_throws msg w :
  convertible msg = false -> toast msg w = (Throw "TypeError", w).
Proof.
  intros Hc. unfold toast. rewrite bind_gets.
  rewrite (ToString_throws _ Hc), (textOf_throws _ Hc).
  destruct (toastPresent (page w)); reflexivity.
Qed.

(** A truthy message is shown as its string, toast element or not. *)
Lemma toast_notice msg w :
  truthy msg = true -> convertible msg = true ->
  notices (after (toast msg) w) = (notices w ++ [stringOf msg])%list.
Proof.
  intros Ht Hc. destruct (toast_effect msg w Hc) as (_ & _ & _ & _ & Hn & _).
  rewrite Hn, (textOf_truthy _ Ht). destruct (toastPresent (page w)); reflexivity.
Qed.

(** Showing a notice moves no screen. *)
Lemma toast_screen msg w el :
  el <> toastEl -> el ∈ hidden (page (after (toast msg) w)) <-> el ∈ hidden (page w).
Proof.
  intros Hel. destruct (convertible msg) eqn:Hc.
  - destruct (toast_effect msg w Hc) as (_ & _ & _ & _ & _ & Hh).
    rewrite Hh. destruct (toastPresent (page w)); [| reflexivity].
    rewrite elem_of_difference, elem_of_singleton. tauto.
  - unfold after. rewrite (toast_throws _ _ Hc). reflexivity.
Qed.

(** The failure message is the first truthy one of the body's [message],
    the body's [error], the error of the transport and the fallback. *)
Lemma failureMessage_priority res fallback :
  failureMessage res fallback
  = firstTruthy [field (data res) "message"; field (data res) "error"; error res]
      (JStr fallback).
Proof. unfold failureMessage. apply or_first4. Qed.

Lemma failureMessage_truthy res fallback :
  fallback <> "" -> truthy (failureMessage res fallback) = true.
Proof.
  intros Hf. rewrite failureMessage_priority. apply firstTruthy_truthy.
  simpl. destruct (String.eqb_spec fallback ""); [contradiction | reflexivity].
Qed.

End Notices.

(** ** Entering a session *)

Section Auth.
Context {engine : Engine}.
Variable CONFIG : Config.
Variable env : Env.

Lemma after_detached_bind {A B} (m : M A) (k : unit -> M B) w :
  after (bind (detached m) k) w = after (k tt) (after m w).
Proof. reflexivity. Qed.

(** The parts of the world that survive entering the dashboard and the
    notice that follows. *)
Lemma entered_keeps {B} (proj : World -> B) msg w :
  refresh_blind proj ->
  (forall f w, proj (set_page f w) = proj w) ->
  (forall f w, proj (set_notices f w) = proj w) ->
  proj (after (toast msg) (after (onLoggedIn CONFIG env) w)) = proj w.
Proof.
  intros Hr Hp Hn.
  rewrite (toast_keeps proj msg); [| intros; apply Hp | intros; apply Hp | exact Hn].
  apply onLoggedIn_keeps; [exact Hr | intros; apply Hp ..].
Qed.

(** The world in which an accepted reply has put its token and user. *)
Lemma enterSession_accepted res done fallback w :
  ok res = true ->
  truthy (field (data res) "token" ||| field (data res) "access_token") = true ->
  exists w0,
    token (App w0) = tokenOf res /\ user (App w0) = userOf res
    /\ localStorage w0 = localStorage w /\ page w0 = page w /\ notices w0 = notices w
    /\ fetchLog w0 = fetchLog w
    /\ (convertible (tokenOf res) = false ->
        enterSession CONFIG env res done fallback w = (Throw "TypeError", w0))
    /\ (convertible (tokenOf res) = true ->
        after (enterSession CONFIG env res done fallback) w
        = after (toast (JStr done))
            (after (onLoggedIn CONFIG env)
               (set_localStorage (insert "pd_user" (JSON_stringify (userOf res)))
                  (set_localStorage (insert "pd_token" (stringOf (tokenOf res))) w0)))).
Proof.
  intros Hok Htok. unfold enterSession.
  assert (Hdata : truthy (data res) = true).
  { rewrite truthy_or in Htok. apply orb_true_iff in Htok as [Ht | Ht];
      exact (truthy_field _ _ Ht). }
  rewrite Hok, Hdata, Htok. simpl andb. cbv iota.
  set (tok := field (data res) "token" ||| field (data res) "access_token").
  set (usr := field (data res) "user" ||| field (data res) "profile" ||| mock_user MOCK).
  assert (Et : tok = tokenOf res) by reflexivity.
  assert (Eu : usr = userOf res) by (unfold usr; apply or_first3).
  exists (set_App (set_user usr) (set_App (set_token tok) w)).
  split; [exact Et |]. split; [exact Eu |]. do 4 (split; [reflexivity |]).
  rewrite <- Et, <- Eu. split; intros Hc.
  - change (true && true && true) with true. cbv iota.
    rewrite !bind_modify, bind_gets. simpl token.
    rewrite (ToString_throws _ Hc). reflexivity.
  - rewrite !after_modify_bind, after_gets_bind. simpl token.
    unfold after at 1. rewrite (ToString_convertible _ Hc), bind_lift_normal.
    reflexivity.
Qed.

(** With a truthy token that can be stored in a successful reply, both
    handlers store the token and the user, persist them and enter the
    dashboard. *)
Lemma enterSession_success res done fallback w :
  ok res = true ->
  truthy (field (data res) "token" ||| field (data res) "access_token") = true ->
  convertible (tokenOf res) = true ->
  enteredFrom res (after (enterSession CONFIG env res done fallback) w).
Proof.
  intros Hok Htok Hc.
  destruct (enterSession_accepted res done fallback w Hok Htok)
    as (w0 & H0t & H0u & H0s & _ & _ & _ & _ & Hrun).
  rewrite (Hrun Hc).
  match goal with |- enteredFrom _ (after _ (after _ ?x)) => set (w1 := x) end.
  assert (H1t : token (App w1) = tokenOf res) by exact H0t.
  assert (H1u : user (App w1) = userOf res) by exact H0u.
  assert (H1s : localStorage w1
                = <["pd_user" := JSON_stringify (userOf res)]>
                    (<["pd_token" := stringOf (tokenOf res)]> (localStorage w)))
    by (unfold w1; simpl; rewrite H0s; reflexivity).
  clearbody w1.
  set (w2 := after (toast (JStr done)) (after (onLoggedIn CONFIG env) w1)).
  assert (Ht : token (App w2) = token (App w1)).
  { apply (entered_keeps (fun x => token (App x)));
      try (repeat split; reflexivity); reflexivity. }
  assert (Hu : user (App w2) = user (App w1)).
  { apply (entered_keeps (fun x => user (App x)));
      try (repeat split; reflexivity); reflexivity. }
  assert (Hs : localStorage w2 = localStorage w1).
  { apply (entered_keeps localStorage); try (repeat split; reflexivity); reflexivity. }
  unfold enteredFrom, authenticated. rewrite Ht, Hu, Hs, H1t, H1u, H1s.
  split; [reflexivity |].
  split; [exact Htok |].
  split; [reflexivity |].
  split; [rewrite lookup_insert_ne by discriminate; apply lookup_insert_eq |].
  split; [apply lookup_insert_eq |].
  unfold w2. rewrite !toast_screen by discriminate.
  rewrite onLoggedIn_screens.
  rewrite not_elem_of_difference, elem_of_difference, !elem_of_union,
    !elem_of_singleton.
  split; [right; reflexivity | split; [left; reflexivity | discriminate]].
Qed.

(** An accepted reply signs in, as far as its token can be stored. *)
(** With a token that can be stored the handlers complete. *)
Lemma enterSession_completes res done fallback w :
  ok res = true ->
  truthy (field (data res) "token" ||| field (data res) "access_token") = true ->
  convertible (tokenOf res) = true ->
  fst (enterSession CONFIG env res done fallback w) = Normal tt.
Proof.
  intros Hok Htok Hc. unfold enterSession.
  assert (Hdata : truthy (data res) = true).
  { rewrite truthy_or in Htok. apply orb_true_iff in Htok as [Ht | Ht];
      exact (truthy_field _ _ Ht). }
  rewrite Hok, Hdata, Htok.
  change (true && true && true) with true. cbv iota.
  rewrite !bind_modify, bind_gets. simpl token.
  change (field (data res) "token" ||| field (data res) "access_token")
    with (tokenOf res).
  rewrite (ToString_convertible _ Hc), bind_lift_normal, bind_modify, bind_gets,
    bind_modify.
  match goal with |- fst (bind (detached ?m) ?k ?x) = _ =>
    change (fst (k tt (after m x)) = Normal tt) end.
  cbv beta. exact (proj1 (toast_effect (JStr done) _ eq_refl)).
Qed.

Lemma enterSession_signedIn res done fallback w w1 :
  ok res = true ->
  truthy (field (data res) "token" ||| field (data res) "access_token") = true ->
  localStorage w1 = localStorage w -> page w1 = page w -> notices w1 = notices w ->
  signedIn res (enterSession CONFIG env res done fallback w1) w.
Proof.
  intros Hok Htok HS HP HN.
  destruct (enterSession_accepted res done fallback w1 Hok Htok)
    as (w0 & H0t & H0u & H0s & H0p & H0n & _ & Hthrow & Hrun).
  unfold signedIn.
  destruct (convertible (tokenOf res)) eqn:Hc.
  - pose proof (enterSession_success res done fallback w1 Hok Htok Hc) as He.
    unfold after in He.
    destruct He as (Ht & Ha & Hu & Hrest).
    split; [exact Ht |]. split; [exact Ha |]. split; [exact Hu |].
    split; [intros _ | discriminate].
    split; [exact (enterSession_completes res done fallback w1 Hok Htok Hc) |].
    repeat split; first [assumption | apply Hrest].
  - rewrite (Hthrow eq_refl). simpl fst. simpl snd.
    split; [exact H0t |].
    split; [unfold authenticated; rewrite H0t; exact Htok |].
    split; [exact H0u |]. split; [discriminate |]. intros _.
    rewrite H0s, H0p, H0n. auto.
Qed.

End Auth.

Section AuthReplies.
Context {engine : Engine}.
Variable CONFIG : Config.
Variable env : Env.

Lemma handleLogin_run w res w1 :
  loginFilled w = true ->
  apiFetch CONFIG env "/auth/login" (loginOptions w) w = (Normal res, w1) ->
  handleLogin CONFIG env w
  = enterSession CONFIG env res "Logged in" "Login failed" w1.
Proof.
  intros Hf Hcall. unfold handleLogin. rewrite !bind_gets.
  unfold loginFilled in Hf. apply negb_true_iff in Hf. rewrite Hf.
  exact (bind_normal _ _ _ _ _ Hcall).
Qed.

Lemma handleRegister_run w res w1 :
  registerFilled w = true ->
  apiFetch CONFIG env "/auth/register" (registerOptions w) w = (Normal res, w1) ->
  handleRegister CONFIG env w
  = enterSession CONFIG env res "Account created" "Register failed" w1.
Proof.
  intros Hf Hcall. unfold handleRegister. rewrite !bind_gets.
  unfold registerFilled in Hf. apply negb_true_iff in Hf. rewrite Hf.
  exact (bind_normal _ _ _ _ _ Hcall).
Qed.

Lemma handleLogin_call w res w1 :
  loginFilled w = true ->
  apiFetch CONFIG env "/auth/login" (loginOptions w) w = (Normal res, w1) ->
  after (handleLogin CONFIG env) w
  = after (enterSession CONFIG env res "Logged in" "Login failed") w1.
Proof. intros Hf Hcall. unfold after. rewrite (handleLogin_run _ _ _ Hf Hcall). reflexivity. Qed.

Lemma handleRegister_call w res w1 :
  registerFilled w = true ->
  apiFetch CONFIG env "/auth/register" (registerOptions w) w = (Normal res, w1) ->
  after (handleRegister CONFIG env) w
  = after (enterSession CONFIG env res "Account created" "Register failed") w1.
Proof.
  intros Hf Hcall. unfold after. rewrite (handleRegister_run _ _ _ Hf Hcall). reflexivity.
Qed.

(** The world [apiFetch] leaves differs from the one it found in the
    request log only. *)
Lemma apiFetch_leaves path options w res w1 :
  apiFetch CONFIG env path options w = (Normal res, w1) ->
  App w1 = App w /\ localStorage w1 = localStorage w /\ page w1 = page w
  /\ notices w1 = notices w.
Proof.
  intros Hcall. pose proof (apiFetch_frame CONFIG env path options w) as Hfr.
  unfold after in Hfr. rewrite Hcall in Hfr. simpl in Hfr. tauto.
Qed.

(** A message is turned away by [toast] alone. *)
Lemma toast_turnedAway msg w w1 :
  truthy msg = true ->
  App w1 = App w -> localStorage w1 = localStorage w -> page w1 = page w ->
  notices w1 = notices w ->
  turnedAway msg (toast msg w1) w.
Proof.
  intros Ht HA HS HP HN. unfold turnedAway.
  change (snd (toast msg w1)) with (after (toast msg) w1).
  rewrite (toast_keeps App), (toast_keeps localStorage) by reflexivity.
  rewrite HA, HS.
  split; [reflexivity |]. split; [tauto |]. split; [reflexivity |]. split; [| split].
  - intros el Hel. rewrite (toast_screen _ _ _ Hel), HP. reflexivity.
  - intros Hc. destruct (toast_effect msg w1 Hc) as (Hn & _).
    split; [exact Hn |]. rewrite (toast_notice _ _ Ht Hc), HN. reflexivity.
  - intros Hc. unfold after. rewrite (toast_throws _ _ Hc). simpl. auto.
Qed.

(** A reply that fails the test only produces the failure notice. *)
Lemma enterSession_turnedAway res done fallback w w1 :
  accepts res = false -> fallback <> "" ->
  App w1 = App w -> localStorage w1 = localStorage w -> page w1 = page w ->
  notices w1 = notices w ->
  turnedAway (failureMessage res fallback) (enterSession CONFIG env res done fallback w1) w.
Proof.
  intros Hacc Hfb HA HS HP HN. unfold enterSession.
  unfold accepts in Hacc. rewrite Hacc.
  apply toast_turnedAway; auto using failureMessage_truthy.
Qed.

Lemma turnedAway_refusedWith msg run w :
  convertible msg = true -> turnedAway msg run w -> refusedWith msg w (snd run).
Proof.
  intros Hc (HA & Ht & HS & Hh & Hn & _). destruct (Hn Hc) as [_ Hn'].
  unfold refusedWith. auto.
Qed.

Lemma enterSession_failure res done fallback w w1 :
  accepts res = false -> fallback <> "" ->
  convertible (failureMessage res fallback) = true ->
  App w1 = App w -> localStorage w1 = localStorage w -> page w1 = page w ->
  notices w1 = notices w ->
  refusedWith (failureMessage res fallback) w
    (after (enterSession CONFIG env res done fallback) w1).
Proof.
  intros Hacc Hfb Hc HA HS HP HN.
  exact (turnedAway_refusedWith _ _ _ Hc
           (enterSession_turnedAway res done fallback w w1 Hacc Hfb HA HS HP HN)).
Qed.

Lemma no_token_not_accepted res :
  hasOwn (data res) "token" = false -> hasOwn (data res) "access_token" = false ->
  accepts res = false.
Proof.
  intros Ht Ha. unfold accepts.
  rewrite (field_absent _ _ Ht), (field_absent _ _ Ha) by discriminate.
  simpl. apply andb_false_r.
Qed.

End AuthReplies.

(** ** Replies to login and registration *)

Section AuthClaims.
Context {engine : Engine}.
Variable CONFIG : Config.
Variable env : Env.

(** C1, as amended.  For every login or registration reply with a success
    status whose body has a truthy [token] or [access_token] field (for a
    string: a non-empty one), the session ends up authenticated with the
    first truthy one of the two, and the user is the first truthy one of
    the reply's [user], its [profile] and the placeholder user.  When the
    token can be converted to a string, as every string, number and
    boolean can, the handler completes, both are persisted and the
    dashboard is entered; when it cannot, the handler throws once [App]
    is set: nothing is persisted, the page stays as it is and nothing is
    shown. *)
Theorem auth_reply_with_truthy_token w res w1 :
  (loginFilled w = true ->
   apiFetch CONFIG env "/auth/login" (loginOptions w) w = (Normal res, w1) ->
   ok res = true ->
   truthy (field (data res) "token") || truthy (field (data res) "access_token") = true ->
   signedIn res (handleLogin CONFIG env w) w)
  /\
  (registerFilled w = true ->
   apiFetch CONFIG env "/auth/register" (registerOptions w) w = (Normal res, w1) ->
   ok res = true ->
   truthy (field (data res) "token") || truthy (field (data res) "access_token") = true ->
   signedIn res (handleRegister CONFIG env w) w).
Proof.
  split; intros Hf Hcall Hok Htok; rewrite <- truthy_or in Htok;
    destruct (apiFetch_leaves _ _ _ _ _ _ _ Hcall) as (_ & HS & HP & HN).
  - rewrite (handleLogin_run _ _ _ _ _ Hf Hcall).
    apply enterSession_signedIn; assumption.
  - rewrite (handleRegister_run _ _ _ _ _ Hf Hcall).
    apply enterSession_signedIn; assumption.
Qed.

(** C9.  For every login or registration reply with a success status whose
    body has neither a [token] nor an [access_token] field, the [App]
    object stays as it was (an absent token stays absent), nothing is
    written to local storage and no screen is switched: the reply goes
    down the failure path, whose message is shown when it can be
    converted to a string, the handler throwing with nothing shown when
    it cannot. *)
Theorem auth_reply_without_token w res w1 :
  (loginFilled w = true ->
   apiFetch CONFIG env "/auth/login" (loginOptions w) w = (Normal res, w1) ->
   ok res = true ->
   hasOwn (data res) "token" = false -> hasOwn (data res) "access_token" = false ->
   turnedAway (failureMessage res "Login failed") (handleLogin CONFIG env w) w)
  /\
  (registerFilled w = true ->
   apiFetch CONFIG env "/auth/register" (registerOptions w) w = (Normal res, w1) ->
   ok res = true ->
   hasOwn (data res) "token" = false -> hasOwn (data res) "access_token" = false ->
   turnedAway (failureMessage res "Register failed") (handleRegister CONFIG env w) w).
Proof.
  split; intros Hf Hcall _ Ht Ha;
    destruct (apiFetch_leaves _ _ _ _ _ _ _ Hcall) as (HA & HS & HP & HN).
  - rewrite (handleLogin_run _ _ _ _ _ Hf Hcall).
    apply enterSession_turnedAway; auto using no_token_not_accepted; discriminate.
  - rewrite (handleRegister_run _ _ _ _ _ Hf Hcall).
    apply enterSession_turnedAway; auto using no_token_not_accepted; discriminate.
Qed.

End AuthClaims.

(** A run of C1: the backend answers with [access_token] and [profile]. *)
Lemma auth_reply_with_truthy_token_witness :
  enteredFrom (engine := refEngine) (replied true num_200 body_alternate)
    (after (handleLogin (engine := refEngine) CONFIG_script
              (always (Replied true num_200 body_alternate))) world_login)
  /\ enteredFrom (engine := refEngine) (replied true num_200 body_alternate)
       (after (handleRegister (engine := refEngine) CONFIG_script
                 (always (Replied true num_200 body_alternate))) world_register).
Proof.
  split.
  - apply (proj1 (auth_reply_with_truthy_token (engine := refEngine) CONFIG_script
                    (always (Replied true num_200 body_alternate)) world_login
                    (replied true num_200 body_alternate)
                    (after (apiFetch (engine := refEngine) CONFIG_script
                              (always (Replied true num_200 body_alternate))
                              "/auth/login" (loginOptions (engine := refEngine) world_login))
                           world_login)));
      vm_compute; reflexivity.
  - apply (proj2 (auth_reply_with_truthy_token (engine := refEngine) CONFIG_script
                    (always (Replied true num_200 body_alternate)) world_register
                    (replied true num_200 body_alternate)
                    (after (apiFetch (engine := refEngine) CONFIG_script
                              (always (Replied true num_200 body_alternate))
                              "/auth/register"
                              (registerOptions (engine := refEngine) world_register))
                           world_register)));
      vm_compute; reflexivity.
Defined.

(** A token that cannot be converted to a string: [App] holds it, and
    [setItem] throws before anything is stored, switched or shown. *)
Example login_unconvertible_token :
  fst (handleLogin (engine := refEngine) CONFIG_script
         (always (Replied true num_200 body_odd_token)) world_login)
  = Throw "TypeError"
  /\ token (App (after (handleLogin (engine := refEngine) CONFIG_script
                          (always (Replied true num_200 body_odd_token))) world_login))
     = odd
  /\ localStorage (after (handleLogin (engine := refEngine) CONFIG_script
                            (always (Replied true num_200 body_odd_token))) world_login)
     = localStorage world_login
  /\ notices (after (handleLogin (engine := refEngine) CONFIG_script
                       (always (Replied true num_200 body_odd_token))) world_login)
     = [].
Proof. repeat split; vm_compute; reflexivity. Qed.

(** C1 as stated fails: a successful reply whose body has a [token] field
    holding the empty string does not authenticate the session. *)
Lemma auth_reply_empty_token_refused :
  ok (replied true num_200 body_empty_token) = true
  /\ hasOwn (data (replied true num_200 body_empty_token)) "token" = true
  /\ authenticated
       (after (handleLogin (engine := refEngine) CONFIG_script
                 (always (Replied true num_200 body_empty_token))) world_login)
     = false
  /\ notices
       (after (handleLogin (engine := refEngine) CONFIG_script
                 (always (Replied true num_200 body_empty_token))) world_login)
     = ["Login failed"].
Proof. vm_compute. repeat split; reflexivity. Qed.

(** A run of C9: the backend answers with success and no token. *)
Lemma auth_reply_without_token_witness :
  refusedWith (engine := refEngine) (JStr "Login failed") world_login
    (after (handleLogin (engine := refEngine) CONFIG_script
              (always (Replied true num_200 body_no_token))) world_login)
  /\ refusedWith (engine := refEngine) (JStr "Register failed") world_register
       (after (handleRegister (engine := refEngine) CONFIG_script
                 (always (Replied true num_200 body_no_token))) world_register).
Proof.
  split.
  - apply (turnedAway_refusedWith (engine := refEngine)
             (failureMessage (replied true num_200 body_no_token) "Login failed")
             (handleLogin (engine := refEngine) CONFIG_script
                (always (Replied true num_200 body_no_token)) world_login)
             world_login eq_refl).
    apply (proj1 (auth_reply_without_token (engine := refEngine) CONFIG_script
                    (always (Replied true num_200 body_no_token)) world_login
                    (replied true num_200 body_no_token)
                    (after (apiFetch (engine := refEngine) CONFIG_script
                              (always (Replied true num_200 body_no_token))
                              "/auth/login" (loginOptions (engine := refEngine) world_login))
                           world_login)));
      vm_compute; reflexivity.
  - apply (turnedAway_refusedWith (engine := refEngine)
             (failureMessage (replied true num_200 body_no_token) "Register failed")
             (handleRegister (engine := refEngine) CONFIG_script
                (always (Replied true num_200 body_no_token)) world_register)
             world_register eq_refl).
    apply (proj2 (auth_reply_without_token (engine := refEngine) CONFIG_script
                    (always (Replied true num_200 body_no_token)) world_register
                    (replied true num_200 body_no_token)
                    (after (apiFetch (engine := refEngine) CONFIG_script
                              (always (Replied true num_200 body_no_token))
                              "/auth/register"
                              (registerOptions (engine := refEngine) world_register))
                           world_register)));
      vm_compute; reflexivity.
Defined.

(** ** Rows of the transaction list *)

Section Rows.
Context {engine : Engine}.

(** The row of an element other than [null] and [undefined], in terms of
    what it shows. *)
Lemma renderRow_run tx :
  nullish tx = false ->
  renderRow tx
  = (amount <-- ToNumber (shownAmount tx);;
     titleText <-- ToString (shownTitle tx);;
     metaText <-- ToString (shownMeta tx);;
     dateText <-- ToString (shownDate tx);;
     Normal (TxRow titleText metaText dateText (SFltb amount num_0)
               (money (SFabs amount)))).
Proof.
  intros Hn. unfold renderRow, getProp. rewrite Hn.
  unfold shownAmount, shownTitle, shownMeta, shownDate.
  rewrite <- !or_first4, <- !or_first3. reflexivity.
Qed.

(** The row of an element that can be rendered shows the first truthy
    one of its [title], [description] and [type], else the fixed word. *)
Lemma renderRow_title tx :
  renderable tx = true ->
  exists item, renderRow tx = Normal item /\ rowTitle item = Some (titleShown tx).
Proof.
  unfold renderable. rewrite !andb_true_iff, negb_true_iff.
  intros ((((Hn & Ha) & Ht) & Hm) & Hd).
  rewrite (renderRow_run _ Hn).
  rewrite (ToNumber_convertible _ Ha), (ToString_convertible _ Ht),
    (ToString_convertible _ Hm), (ToString_convertible _ Hd).
  eexists; split; reflexivity.
Qed.

(** Reading the title of [null] throws. *)
Lemma renderRow_null tx : nullish tx = true -> renderRow tx = Throw "TypeError".
Proof. intros Hn. unfold renderRow, getProp. rewrite Hn. reflexivity. Qed.

(** An element that cannot be rendered makes the callback throw. *)
Lemma renderRow_throws tx :
  renderable tx = false -> renderRow tx = Throw "TypeError".
Proof.
  unfold renderable. intros Hr.
  destruct (nullish tx) eqn:Hn; [apply renderRow_null, Hn |].
  rewrite (renderRow_run _ Hn). simpl in Hr.
  destruct (convertible (shownAmount tx)) eqn:Ha;
    [rewrite (ToNumber_convertible _ Ha) | rewrite (ToNumber_throws _ Ha); reflexivity].
  destruct (convertible (shownTitle tx)) eqn:Ht;
    [rewrite (ToString_convertible _ Ht) | rewrite (ToString_throws _ Ht); reflexivity].
  destruct (convertible (shownMeta tx)) eqn:Hm;
    [rewrite (ToString_convertible _ Hm) | rewrite (ToString_throws _ Hm); reflexivity].
  destruct (convertible (shownDate tx)) eqn:Hd; [discriminate |].
  rewrite (ToString_throws _ Hd). reflexivity.
Qed.

(** A list that starts with [null] makes the rendering throw, the list on
    the page staying empty. *)
Lemma renderTransactions_null_first w tx r :
  transactions (App w) = JArr (tx :: r) -> nullish tx = true ->
  fst (renderTransactions w) = Throw "TypeError"
  /\ txList (page (after renderTransactions w)) = [].
Proof.
  intros Htx Hn. unfold after, renderTransactions.
  rewrite bind_modify, bind_gets.
  set (w0 := set_page (set_txList (fun _ => [])) w).
  assert (Htx0 : transactions (App w0) = JArr (tx :: r)) by exact Htx.
  rewrite Htx0.
  change (negb (truthy (JArr (tx :: r))) || negb (hasLength (JArr (tx :: r))))
    with false.
  cbv iota. simpl appendRows. unfold bind at 1, lift at 1.
  rewrite (renderRow_null _ Hn). split; reflexivity.
Qed.

Lemma set_txList_app rows w :
  set_page (set_txList (fun items => (items ++ [])%list)) w = w
  /\ forall item,
       set_page (set_txList (fun items => (items ++ rows)%list))
         (set_page (set_txList (fun items => (items ++ [item])%list)) w)
       = set_page (set_txList (fun items => (items ++ item :: rows)%list)) w.
Proof.
  destruct w as [a s [h g u b t tp tt0 v] c f n pp ps co cl]; simpl.
  unfold set_page, set_txList; simpl. rewrite app_nil_r. split; [reflexivity |].
  intros item. rewrite <- app_assoc. reflexivity.
Qed.

Lemma appendRows_titles l : forall w,
  Forall (fun tx => renderable tx = true) l ->
  exists rows,
    appendRows renderRow l w
    = (Normal tt, set_page (set_txList (fun items => (items ++ rows)%list)) w)
    /\ List.map rowTitle rows = List.map (fun tx => Some (titleShown tx)) l.
Proof.
  induction l as [| tx r IH]; intros w Hall.
  - exists []. split; [| reflexivity]. simpl. unfold ret.
    rewrite (proj1 (set_txList_app [] w)). reflexivity.
  - inversion Hall as [| ? ? Htx Hr]; subst.
    destruct (renderRow_title tx Htx) as (item & Hitem & Htitle).
    destruct (IH (set_page (set_txList (fun items => (items ++ [item])%list)) w) Hr)
      as (rows & Hrun & Htitles).
    exists (item :: rows). split.
    + simpl. unfold bind at 1, lift at 1. rewrite Hitem.
      unfold bind at 1, modify at 1. rewrite Hrun.
      rewrite (proj2 (set_txList_app rows w)). reflexivity.
    + simpl. rewrite Htitle, Htitles. reflexivity.
Qed.

(** The rows before the first element that cannot be rendered are
    appended, and that element ends the loop with a TypeError. *)
Lemma appendRows_stops pre tx post : forall w,
  Forall (fun tx => renderable tx = true) pre -> renderable tx = false ->
  exists rows,
    appendRows renderRow (pre ++ tx :: post) w
    = (Throw "TypeError", set_page (set_txList (fun items => (items ++ rows)%list)) w)
    /\ List.map rowTitle rows = List.map (fun tx => Some (titleShown tx)) pre.
Proof.
  induction pre as [| x r IH]; intros w Hall Hbad.
  - exists []. split; [| reflexivity]. simpl. unfold bind at 1, lift at 1.
    rewrite (renderRow_throws _ Hbad), (proj1 (set_txList_app [] w)). reflexivity.
  - inversion Hall as [| ? ? Hx Hr]; subst.
    destruct (renderRow_title x Hx) as (item & Hitem & Htitle).
    destruct (IH (set_page (set_txList (fun items => (items ++ [item])%list)) w) Hr Hbad)
      as (rows & Hrun & Htitles).
    exists (item :: rows). split.
    + simpl. unfold bind at 1, lift at 1. rewrite Hitem.
      unfold bind at 1, modify at 1. rewrite Hrun.
      rewrite (proj2 (set_txList_app rows w)). reflexivity.
    + simpl. rewrite Htitle, Htitles. reflexivity.
Qed.

(** Where every field that is there is truthy, the title by presence and
    the title shown are the same. *)
Lemma titleShown_byPresence tx :
  (forall k, hasOwn tx k = true -> truthy (field tx k) = true) ->
  titleShown tx = titleByPresence tx.
Proof.
  intros Hall. unfold titleShown, titleByPresence. simpl.
  assert (Hk : forall k, k <> "message" ->
             truthy (field tx k) = hasOwn tx k).
  { intros k Hm. destruct (hasOwn tx k) eqn:E; [apply Hall, E |].
    rewrite (field_absent _ _ E Hm). reflexivity. }
  rewrite !Hk by discriminate.
  destruct (hasOwn tx "title"); [reflexivity |].
  destruct (hasOwn tx "description"); [reflexivity |].
  destruct (hasOwn tx "type"); reflexivity.
Qed.

(** The rendering of a list that is not empty is its loop. *)
Lemma renderTransactions_loop w l :
  transactions (App w) = JArr l -> l <> [] ->
  renderTransactions w
  = appendRows renderRow l (set_page (set_txList (fun _ => [])) w).
Proof.
  intros Htx Hne. unfold renderTransactions.
  rewrite bind_modify, bind_gets.
  set (w0 := set_page (set_txList (fun _ => [])) w).
  assert (Htx0 : transactions (App w0) = JArr l) by exact Htx.
  rewrite Htx0.
  destruct l as [| tx r]; [contradiction |]. reflexivity.
Qed.

(** C2, as amended.  For a loaded list of transactions each of which can
    be rendered (it is neither [null] nor [undefined], and its amount,
    title, meta and date can be converted), the list of rows is rendered
    without an exception, one row per element in order, and the title of
    each row is the element's [title] if that is truthy (for a string:
    not empty), else its [description] if that is truthy, else its [type]
    if that is truthy, else the word [Transaction].  The first element
    that cannot be rendered makes the rendering throw, the rows of the
    elements before it staying on the page under those titles. *)
Theorem rendered_row_titles w l :
  transactions (App w) = JArr l -> l <> [] ->
  (Forall (fun tx => renderable tx = true) l ->
   fst (renderTransactions w) = Normal tt
   /\ List.map rowTitle (txList (page (after renderTransactions w)))
      = List.map (fun tx => Some (titleShown tx)) l)
  /\ (forall pre tx post,
        l = (pre ++ tx :: post)%list ->
        Forall (fun tx => renderable tx = true) pre -> renderable tx = false ->
        fst (renderTransactions w) = Throw "TypeError"
        /\ List.map rowTitle (txList (page (after renderTransactions w)))
           = List.map (fun tx => Some (titleShown tx)) pre).
Proof.
  intros Htx Hne. unfold after. rewrite (renderTransactions_loop w l Htx Hne).
  split.
  - intros Hall.
    destruct (appendRows_titles l (set_page (set_txList (fun _ => [])) w) Hall)
      as (rows & Hrun & Ht).
    rewrite Hrun. split; [reflexivity | exact Ht].
  - intros pre tx post -> Hall Hbad.
    destruct (appendRows_stops pre tx post (set_page (set_txList (fun _ => [])) w)
                Hall Hbad) as (rows & Hrun & Ht).
    rewrite Hrun. split; [reflexivity | exact Ht].
Qed.

End Rows.

(** A run of C2: a row titled by its [type], after one titled by its
    [description]; and a list whose second element has a title that
    cannot be converted. *)
Lemma rendered_row_titles_witness :
  (fst (renderTransactions (engine := refEngine)
          (world_with_rows [tx_empty_title; tx_typed])) = Normal tt
   /\ List.map rowTitle
        (txList (page (after (renderTransactions (engine := refEngine))
                         (world_with_rows [tx_empty_title; tx_typed]))))
      = [Some "Fee"; Some "debit"])
  /\ (fst (renderTransactions (engine := refEngine)
             (world_with_rows [tx_typed; tx_odd_title; tx_empty_title]))
      = Throw "TypeError"
      /\ List.map rowTitle
           (txList (page (after (renderTransactions (engine := refEngine))
                            (world_with_rows [tx_typed; tx_odd_title; tx_empty_title]))))
         = [Some "debit"]).
Proof.
  split.
  - apply (proj1 (rendered_row_titles (engine := refEngine)
                    (world_with_rows [tx_empty_title; tx_typed])
                    [tx_empty_title; tx_typed] eq_refl ltac:(discriminate))).
    repeat constructor.
  - apply (proj2 (rendered_row_titles (engine := refEngine)
                    (world_with_rows [tx_typed; tx_odd_title; tx_empty_title])
                    [tx_typed; tx_odd_title; tx_empty_title] eq_refl ltac:(discriminate))
             [tx_typed] tx_odd_title [tx_empty_title]).
    + reflexivity.
    + repeat constructor.
    + reflexivity.
Defined.

(** C2 as stated fails: an element whose [title] is there but empty is
    shown under its [description], not under its title. *)
Lemma rendered_row_empty_title :
  hasOwn tx_empty_title "title" = true
  /\ titleByPresence (engine := refEngine) tx_empty_title = ""
  /\ List.map rowTitle
       (txList (page (after (renderTransactions (engine := refEngine))
                        (world_with_rows [tx_empty_title]))))
     = [Some "Fee"].
Proof. vm_compute. repeat split; reflexivity. Qed.

(** ** The stored balance *)

Section Balance.
Context {engine : Engine}.
Variable CONFIG : Config.
Variable env : Env.

Lemma typeof_undefined v : String.eqb (typeof v) "undefined" = true <-> v = JUndefined.
Proof. destruct v; simpl; split; intros E; try discriminate; reflexivity. Qed.

Lemma typeof_number v : String.eqb (typeof v) "number" = true <-> exists n, v = JNum n.
Proof.
  destruct v; simpl; split; intros E; try discriminate; eauto;
    destruct E as [? E]; discriminate.
Qed.

(** Showing a balance that is a number. *)
Lemma updateBalanceUI_number w n :
  balance (App w) = JNum n ->
  updateBalanceUI w
  = (Normal tt,
     set_page (set_balanceValue (if balanceVisible (App w) then money n else "****")) w).
Proof.
  intros Hb. unfold updateBalanceUI. rewrite bind_gets, Hb.
  destruct (balanceVisible (App w)); reflexivity.
Qed.

(** Storing a number and showing it. *)
Lemma store_number n w :
  bind (modify (set_App (set_balance (JNum n)))) (fun _ => updateBalanceUI) w
  = (Normal tt,
     set_page (set_balanceValue (if balanceVisible (App w) then money n else "****"))
       (set_App (set_balance (JNum n)) w)).
Proof.
  rewrite bind_modify.
  rewrite (updateBalanceUI_number (set_App (set_balance (JNum n)) w) n eq_refl).
  reflexivity.
Qed.

(** When the [balance] of a successful reply can be converted, the
    refresh completes, and what it stores is decided by the reply
    alone. *)
Lemma refreshBalance_stores w res w1 :
  apiFetch CONFIG env "/me/balance" no_options w = (Normal res, w1) ->
  (ok res = true -> convertible (field (data res) "balance") = true) ->
  fst (refreshBalance CONFIG env w) = Normal tt
  /\ balance (App (after (refreshBalance CONFIG env) w))
     = if ok res && negb (String.eqb (typeof (field (data res) "balance")) "undefined")
       then JNum (numberOrZero (field (data res) "balance"))
       else if ok res && String.eqb (typeof (data res)) "number"
            then JNum (numberOf (data res))
            else mock_balance MOCK ||| JNum num_0.
Proof.
  intros Hcall Hconv. unfold after, refreshBalance.
  rewrite (bind_normal _ _ _ _ _ Hcall).
  destruct (ok res) eqn:Hok; simpl andb.
  - destruct (negb (String.eqb (typeof (field (data res) "balance")) "undefined"));
      cbv iota.
    + rewrite (NumberOr0_convertible _ (Hconv eq_refl)).
      change (bind (bind (lift (Normal (numberOrZero (field (data res) "balance"))))
                      (fun n => modify (set_App (set_balance (JNum n)))))
                (fun _ => updateBalanceUI) w1)
        with (bind (modify (set_App (set_balance
                      (JNum (numberOrZero (field (data res) "balance"))))))
                (fun _ => updateBalanceUI) w1).
      rewrite store_number. split; reflexivity.
    + destruct (data res) as [| | | n | | | |]; simpl String.eqb; cbv iota;
        try (change (mock_balance MOCK ||| JNum num_0) with (JNum num_15200_5);
             rewrite store_number; split; reflexivity).
      change (bind (bind (lift (ToNumber (JNum n)))
                      (fun n => modify (set_App (set_balance (JNum n)))))
                (fun _ => updateBalanceUI) w1)
        with (bind (modify (set_App (set_balance (JNum n))))
                (fun _ => updateBalanceUI) w1).
      rewrite store_number. split; reflexivity.
  - cbv iota. change (mock_balance MOCK ||| JNum num_0) with (JNum num_15200_5).
    rewrite store_number. split; reflexivity.
Qed.

(** A [balance] that cannot be converted makes the refresh throw once
    the reply is in: nothing is stored and nothing is shown. *)
Lemma refreshBalance_throws w res w1 :
  apiFetch CONFIG env "/me/balance" no_options w = (Normal res, w1) ->
  ok res = true -> convertible (field (data res) "balance") = false ->
  refreshBalance CONFIG env w = (Throw "TypeError", w1).
Proof.
  intros Hcall Hok Hc. unfold refreshBalance.
  rewrite (bind_normal _ _ _ _ _ Hcall), Hok. simpl andb.
  assert (Hdef : String.eqb (typeof (field (data res) "balance")) "undefined" = false).
  { destruct (field (data res) "balance"); try discriminate; reflexivity. }
  rewrite Hdef. simpl negb. cbv iota.
  rewrite (NumberOr0_throws _ Hc). reflexivity.
Qed.

(** A refresh of [script.js] that completes has stored a number. *)
Lemma refreshBalance_number w :
  fst (refreshBalance CONFIG env w) = Normal tt ->
  typeof (balance (App (after (refreshBalance CONFIG env) w))) = "number".
Proof.
  intros Hn.
  destruct (apiFetch CONFIG env "/me/balance" no_options w) as [[res | e] w1] eqn:Hcall.
  - destruct (ok res) eqn:Hok.
    + destruct (convertible (field (data res) "balance")) eqn:Hc.
      * destruct (refreshBalance_stores w res w1 Hcall (fun _ => Hc)) as [_ Hb].
        rewrite Hb.
        destruct (ok res && negb _); [| destruct (ok res && _)]; reflexivity.
      * rewrite (refreshBalance_throws w res w1 Hcall Hok Hc) in Hn. discriminate.
    + destruct (refreshBalance_stores w res w1 Hcall) as [_ Hb]; [congruence |].
      rewrite Hb, Hok. reflexivity.
  - unfold refreshBalance in Hn. rewrite (bind_throws _ _ _ _ _ Hcall) in Hn.
    discriminate.
Qed.

(** C3, as amended, for [script.js].  For every successful balance
    reply: a [balance] field that is a number other than zero is stored
    as it is; any other [balance] field that is there and can be converted
    is stored as [Number] makes of it, and as 0 where that is NaN or zero;
    a [balance] field that cannot be converted makes the refresh throw,
    the stored balance staying as it was; a reply that is a bare number is
    stored as it is; every other reply leaves the balance of the fixture,
    15200.5, stored.  But for the one that throws, the refresh
    completes. *)
Theorem balance_of_successful_reply w res w1 :
  apiFetch CONFIG env "/me/balance" no_options w = (Normal res, w1) ->
  ok res = true ->
  (forall n, field (data res) "balance" = JNum n -> truthy (JNum n) = true ->
     balance (App (after (refreshBalance CONFIG env) w)) = JNum n)
  /\ (field (data res) "balance" <> JUndefined ->
      convertible (field (data res) "balance") = true ->
      balance (App (after (refreshBalance CONFIG env) w))
      = JNum (numberOrZero (field (data res) "balance")))
  /\ (convertible (field (data res) "balance") = false ->
      fst (refreshBalance CONFIG env w) = Throw "TypeError"
      /\ balance (App (after (refreshBalance CONFIG env) w)) = balance (App w))
  /\ (forall n, data res = JNum n ->
      balance (App (after (refreshBalance CONFIG env) w)) = JNum n)
  /\ (field (data res) "balance" = JUndefined -> (forall n, data res <> JNum n) ->
      balance (App (after (refreshBalance CONFIG env) w)) = JNum num_15200_5)
  /\ (convertible (field (data res) "balance") = true ->
      fst (refreshBalance CONFIG env w) = Normal tt).
Proof.
  intros Hcall Hok.
  assert (Hst : convertible (field (data res) "balance") = true ->
                balance (App (after (refreshBalance CONFIG env) w))
                = if negb (String.eqb (typeof (field (data res) "balance")) "undefined")
                  then JNum (numberOrZero (field (data res) "balance"))
                  else if String.eqb (typeof (data res)) "number"
                       then JNum (numberOf (data res))
                       else mock_balance MOCK ||| JNum num_0).
  { intros Hc. destruct (refreshBalance_stores w res w1 Hcall (fun _ => Hc)) as [_ Hb].
    rewrite Hb, Hok. reflexivity. }
  split; [| split; [| split; [| split; [| split]]]].
  - intros n Hf Ht. rewrite Hst by (rewrite Hf; reflexivity).
    rewrite Hf. simpl. unfold numberOrZero, orZero. simpl numberOf.
    rewrite Ht. reflexivity.
  - intros Hf Hc. rewrite (Hst Hc).
    destruct (String.eqb _ "undefined") eqn:E; [| reflexivity].
    apply typeof_undefined in E. contradiction.
  - intros Hc. unfold after. rewrite (refreshBalance_throws w res w1 Hcall Hok Hc).
    split; [reflexivity |].
    destruct (apiFetch_leaves CONFIG env _ _ _ _ _ Hcall) as (HA & _).
    simpl. rewrite HA. reflexivity.
  - intros n Hd. rewrite Hst by (rewrite Hd; reflexivity). rewrite Hd. reflexivity.
  - intros Hf Hd. rewrite Hst by (rewrite Hf; reflexivity). rewrite Hf. simpl.
    destruct (String.eqb (typeof (data res)) "number") eqn:E; [| reflexivity].
    apply typeof_number in E as [n E]. destruct (Hd n E).
  - intros Hc. exact (proj1 (refreshBalance_stores w res w1 Hcall (fun _ => Hc))).
Qed.

(** C10 in the demo variant.  After a successful reply whose body is not
    [null], the stored balance is the [balance] field of the body as it
    came: [undefined] when the field is missing, a string when the field
    is a string. *)
Theorem legacy_balance_stored_raw w res w1 :
  Legacy.apiFetch CONFIG env "/me/balance" no_options w = (Normal res, w1) ->
  ok res = true -> nullish (data res) = false ->
  balance (App (after (Legacy.refreshBalance CONFIG env) w))
  = field (data res) "balance".
Proof.
  intros Hcall Hok Hn. unfold Legacy.refreshBalance.
  rewrite (after_bind _ _ _ _ _ Hcall). rewrite Hok.
  rewrite (keeps_after_bind (fun x => balance (App x)))
    by (intros; apply updateBalanceUI_keeps; reflexivity).
  unfold getProp. rewrite Hn. reflexivity.
Qed.

End Balance.

(** A run of C3: a number under [balance] is stored; a body without a
    balance leaves the fixture stored. *)
Lemma balance_of_successful_reply_witness :
  balance (App (after (refreshBalance (engine := refEngine) CONFIG_script
                         (always (Replied true num_200 body_balance_120))) world0))
  = JNum num_120
  /\ balance (App (after (refreshBalance (engine := refEngine) CONFIG_script
                            (always (Replied true num_200 body_no_balance))) world0))
     = JNum num_15200_5.
Proof.
  split.
  - apply (proj1 (balance_of_successful_reply (engine := refEngine) CONFIG_script
                    (always (Replied true num_200 body_balance_120)) world0
                    (replied true num_200 body_balance_120)
                    (after (apiFetch (engine := refEngine) CONFIG_script
                              (always (Replied true num_200 body_balance_120))
                              "/me/balance" no_options) world0)
                    ltac:(vm_compute; reflexivity) eq_refl) num_120);
      vm_compute; reflexivity.
  - apply (proj2 (proj2 (proj2
             (balance_of_successful_reply (engine := refEngine) CONFIG_script
                (always (Replied true num_200 body_no_balance)) world0
                (replied true num_200 body_no_balance)
                (after (apiFetch (engine := refEngine) CONFIG_script
                          (always (Replied true num_200 body_no_balance))
                          "/me/balance" no_options) world0)
                ltac:(vm_compute; reflexivity) eq_refl))));
      [vm_compute; reflexivity | discriminate].
Defined.

(** A balance that cannot be converted to a number: the refresh throws
    and the stored balance stays. *)
Example refresh_unconvertible_balance :
  fst (refreshBalance (engine := refEngine) CONFIG_script
         (always (Replied true num_200 body_odd_balance)) world0)
  = Throw "TypeError"
  /\ balance (App (after (refreshBalance (engine := refEngine) CONFIG_script
                            (always (Replied true num_200 body_odd_balance))) world0))
     = balance (App world0).
Proof. split; vm_compute; reflexivity. Qed.

(** C3 as stated fails: a successful reply that is not a number and has no
    [balance] field is not stored as 0 but as the balance of the fixture;
    so is a reply that is a bare string. *)
Lemma balance_reply_without_number_not_zero :
  balance (App (after (refreshBalance (engine := refEngine) CONFIG_script
                         (always (Replied true num_200 body_no_balance))) world0))
  = JNum num_15200_5
  /\ balance (App (after (refreshBalance (engine := refEngine) CONFIG_script
                            (always (Replied true num_200 (JStr "n/a")))) world0))
     = JNum num_15200_5
  /\ JNum num_15200_5 <> JNum num_0.
Proof. split; [| split]; [vm_compute; reflexivity .. | discriminate]. Qed.

(** A run of C10 in the demo variant: the backend sends the balance as a
    string, and a string is what ends up stored. *)
Lemma legacy_balance_stored_raw_witness :
  balance (App (after (Legacy.refreshBalance (engine := refEngine) CONFIG_script
                         (always (Replied true num_200 body_balance_text))) world0))
  = JStr "100".
Proof.
  apply (legacy_balance_stored_raw (engine := refEngine) CONFIG_script
           (always (Replied true num_200 body_balance_text)) world0
           (replied true num_200 body_balance_text)
           (after (Legacy.apiFetch (engine := refEngine) CONFIG_script
                     (always (Replied true num_200 body_balance_text))
                     "/me/balance" no_options) world0));
    vm_compute; reflexivity.
Defined.

(** ** Logging out *)

Section Logout.
Context {engine : Engine}.

(** The logout handler of [script.js]: token and user are removed, the two
    entries of local storage are removed, the dashboard is hidden and the
    login screen shown; nothing else changes. *)
Lemma logout_click_effect w :
  logout_click w
  = (Normal tt,
     mkWorld (mkApp JNull JNull (balanceVisible (App w)) (balance (App w))
                (transactions (App w)))
       (delete "pd_user" (delete "pd_token" (localStorage w)))
       (set_hidden (fun h => ({[dashboardScreen]} ∪ h) ∖ {[authScreen]}) (page w))
       (currentService w) (fetchLog w) (notices w) (PaystackPop w)
       (paystackScript w) (checkout w) (clock w)).
Proof. reflexivity. Qed.

Lemma logout_click_clears w :
  let w' := after logout_click w in
  token (App w') = JNull /\ user (App w') = JNull
  /\ authenticated w' = false
  /\ localStorage w' !! "pd_token" = None
  /\ localStorage w' !! "pd_user" = None
  /\ (forall k, k <> "pd_token" -> k <> "pd_user" ->
      localStorage w' !! k = localStorage w !! k)
  /\ (dashboardScreen ∈ hidden (page w')) /\ (authScreen ∉ hidden (page w')).
Proof.
  unfold after. rewrite logout_click_effect. simpl.
  repeat split; try reflexivity.
  - rewrite lookup_delete_ne by discriminate. apply lookup_delete_eq.
  - apply lookup_delete_eq.
  - intros k Ht Hu. rewrite !lookup_delete_ne by congruence. reflexivity.
  - rewrite elem_of_difference, elem_of_union, !elem_of_singleton.
    split; [left; reflexivity | discriminate].
  - rewrite not_elem_of_difference, elem_of_singleton. right; reflexivity.
Qed.

(** C4 in the demo variant.  Its logout handler signs the user out of
    [App] but leaves local storage as it is: a persisted token stays
    persisted, for the next start-up to find. *)
Theorem legacy_logout_keeps_storage w t :
  localStorage w !! "pd_token" = Some t ->
  authenticated (after Legacy.logout_click w) = false
  /\ localStorage (after Legacy.logout_click w) !! "pd_token" = Some t
  /\ localStorage (after Legacy.logout_click w) = localStorage w.
Proof.
  intros Ht. unfold after, Legacy.logout_click, hide, show.
  rewrite !bind_modify. unfold modify. simpl.
  split; [reflexivity |]. split; [exact Ht | reflexivity].
Qed.

End Logout.

(** A run of C4 in the demo variant: the signed-in user logs out, and the
    token is still in local storage. *)
Lemma legacy_logout_keeps_storage_witness :
  authenticated (after Legacy.logout_click world_signed_in) = false
  /\ localStorage (after Legacy.logout_click world_signed_in) !! "pd_token"
     = Some "demo-token"
  /\ localStorage (after Legacy.logout_click world_signed_in)
     = localStorage world_signed_in.
Proof.
  apply (legacy_logout_keeps_storage world_signed_in "demo-token"). reflexivity.
Defined.

(** The same user logs out of [script.js]: both entries are gone and the
    third one is still there. *)
Example logout_removes_entries :
  localStorage (after logout_click world_signed_in) = {["theme" := "dark"]}.
Proof. vm_compute. reflexivity. Qed.

(** ** Failure notices *)

Section FailureNotices.
Context {engine : Engine}.
Variable CONFIG : Config.
Variable env : Env.

(** A login that the test of the reply refuses, for whatever reason,
    goes down the failure path and changes nothing else. *)
Lemma login_turnedAway w res w1 :
  loginFilled w = true ->
  apiFetch CONFIG env "/auth/login" (loginOptions w) w = (Normal res, w1) ->
  accepts res = false ->
  turnedAway (failureMessage res "Login failed") (handleLogin CONFIG env w) w.
Proof.
  intros Hf Hcall Hacc.
  destruct (apiFetch_leaves _ _ _ _ _ _ _ Hcall) as (HA & HS & HP & HN).
  rewrite (handleLogin_run _ _ _ _ _ Hf Hcall).
  apply enterSession_turnedAway; auto; discriminate.
Qed.

Lemma failure_notice_login w res w1 :
  loginFilled w = true ->
  apiFetch CONFIG env "/auth/login" (loginOptions w) w = (Normal res, w1) ->
  accepts res = false ->
  convertible (failureMessage res "Login failed") = true ->
  refusedWith (failureMessage res "Login failed") w (after (handleLogin CONFIG env) w).
Proof.
  intros Hf Hcall Hacc Hc.
  exact (turnedAway_refusedWith _ _ _ Hc (login_turnedAway w res w1 Hf Hcall Hacc)).
Qed.

(** A reply that is not [ok] is never accepted. *)
Lemma not_ok_not_accepted res : ok res = false -> accepts res = false.
Proof. intros Hok. unfold accepts. rewrite Hok. reflexivity. Qed.

(** A top-up request that fails hands the failure message to [toast]. *)
Lemma startPayment_pay_refused amount method w w2 res w3 :
  openWidget CONFIG env amount method w = (Normal false, w2) ->
  apiFetch CONFIG env "/pay/topup" (topupOptions amount method) w2 = (Normal res, w3) ->
  ok res = false ->
  startPayment_pay CONFIG env amount method w
  = toast (failureMessage res "Top up failed") w3.
Proof.
  intros Hopen Hcall Hok. unfold startPayment_pay.
  rewrite (bind_normal _ _ _ _ _ Hopen). cbv iota.
  rewrite (bind_normal _ _ _ _ _ Hcall). rewrite Hok. reflexivity.
Qed.

Lemma failure_notice_topup amount method w w2 res w3 :
  openWidget CONFIG env amount method w = (Normal false, w2) ->
  apiFetch CONFIG env "/pay/topup" (topupOptions amount method) w2 = (Normal res, w3) ->
  ok res = false ->
  convertible (failureMessage res "Top up failed") = true ->
  notices (after (startPayment_pay CONFIG env amount method) w)
  = (notices w2 ++ [stringOf (failureMessage res "Top up failed")])%list.
Proof.
  intros Hopen Hcall Hok Hc. unfold after.
  rewrite (startPayment_pay_refused _ _ _ _ _ _ Hopen Hcall Hok).
  fold (after (toast (failureMessage res "Top up failed")) w3).
  rewrite toast_notice by (try apply failureMessage_truthy; first [discriminate | exact Hc]).
  destruct (apiFetch_leaves _ _ _ _ _ _ _ Hcall) as (_ & _ & _ & HN).
  rewrite HN. reflexivity.
Qed.

(** A service payment that fails hands the failure message to [toast]. *)
Lemma payService_refused w res w1 :
  serviceFilled w = true ->
  apiFetch CONFIG env "/pay/service" (serviceOptions w) w = (Normal res, w1) ->
  ok res = false ->
  payService CONFIG env w
  = toast (failureMessage res "Service payment failed") w1.
Proof.
  intros Hf Hcall Hok. unfold payService. rewrite !bind_gets.
  unfold serviceFilled, serviceAmount in Hf. apply negb_true_iff in Hf. rewrite Hf.
  rewrite bind_gets.
  rewrite (bind_normal _ _ _ _ _ Hcall). rewrite Hok. reflexivity.
Qed.

Lemma failure_notice_service w res w1 :
  serviceFilled w = true ->
  apiFetch CONFIG env "/pay/service" (serviceOptions w) w = (Normal res, w1) ->
  ok res = false ->
  convertible (failureMessage res "Service payment failed") = true ->
  notices (after (payService CONFIG env) w)
  = (notices w ++ [stringOf (failureMessage res "Service payment failed")])%list.
Proof.
  intros Hf Hcall Hok Hc. unfold after.
  rewrite (payService_refused _ _ _ Hf Hcall Hok).
  fold (after (toast (failureMessage res "Service payment failed")) w1).
  rewrite toast_notice by (try apply failureMessage_truthy; first [discriminate | exact Hc]).
  destruct (apiFetch_leaves _ _ _ _ _ _ _ Hcall) as (_ & _ & _ & HN).
  rewrite HN. reflexivity.
Qed.

Lemma legacy_apiFetch_keeps {B} (proj : World -> B) path options :
  (forall f w, proj (set_fetchLog f w) = proj w) ->
  keeps proj (Legacy.apiFetch CONFIG env path options).
Proof.
  intros Hp. unfold Legacy.apiFetch.
  destruct (String.eqb (Legacy.base CONFIG) ""); [repeat keeps_step |].
  keeps_step; [keeps_step |]. keeps_step; [repeat keeps_step |].
  keeps_step; [keeps_step |]. keeps_step; [keeps_step; apply Hp |].
  destruct (respond env _ _); keeps_step.
Qed.

Lemma legacy_apiFetch_leaves path options w res w1 :
  Legacy.apiFetch CONFIG env path options w = (Normal res, w1) ->
  App w1 = App w /\ localStorage w1 = localStorage w /\ page w1 = page w
  /\ notices w1 = notices w.
Proof.
  intros Hcall.
  pose proof (legacy_apiFetch_keeps App path options ltac:(reflexivity) w) as HA.
  pose proof (legacy_apiFetch_keeps localStorage path options ltac:(reflexivity) w) as HS.
  pose proof (legacy_apiFetch_keeps page path options ltac:(reflexivity) w) as HP.
  pose proof (legacy_apiFetch_keeps notices path options ltac:(reflexivity) w) as HN.
  unfold after in *. rewrite Hcall in *. auto.
Qed.

(** The error of a result of the demo variant's [apiFetch] is a string
    or an [Error] object, or is missing. *)
Lemma legacy_apiFetch_error path options w res w1 :
  Legacy.apiFetch CONFIG env path options w = (Normal res, w1) ->
  convertible (error res ||| JStr "server error") = true.
Proof.
  unfold Legacy.apiFetch. destruct (String.eqb (Legacy.base CONFIG) "").
  - unfold bind, gets, ret. intros [= <- _]. unfold Legacy.mockReply.
    repeat match goal with
           | |- context [includes path ?f] => destruct (includes path f)
           end; reflexivity.
  - rewrite bind_gets. destruct (convertible (token (App w))) eqn:Hc.
    + rewrite (apiFetch_header _ _ _ Hc).
      unfold bind, gets, modify, ret; simpl.
      destruct (respond env _ _) as [message asString | ? ? ?]; intros [= <- _];
        [| reflexivity].
      destruct message; reflexivity.
    + rewrite (apiFetch_header_throws _ _ _ Hc). discriminate.
Qed.

Lemma legacy_toast_notice msg w :
  toastPresent (page w) = true -> convertible msg = true ->
  notices (after (Legacy.toast msg) w) = (notices w ++ [textFor msg])%list.
Proof.
  intros Hp Hc. unfold after, Legacy.toast. rewrite bind_gets, Hp. simpl negb. cbv iota.
  rewrite (textOf_convertible _ Hc). reflexivity.
Qed.

(** C5 in the demo variant.  A service payment that fails is announced as
    [Service failed: ] followed by the error of the transport, or by
    [server error] when there is none; the [message] and [error] fields of
    the body are not looked at. *)
Theorem legacy_service_failure_notice w res w1 :
  serviceFilled w = true -> toastPresent (page w) = true ->
  Legacy.apiFetch CONFIG env "/pay/service" (serviceOptions w) w = (Normal res, w1) ->
  ok res = false ->
  notices (after (Legacy.payService CONFIG env) w)
  = (notices w
     ++ ["Service failed: " +:+ stringOf (firstTruthy [error res] (JStr "server error"))])%list.
Proof.
  intros Hf Hp Hcall Hok. unfold Legacy.payService. rewrite !after_gets_bind.
  unfold serviceFilled, serviceAmount in Hf. apply negb_true_iff in Hf. rewrite Hf.
  rewrite after_gets_bind.
  rewrite (after_bind _ _ _ _ _ Hcall). rewrite Hok.
  destruct (legacy_apiFetch_leaves _ _ _ _ _ Hcall) as (_ & _ & HP & HN).
  unfold after at 1.
  rewrite (ToString_convertible _ (legacy_apiFetch_error _ _ _ _ _ Hcall)), bind_lift_normal.
  fold (after (Legacy.toast (JStr ("Service failed: "
                 +:+ stringOf (error res ||| JStr "server error")))) w1).
  rewrite legacy_toast_notice by first [rewrite HP; exact Hp | reflexivity].
  rewrite HN. reflexivity.
Qed.

End FailureNotices.

(** The scenario of the specification: the backend rejects a login with
    status 401 and a [message]; [script.js] shows exactly that message and
    stays on the login screen, signed out. *)
Example login_rejected_401 :
  let w' := after (handleLogin (engine := refEngine) CONFIG_script
                     (always (Replied false num_401 body_invalid))) world_login in
  notices w' = ["invalid credentials"]
  /\ authenticated w' = false
  /\ bool_decide (authScreen ∈ hidden (page w')) = false
  /\ bool_decide (dashboardScreen ∈ hidden (page w')) = true.
Proof. vm_compute. repeat split; reflexivity. Qed.

(** A run of C5 in the demo variant: the backend refuses a payment with a
    [message], and the notice does not carry it. *)
Lemma legacy_service_failure_notice_witness :
  notices (after (Legacy.payService (engine := refEngine) CONFIG_script
                    (always (Replied false num_402 body_insufficient))) world_service)
  = ["Service failed: server error"].
Proof.
  apply (legacy_service_failure_notice (engine := refEngine) CONFIG_script
           (always (Replied false num_402 body_insufficient)) world_service
           (replied false num_402 body_insufficient)
           (after (Legacy.apiFetch (engine := refEngine) CONFIG_script
                     (always (Replied false num_402 body_insufficient))
                     "/pay/service" (serviceOptions (engine := refEngine) world_service))
                  world_service));
    vm_compute; reflexivity.
Defined.

(** The same refusal in [script.js]: the notice is the message of the
    backend. *)
Example service_failure_shows_message :
  notices (after (payService (engine := refEngine) CONFIG_script
                    (always (Replied false num_402 body_insufficient))) world_service)
  = ["Insufficient funds"].
Proof. vm_compute. reflexivity. Qed.

(** A refusal whose message cannot be converted to a string: the
    payment throws and nothing is shown. *)
Example service_failure_unconvertible_message :
  fst (payService (engine := refEngine) CONFIG_script
         (always (Replied false num_402 body_odd_message)) world_service)
  = Throw "TypeError"
  /\ notices (after (payService (engine := refEngine) CONFIG_script
                       (always (Replied false num_402 body_odd_message))) world_service)
     = [].
Proof. split; vm_compute; reflexivity. Qed.

(** ** Demo mode *)

Section DemoMode.
Context {engine : Engine}.
Variable CONFIG : Config.
Variable env : Env.

(** [includes] is membership as a substring. *)
Lemma includes_substring s sub :
  includes s sub = true -> exists n, substring n (String.length sub) s = sub.
Proof.
  unfold includes. destruct (index 0 sub s) as [n |] eqn:E; [| discriminate].
  intros _. exists n. exact (index_correct1 _ _ _ _ E).
Qed.

Lemma substring_includes s sub n :
  sub <> "" -> substring n (String.length sub) s = sub -> includes s sub = true.
Proof.
  intros Hne Hs. unfold includes.
  destruct (index 0 sub s) as [m |] eqn:E; [reflexivity |].
  exfalso. apply (index_correct3 0 n sub s E Hne); [lia | exact Hs].
Qed.

(** Without a base address nothing is sent: the reply is made up. *)
Lemma apiFetch_demo path options w :
  base CONFIG = "" ->
  apiFetch CONFIG env path options w = (Normal (mockReply path (clock w)), w).
Proof. intros Hb. unfold apiFetch. rewrite Hb. reflexivity. Qed.

(** A path of one of the six families gets a successful reply, any other
    path the error [No API configured]. *)
Lemma mockReply_family path now :
  inFamily path = true ->
  ok (mockReply path now) = true /\ error (mockReply path now) = JUndefined.
Proof.
  unfold inFamily, endpointFamilies, mockReply. simpl existsb.
  repeat match goal with
         | |- context [includes path ?f] => destruct (includes path f)
         end; simpl; auto; discriminate.
Qed.

Lemma mockReply_other path now :
  inFamily path = false ->
  mockReply path now = failure (JStr "No API configured").
Proof.
  unfold inFamily, endpointFamilies, mockReply. simpl existsb.
  repeat match goal with
         | |- context [includes path ?f] => destruct (includes path f)
         end; simpl; intros; try discriminate; reflexivity.
Qed.

(** What each family is answered with. *)
Lemma mockReply_session path now :
  includes path "/auth/login" = true \/ includes path "/auth/register" = true ->
  data (mockReply path now) = obj [("token", mock_token MOCK); ("user", mock_user MOCK)].
Proof.
  unfold mockReply. intros [E | E]; rewrite E; [reflexivity |].
  destruct (includes path "/auth/login"); reflexivity.
Qed.

(** In demo mode [script.js] serves the six families and refuses the
    rest, without sending anything. *)
Lemma demo_mode_replies path options w :
  base CONFIG = "" ->
  (inFamily path = true ->
   exists res, apiFetch CONFIG env path options w = (Normal res, w)
               /\ ok res = true /\ error res = JUndefined)
  /\ (inFamily path = false ->
      apiFetch CONFIG env path options w
      = (Normal (failure (JStr "No API configured")), w)).
Proof.
  intros Hb. rewrite (apiFetch_demo _ _ _ Hb). split; intros Hf.
  - exists (mockReply path (clock w)). split; [reflexivity |].
    apply mockReply_family, Hf.
  - rewrite (mockReply_other _ _ Hf). reflexivity.
Qed.

(** C6 in the demo variant.  Without a base address, a call to the top-up
    endpoint, one of the six families, is answered with an error. *)
Theorem legacy_demo_topup_refused options w :
  Legacy.base CONFIG = "" ->
  inFamily "/pay/topup" = true
  /\ Legacy.apiFetch CONFIG env "/pay/topup" options w
     = (Normal (failure (JStr "No API configured (demo mode)")), w).
Proof.
  intros Hb. split; [reflexivity |].
  unfold Legacy.apiFetch. rewrite Hb. reflexivity.
Qed.

End DemoMode.

(** A run of C6 in the demo variant, under the configuration it ships
    with. *)
Lemma legacy_demo_topup_refused_witness :
  Legacy.apiFetch (engine := refEngine) Legacy.CONFIG_demo (always (Rejected "" ""))
    "/pay/topup" (topupOptions (engine := refEngine) num_50 "transfer") world0
  = (Normal (failure (JStr "No API configured (demo mode)")), world0).
Proof.
  apply (legacy_demo_topup_refused (engine := refEngine) Legacy.CONFIG_demo
           (always (Rejected "" ""))
           (topupOptions (engine := refEngine) num_50 "transfer") world0).
  reflexivity.
Defined.

(** The same call in [script.js] without a base address succeeds. *)
Example demo_topup_served :
  ok (mockReply (engine := refEngine) "/pay/topup" num_0) = true.
Proof. reflexivity. Qed.

(** ** The minimum top-up *)

Section TopUp.
Context {engine : Engine}.
Variable CONFIG : Config.
Variable env : Env.

(** The check against a positive bound [b] turns away exactly the
    amounts that are not at least [b]. *)
Lemma guard_bound m0 e0 a :
  negb (truthy (JNum a)) || SFltb a (S754_finite false m0 e0)
  = negb (SFleb (S754_finite false m0 e0) a).
Proof.
  destruct a as [[] | [] | | [] m e]; try reflexivity.
  unfold SFltb, SFleb, SFcompare, truthy, negb, orb.
  pose proof (Pos.compare_cont_antisym m0 m Eq) as Hm. simpl in Hm.
  rewrite (Z.compare_antisym e0 e), <- Hm.
  destruct (e0 ?= e)%Z; try reflexivity.
  destruct (Pos.compare_cont Eq m0 m); reflexivity.
Qed.

(** The check of [startPayment] turns away exactly the amounts that are
    not at least 50. *)
Lemma amount_guard a :
  negb (truthy (JNum a)) || SFltb a num_50 = negb (SFleb num_50 a).
Proof. apply guard_bound. Qed.

(** C7.  A top-up whose amount is below 50, 49 included, is turned away
    with the notice of the minimum and nothing else happens: no request is
    sent and no payment frame is opened.  A top-up whose amount is at least
    50 passes the check and goes on to the payment. *)
Theorem topup_minimum w :
  (SFltb (topupAmount w) num_50 = true \/ topupAmount w = num_49 ->
   startPayment CONFIG env w
   = (Normal tt, after (toast (JStr "Provide a valid amount (min 50)")) w)
   /\ fetchLog (after (startPayment CONFIG env) w) = fetchLog w
   /\ checkout (after (startPayment CONFIG env) w) = checkout w
   /\ App (after (startPayment CONFIG env) w) = App w
   /\ notices (after (startPayment CONFIG env) w)
      = (notices w ++ ["Provide a valid amount (min 50)"])%list)
  /\ (SFleb num_50 (topupAmount w) = true ->
      startPayment CONFIG env w
      = startPayment_pay CONFIG env (topupAmount w) (value (page w) "#add-method") w).
Proof.
  split.
  - intros Hlow.
    assert (Hlt : SFltb (topupAmount w) num_50 = true).
    { destruct Hlow as [Hlt | ->]; [exact Hlt | reflexivity]. }
    destruct (toast_effect (JStr "Provide a valid amount (min 50)") w eq_refl)
      as (Hn & HA & _ & HF & _ & _).
    assert (Hrun : startPayment CONFIG env w
                   = (Normal tt, after (toast (JStr "Provide a valid amount (min 50)")) w)).
    { unfold startPayment. rewrite !bind_gets, Hlt, orb_true_r.
      apply run_normal, Hn. }
    split; [exact Hrun |]. unfold after at 1 2 3 4. rewrite Hrun. simpl snd.
    split; [exact HF |].
    split; [apply (toast_keeps checkout); reflexivity |].
    split; [exact HA |].
    apply toast_notice; reflexivity.
  - intros Hge. unfold startPayment. rewrite !bind_gets.
    rewrite amount_guard, Hge. reflexivity.
Qed.

End TopUp.

(** A run of C7: 49 is turned away, 50 goes on to the top-up endpoint. *)
Lemma topup_minimum_witness :
  notices (after (startPayment (engine := refEngine) CONFIG_script
                    (always (Replied true num_200 JNull))) (world_topup "49"))
  = ["Provide a valid amount (min 50)"]
  /\ fetchLog (after (startPayment (engine := refEngine) CONFIG_script
                        (always (Replied true num_200 JNull))) (world_topup "49"))
     = []
  /\ startPayment (engine := refEngine) CONFIG_script
       (always (Replied true num_200 JNull)) (world_topup "50")
     = startPayment_pay (engine := refEngine) CONFIG_script
         (always (Replied true num_200 JNull)) num_50 "transfer" (world_topup "50").
Proof.
  pose proof (proj1 (topup_minimum (engine := refEngine) CONFIG_script
                       (always (Replied true num_200 JNull)) (world_topup "49"))
                (or_intror eq_refl)) as (_ & HF & _ & _ & HN).
  split; [exact HN |]. split; [exact HF |].
  apply (proj2 (topup_minimum (engine := refEngine) CONFIG_script
                  (always (Replied true num_200 JNull)) (world_topup "50"))).
  vm_compute. reflexivity.
Defined.

(** ** The balance on display *)

Section Display.
Context {engine : Engine}.

(** [updateBalanceUI] writes the text that belongs to the state, and
    throws with nothing written when there is none. *)
Lemma updateBalanceUI_effect w s :
  balanceShown (App w) = Normal s ->
  updateBalanceUI w = (Normal tt, set_page (set_balanceValue s) w).
Proof.
  unfold balanceShown, updateBalanceUI. intros Hs. rewrite bind_gets.
  destruct (balanceVisible (App w)).
  - rewrite Hs. reflexivity.
  - injection Hs as <-. reflexivity.
Qed.

Lemma updateBalanceUI_throws w e :
  balanceShown (App w) = Throw e -> updateBalanceUI w = (Throw e, w).
Proof.
  unfold balanceShown, updateBalanceUI. intros Hs. rewrite bind_gets.
  destruct (balanceVisible (App w)); [| discriminate].
  rewrite Hs. reflexivity.
Qed.

(** Every write of the balance text leaves the page showing what belongs
    to the state. *)
Lemma updateBalanceUI_rendered w :
  fst (updateBalanceUI w) = Normal tt -> rendered (after updateBalanceUI w).
Proof.
  intros Hn. unfold after, rendered.
  destruct (balanceShown (App w)) as [s | e] eqn:Hs.
  - rewrite (updateBalanceUI_effect _ _ Hs). exact Hs.
  - rewrite (updateBalanceUI_throws _ _ Hs) in Hn. discriminate.
Qed.

(** A toggle flips the flag whatever becomes of the text. *)
Lemma toggle_App w :
  App (after toggle_balance_click w)
  = set_balanceVisible (negb (balanceVisible (App w))) (App w).
Proof.
  unfold toggle_balance_click. rewrite after_modify_bind.
  rewrite (updateBalanceUI_keeps App) by reflexivity. reflexivity.
Qed.

Lemma toggle_shows w s :
  balanceShown (set_balanceVisible (negb (balanceVisible (App w))) (App w)) = Normal s ->
  balanceValue (page (after toggle_balance_click w)) = s.
Proof.
  intros Hs. unfold toggle_balance_click. rewrite after_modify_bind.
  unfold after. rewrite (updateBalanceUI_effect _ s) by exact Hs. reflexivity.
Qed.

(** A toggle whose text cannot be made leaves the text it found. *)
Lemma toggle_keeps_text w e :
  balanceShown (set_balanceVisible (negb (balanceVisible (App w))) (App w)) = Throw e ->
  balanceValue (page (after toggle_balance_click w)) = balanceValue (page w).
Proof.
  intros Hs. unfold toggle_balance_click. rewrite after_modify_bind.
  unfold after. rewrite (updateBalanceUI_throws _ e) by exact Hs. reflexivity.
Qed.

Lemma toggle_rendered w :
  fst (toggle_balance_click w) = Normal tt -> rendered (after toggle_balance_click w).
Proof.
  unfold toggle_balance_click. rewrite bind_modify, after_modify_bind.
  apply updateBalanceUI_rendered.
Qed.

(** C8.  From the visible state one toggle shows the masked placeholder;
    two toggles leave [App] as it was and the balance text as the state
    has it, which is the text that was on display when the display was
    up to date.  (A stored balance that cannot be converted has no text:
    the placeholder of the first toggle then stays.) *)
Theorem toggle_twice_restores w :
  (balanceVisible (App w) = true ->
   balanceValue (page (after toggle_balance_click w)) = "****")
  /\ App (after toggle_balance_click (after toggle_balance_click w)) = App w
  /\ balanceValue (page (after toggle_balance_click (after toggle_balance_click w)))
     = match balanceShown (App w) with
       | Normal s => s
       | Throw _ => "****"
       end
  /\ (rendered w ->
      balanceValue (page (after toggle_balance_click (after toggle_balance_click w)))
      = balanceValue (page w)).
Proof.
  assert (Hflip : set_balanceVisible
                    (negb (balanceVisible (App (after toggle_balance_click w))))
                    (App (after toggle_balance_click w)) = App w).
  { rewrite toggle_App. destruct (App w) as [t u v b x]; simpl.
    unfold set_balanceVisible; simpl. rewrite negb_involutive. reflexivity. }
  assert (HT : forall s, balanceShown (App w) = Normal s ->
               balanceValue (page (after toggle_balance_click
                                     (after toggle_balance_click w))) = s).
  { intros s Hs. apply toggle_shows. rewrite Hflip. exact Hs. }
  assert (H1 : balanceVisible (App w) = true ->
               balanceValue (page (after toggle_balance_click w)) = "****").
  { intros Hv. apply toggle_shows. unfold balanceShown. simpl. rewrite Hv. reflexivity. }
  split; [exact H1 |]. split; [| split].
  - rewrite toggle_App. exact Hflip.
  - destruct (balanceShown (App w)) as [s | e] eqn:Hs; [exact (HT s eq_refl) |].
    rewrite (toggle_keeps_text _ e) by (rewrite Hflip; exact Hs).
    apply H1. unfold balanceShown in Hs.
    destruct (balanceVisible (App w)); [reflexivity | discriminate].
  - intros Hr. apply HT. exact Hr.
Qed.

End Display.

(** A run of C8 on the dashboard of the signed-in user. *)
Lemma toggle_twice_restores_witness :
  balanceValue (page (after (toggle_balance_click (engine := refEngine)) world_dashboard))
  = "****"
  /\ balanceValue (page (after (toggle_balance_click (engine := refEngine))
                           (after (toggle_balance_click (engine := refEngine))
                              world_dashboard)))
     = "₦15,200.50".
Proof.
  destruct (toggle_twice_restores (engine := refEngine) world_dashboard)
    as (H1 & _ & _ & H2).
  split; [apply H1; reflexivity |].
  apply H2. vm_compute. reflexivity.
Defined.

(** * Further properties *)

(** ** Steps that complete *)


Section Validation.
Context {engine : Engine}.
Variable CONFIG : Config.
Variable env : Env.

(** [toast] of [script.js] completes on a message that can be
    converted, and so on every string. *)
Lemma toast_normal msg w : convertible msg = true -> fst (toast msg w) = Normal tt.
Proof. intros Hc. exact (proj1 (toast_effect msg w Hc)). Qed.

Lemma toast_text_normal text w : fst (toast (JStr text) w) = Normal tt.
Proof. apply toast_normal. reflexivity. Qed.

Lemma toast_onlyNotice msg w :
  truthy msg = true -> convertible msg = true ->
  onlyNotice (stringOf msg) w (after (toast msg) w).
Proof.
  intros Ht Hc. destruct (toast_effect msg w Hc) as (_ & HA & HS & HF & _ & _).
  unfold onlyNotice. split; [exact HA |]. split; [exact HS |]. split; [exact HF |].
  split; [apply (toast_keeps checkout); reflexivity |].
  split; [apply toast_notice; assumption | intros el Hel; apply toast_screen, Hel].
Qed.

(** A login form with a blank identifier or password, or a registration
    form with a blank name, e-mail or password, only earns a notice:
    nothing is sent, stored or switched. *)
Theorem blank_form_sends_nothing w :
  (loginFilled w = false ->
   fst (handleLogin CONFIG env w) = Normal tt
   /\ onlyNotice "Provide email/phone and password" w (after (handleLogin CONFIG env) w))
  /\ (registerFilled w = false ->
      fst (handleRegister CONFIG env w) = Normal tt
      /\ onlyNotice "Complete required fields" w (after (handleRegister CONFIG env) w)).
Proof.
  split; intros Hf.
  - unfold loginFilled in Hf. apply negb_false_iff in Hf.
    unfold after, handleLogin. rewrite !bind_gets, Hf.
    split; [apply toast_text_normal | apply (toast_onlyNotice (JStr _)); reflexivity].
  - unfold registerFilled in Hf. apply negb_false_iff in Hf.
    unfold after, handleRegister. rewrite !bind_gets, Hf.
    split; [apply toast_text_normal | apply (toast_onlyNotice (JStr _)); reflexivity].
Qed.

(** The amount check of [payService] turns away exactly the amounts that
    are not above zero. *)
Lemma service_guard a :
  negb (truthy (JNum a)) || SFleb a num_0 = negb (SFltb num_0 a).
Proof. destruct a as [[] | [] | | [] m e]; reflexivity. Qed.

(** [payService] calls the backend exactly when the customer is not
    blank and the amount is a number above zero; otherwise it only shows
    its notice. *)
Theorem service_form_check w :
  (serviceFilled w = true <->
   trim (value (page w) "#service-customer") <> ""
   /\ SFltb num_0 (serviceAmount w) = true)
  /\ (serviceFilled w = false ->
      fst (payService CONFIG env w) = Normal tt
      /\ onlyNotice "Complete the service form" w (after (payService CONFIG env) w)).
Proof.
  split.
  - unfold serviceFilled. rewrite <- orb_assoc, service_guard, negb_orb, negb_involutive.
    rewrite andb_true_iff, negb_true_iff.
    destruct (String.eqb_spec (trim (value (page w) "#service-customer")) "") as [E | E];
      split; intros [H1 H2]; try discriminate; try contradiction; auto.
  - intros Hf. unfold serviceFilled, serviceAmount in Hf. apply negb_false_iff in Hf.
    unfold after, payService. rewrite !bind_gets, Hf.
    split; [apply toast_text_normal | apply (toast_onlyNotice (JStr _)); reflexivity].
Qed.

End Validation.

(** Blank forms on the start-up page. *)
Lemma blank_form_sends_nothing_witness :
  onlyNotice "Provide email/phone and password" world0
    (after (handleLogin (engine := refEngine) CONFIG_script (always (Rejected "" "")))
       world0)
  /\ onlyNotice "Complete required fields" world0
       (after (handleRegister (engine := refEngine) CONFIG_script (always (Rejected "" "")))
          world0).
Proof.
  destruct (blank_form_sends_nothing (engine := refEngine) CONFIG_script
              (always (Rejected "" "")) world0) as [HL HR].
  split; [apply HL | apply HR]; reflexivity.
Defined.

(** The service form with an amount of zero. *)
Lemma service_form_check_witness :
  onlyNotice "Complete the service form"
    (fill "#service-amount" "0" world_service)
    (after (payService (engine := refEngine) CONFIG_script (always (Rejected "" "")))
       (fill "#service-amount" "0" world_service)).
Proof.
  apply (proj2 (service_form_check (engine := refEngine) CONFIG_script
                  (always (Rejected "" "")) (fill "#service-amount" "0" world_service))).
  vm_compute. reflexivity.
Defined.

(** ** Requests to a backend *)

Section Backend.
Context {engine : Engine}.
Variable CONFIG : Config.
Variable env : Env.

(** With a base address and a token that can be put in the header,
    [apiFetch] sends one request and makes its result of what comes
    back. *)
Lemma apiFetch_backend path options w :
  base CONFIG <> "" -> convertible (token (App w)) = true ->
  apiFetch CONFIG env path options w
  = (Normal (resultOf (respond env (length (fetchLog w)) (requestFor CONFIG path options w))),
     set_fetchLog (fun l => (l ++ [requestFor CONFIG path options w])%list) w).
Proof.
  intros Hb Hc. unfold apiFetch.
  destruct (String.eqb_spec (base CONFIG) ""); [contradiction |].
  rewrite bind_gets, (apiFetch_header _ _ _ Hc), bind_gets, bind_modify.
  change (mkRequest _ _ _ _) with (requestFor CONFIG path options w).
  destruct (respond env _ _); reflexivity.
Qed.

(** A call that completed against a backend found a token it could
    send. *)
Lemma apiFetch_normal_token path options w res w1 :
  base CONFIG <> "" ->
  apiFetch CONFIG env path options w = (Normal res, w1) ->
  convertible (token (App w)) = true.
Proof.
  intros Hb Hcall. destruct (convertible (token (App w))) eqn:Hc; [reflexivity |].
  rewrite (apiFetch_throws CONFIG env path options w Hb Hc) in Hcall. discriminate.
Qed.

Lemma requestFor_token path options w w' :
  token (App w') = token (App w) ->
  requestFor CONFIG path options w' = requestFor CONFIG path options w.
Proof. intros E. unfold requestFor. rewrite E. reflexivity. Qed.

(** A part of the world a refresh of the balance does not write. *)
Lemma refreshBalance_frame {B} (proj : World -> B) :
  (forall f w, proj (set_fetchLog f w) = proj w) ->
  (forall s w, proj (set_page (set_balanceValue s) w) = proj w) ->
  (forall v w, proj (set_App (set_balance v) w) = proj w) ->
  keeps proj (refreshBalance CONFIG env).
Proof.
  intros Hl Hb Ha. unfold refreshBalance.
  apply keeps_bind; [apply apiFetch_keeps, Hl | intros res].
  apply keeps_bind; [| intros _; apply updateBalanceUI_keeps, Hb].
  repeat keeps_step; apply Ha.
Qed.

(** A part of the world a load of the transactions does not write. *)
Lemma loadTransactions_frame {B} (proj : World -> B) :
  (forall f w, proj (set_fetchLog f w) = proj w) ->
  (forall f w, proj (set_page (set_txList f) w) = proj w) ->
  (forall v w, proj (set_App (set_transactions v) w) = proj w) ->
  keeps proj (loadTransactions CONFIG env).
Proof.
  intros Hl Hx Ht. unfold loadTransactions.
  apply keeps_bind; [apply apiFetch_keeps, Hl | intros res].
  apply keeps_bind; [| intros _; apply renderTransactions_keeps, Hx].
  repeat keeps_step; apply Ht.
Qed.

(** The request a refresh of the balance adds to the log, however the
    refresh ends. *)
Lemma refreshBalance_log w :
  base CONFIG <> "" -> convertible (token (App w)) = true ->
  fetchLog (after (refreshBalance CONFIG env) w)
  = (fetchLog w ++ [refreshRequest CONFIG "/me/balance" (token (App w))])%list.
Proof.
  intros Hb Hc. unfold refreshBalance.
  rewrite (after_bind _ _ _ _ _ (apiFetch_backend "/me/balance" no_options w Hb Hc)).
  match goal with |- fetchLog (after ?m ?w0) = _ =>
    assert (Hk : keeps fetchLog m) end.
  { apply keeps_bind; [| intros _; apply updateBalanceUI_keeps; reflexivity].
    repeat keeps_step; reflexivity. }
  rewrite Hk. reflexivity.
Qed.

(** The request a load of the transactions adds to the log, however the
    rendering ends. *)
Lemma loadTransactions_log w :
  base CONFIG <> "" -> convertible (token (App w)) = true ->
  fetchLog (after (loadTransactions CONFIG env) w)
  = (fetchLog w ++ [refreshRequest CONFIG "/me/transactions" (token (App w))])%list.
Proof.
  intros Hb Hc. unfold loadTransactions.
  rewrite (after_bind _ _ _ _ _ (apiFetch_backend "/me/transactions" no_options w Hb Hc)).
  match goal with |- fetchLog (after ?m ?w0) = _ =>
    assert (Hk : keeps fetchLog m) end.
  { apply keeps_bind; [| intros _; apply renderTransactions_keeps; reflexivity].
    repeat keeps_step; reflexivity. }
  rewrite Hk. reflexivity.
Qed.

(** The refresh of the balance completes when the token can be sent and
    the backend sends no balance that cannot be converted. *)
Lemma refreshBalance_completes w :
  convertible (token (App w)) = true -> balancesConvert env ->
  fst (refreshBalance CONFIG env w) = Normal tt.
Proof.
  intros Hc Henv.
  destruct (String.eqb_spec (base CONFIG) "") as [Hb | Hb].
  - pose proof (apiFetch_demo CONFIG env "/me/balance" no_options w Hb) as Hcall.
    apply (refreshBalance_stores CONFIG env w _ _ Hcall). reflexivity.
  - pose proof (apiFetch_backend "/me/balance" no_options w Hb Hc) as Hcall.
    apply (refreshBalance_stores CONFIG env w _ _ Hcall).
    destruct (respond env _ _) as [message asString | o st json] eqn:Er; simpl.
    + discriminate.
    + intros _. exact (Henv _ _ _ _ _ Er).
Qed.

(** The two refreshes, one after the other, send two requests that carry
    the token of the world they start in. *)
Lemma refreshes_log w :
  base CONFIG <> "" -> convertible (token (App w)) = true -> balancesConvert env ->
  fetchLog (after (bind (refreshBalance CONFIG env) (fun _ => loadTransactions CONFIG env)) w)
  = (fetchLog w ++ [refreshRequest CONFIG "/me/balance" (token (App w));
                    refreshRequest CONFIG "/me/transactions" (token (App w))])%list.
Proof.
  intros Hb Hc Henv.
  pose proof (refreshBalance_completes w Hc Henv) as Hn.
  assert (Ht : token (App (after (refreshBalance CONFIG env) w)) = token (App w)).
  { apply (refreshBalance_frame (fun x => token (App x))); reflexivity. }
  rewrite (after_bind_fst _ _ _ _ Hn), (loadTransactions_log _ Hb), (refreshBalance_log _ Hb Hc)
    by (rewrite Ht; exact Hc).
  rewrite Ht, <- app_assoc. reflexivity.
Qed.

(** Entering the dashboard sends the two refreshes when the name and the
    e-mail of the user can be shown. *)
Lemma onLoggedIn_log w :
  base CONFIG <> "" -> convertible (token (App w)) = true -> balancesConvert env ->
  convertible (field (user (App w)) "name" ||| JStr "User") = true ->
  convertible (field (user (App w)) "email" ||| JStr "") = true ->
  fetchLog (after (onLoggedIn CONFIG env) w)
  = (fetchLog w ++ [refreshRequest CONFIG "/me/balance" (token (App w));
                    refreshRequest CONFIG "/me/transactions" (token (App w))])%list.
Proof.
  intros Hb Hc Henv Hname Hemail. unfold onLoggedIn, hide, show.
  rewrite !after_modify_bind, after_gets_bind. simpl user.
  unfold after at 1. rewrite (ToString_convertible _ Hname), bind_lift_normal, bind_modify.
  rewrite (textOf_convertible _ Hemail), bind_lift_normal, bind_modify.
  match goal with |- fetchLog (snd (?m ?x)) = _ => change (snd (m x)) with (after m x) end.
  rewrite refreshes_log by assumption. reflexivity.
Qed.

(** After a login that the backend accepts, the two refreshes of the
    dashboard are sent with the token just received as their bearer
    header; the login request itself carries the header of the world it
    was sent from.  This is so when the token can be stored, the name and
    the e-mail of the user can be shown, and the backend sends no balance
    that cannot be converted. *)
Theorem login_then_refresh_carries_token w res w1 :
  base CONFIG <> "" ->
  loginFilled w = true ->
  apiFetch CONFIG env "/auth/login" (loginOptions w) w = (Normal res, w1) ->
  accepts res = true ->
  convertible (tokenOf res) = true ->
  convertible (field (userOf res) "name" ||| JStr "User") = true ->
  convertible (field (userOf res) "email" ||| JStr "") = true ->
  balancesConvert env ->
  fetchLog (after (handleLogin CONFIG env) w)
  = (fetchLog w
     ++ [requestFor CONFIG "/auth/login" (loginOptions w) w;
         refreshRequest CONFIG "/me/balance" (tokenOf res);
         refreshRequest CONFIG "/me/transactions" (tokenOf res)])%list.
Proof.
  intros Hb Hf Hcall Hacc Hct Hname Hemail Henv.
  rewrite (handleLogin_call _ _ _ _ _ Hf Hcall).
  pose proof (apiFetch_normal_token _ _ _ _ _ Hb Hcall) as Hc0.
  rewrite (apiFetch_backend _ _ _ Hb Hc0) in Hcall. injection Hcall as _ <-.
  unfold accepts in Hacc. apply andb_true_iff in Hacc as [Hacc Htok].
  apply andb_true_iff in Hacc as [Hok _].
  match goal with |- context [after (enterSession _ _ _ _ _) ?x] =>
    destruct (enterSession_accepted CONFIG env res "Logged in" "Login failed" x Hok Htok)
      as (w0 & H0t & H0u & _ & _ & _ & H0f & _ & Hrun)
  end.
  rewrite (Hrun Hct).
  rewrite (toast_keeps fetchLog) by reflexivity.
  rewrite onLoggedIn_log; simpl; rewrite ?H0t, ?H0u; try assumption.
  rewrite H0f. simpl. rewrite <- app_assoc. reflexivity.
Qed.

(** When every request is rejected by the transport, a login made under
    a token that can be sent, or under none, shows the message of the
    error, or what [String] makes of the error when the message is empty,
    and the session stays as it was.  Under a token that cannot be sent
    the handler throws before anything is sent. *)
Theorem login_transport_error w message asString :
  base CONFIG <> "" ->
  loginFilled w = true ->
  (forall n req, respond env n req = Rejected message asString) ->
  message <> "" \/ asString <> "" ->
  (convertible (token (App w)) = true ->
   refusedWith (JStr (if String.eqb message "" then asString else message)) w
     (after (handleLogin CONFIG env) w)
   /\ fetchLog (after (handleLogin CONFIG env) w)
      = (fetchLog w ++ [requestFor CONFIG "/auth/login" (loginOptions w) w])%list)
  /\ (convertible (token (App w)) = false ->
      handleLogin CONFIG env w = (Throw "TypeError", w)).
Proof.
  intros Hb Hf Hdown Hne. split; intros Hc.
  - pose proof (apiFetch_backend "/auth/login" (loginOptions w) w Hb Hc) as Hcall.
    rewrite Hdown in Hcall.
    set (res := resultOf (Rejected message asString)) in *.
    assert (Hmsg : failureMessage res "Login failed"
                   = JStr (if String.eqb message "" then asString else message)).
    { unfold failureMessage, res, resultOf, failure, js_or; simpl.
      destruct (String.eqb_spec message "") as [-> | Hm]; simpl.
      - destruct (String.eqb_spec asString "") as [-> | Hs]; simpl; [| reflexivity].
        destruct Hne; contradiction.
      - destruct (String.eqb_spec message ""); [contradiction | reflexivity]. }
    split.
    + rewrite <- Hmsg. apply (failure_notice_login _ _ _ _ _ Hf Hcall); [reflexivity |].
      rewrite Hmsg. reflexivity.
    + rewrite (handleLogin_call _ _ _ _ _ Hf Hcall).
      unfold enterSession. change (ok res) with false. simpl andb. cbv iota.
      rewrite (toast_keeps fetchLog) by reflexivity. reflexivity.
  - unfold handleLogin. rewrite !bind_gets.
    unfold loginFilled in Hf. apply negb_true_iff in Hf. rewrite Hf.
    apply bind_throws, apiFetch_throws; assumption.
Qed.

End Backend.

(** A login accepted by the backend, from the signed-out start. *)
Lemma login_then_refresh_carries_token_witness :
  List.map authorization
    (fetchLog (after (handleLogin (engine := refEngine) CONFIG_script
                        (always (Replied true num_200 body_alternate))) world_login))
  = [None; Some "Bearer t-1"; Some "Bearer t-1"].
Proof.
  rewrite (login_then_refresh_carries_token (engine := refEngine) CONFIG_script
             (always (Replied true num_200 body_alternate)) world_login
             (replied true num_200 body_alternate)
             (after (apiFetch (engine := refEngine) CONFIG_script
                       (always (Replied true num_200 body_alternate))
                       "/auth/login" (loginOptions (engine := refEngine) world_login))
                world_login));
    [vm_compute; reflexivity | discriminate | vm_compute; reflexivity ..
    | intros n req o st json [= _ _ <-]; reflexivity].
Defined.

(** A login while the network is down. *)
Lemma login_transport_error_witness :
  refusedWith (engine := refEngine) (JStr "Failed to fetch") world_login
    (after (handleLogin (engine := refEngine) CONFIG_script
              (always (Rejected "Failed to fetch" "TypeError: Failed to fetch")))
       world_login).
Proof.
  destruct (login_transport_error (engine := refEngine) CONFIG_script
              (always (Rejected "Failed to fetch" "TypeError: Failed to fetch"))
              world_login "Failed to fetch" "TypeError: Failed to fetch") as [H _].
  - discriminate.
  - vm_compute. reflexivity.
  - reflexivity.
  - left. discriminate.
  - exact (proj1 (H eq_refl)).
Defined.

(** ** Refreshing the dashboard *)

Section Refresh.
Context {engine : Engine}.
Variable CONFIG : Config.
Variable env : Env.

(** Rendering a list of elements that can be rendered completes: an
    empty list gives the placeholder line, any other list one row per
    element. *)
Lemma renderTransactions_rows w l :
  transactions (App w) = JArr l ->
  Forall (fun tx => renderable tx = true) l ->
  fst (renderTransactions w) = Normal tt
  /\ List.map rowTitle (txList (page (after renderTransactions w)))
     = match l with
       | [] => [None]
       | _ => List.map (fun tx => Some (titleShown tx)) l
       end.
Proof.
  intros Htx Hall. destruct l as [| tx r].
  - unfold after, renderTransactions. rewrite bind_modify, bind_gets.
    set (w0 := set_page (set_txList (fun _ => [])) w).
    assert (Htx0 : transactions (App w0) = JArr []) by exact Htx.
    rewrite Htx0. split; reflexivity.
  - unfold after. rewrite (renderTransactions_loop w _ Htx) by discriminate.
    destruct (appendRows_titles (tx :: r) (set_page (set_txList (fun _ => [])) w) Hall)
      as (rows & Hrun & Ht).
    rewrite Hrun. split; [reflexivity | exact Ht].
Qed.

(** The first element that cannot be rendered ends the rendering. *)
Lemma renderTransactions_stops w pre tx post :
  transactions (App w) = JArr (pre ++ tx :: post) ->
  Forall (fun tx => renderable tx = true) pre -> renderable tx = false ->
  fst (renderTransactions w) = Throw "TypeError"
  /\ List.map rowTitle (txList (page (after renderTransactions w)))
     = List.map (fun tx => Some (titleShown tx)) pre.
Proof.
  intros Htx Hall Hbad. unfold after.
  rewrite (renderTransactions_loop w _ Htx) by (destruct pre; discriminate).
  destruct (appendRows_stops pre tx post (set_page (set_txList (fun _ => [])) w)
              Hall Hbad) as (rows & Hrun & Ht).
  rewrite Hrun. split; [reflexivity | exact Ht].
Qed.

(** What a load of the transactions stores is decided by the reply. *)
Lemma loadTransactions_stores w res w1 :
  apiFetch CONFIG env "/me/transactions" no_options w = (Normal res, w1) ->
  let stored :=
    if ok res && isArray (field (data res) "transactions")
    then field (data res) "transactions"
    else if ok res && isArray (data res) then data res
         else mock_transactions MOCK in
  loadTransactions CONFIG env w
  = renderTransactions (set_App (set_transactions stored) w1).
Proof.
  intros Hcall. unfold loadTransactions.
  rewrite (bind_normal _ _ _ _ _ Hcall).
  destruct (ok res && isArray (field (data res) "transactions"));
    [| destruct (ok res && isArray (data res))]; reflexivity.
Qed.

Lemma renderTransactions_App w : App (after renderTransactions w) = App w.
Proof. apply (renderTransactions_keeps App). reflexivity. Qed.

(** Whatever the reply to a request it could send, [loadTransactions]
    leaves an array in [App.transactions].  When each of its elements
    can be rendered (it is neither [null] nor [undefined], and its
    amount, title, meta and date can be converted) the load completes,
    and the list on the page is the placeholder line for an empty array
    and one row per element otherwise; the first element that cannot be
    rendered makes the load throw, the rows before it staying on the
    page. *)
Theorem loadTransactions_array w :
  convertible (token (App w)) = true ->
  exists l,
    transactions (App (after (loadTransactions CONFIG env) w)) = JArr l
    /\ (Forall (fun tx => renderable tx = true) l ->
        fst (loadTransactions CONFIG env w) = Normal tt
        /\ List.map rowTitle (txList (page (after (loadTransactions CONFIG env) w)))
           = match l with
             | [] => [None]
             | _ => List.map (fun tx => Some (titleShown tx)) l
             end)
    /\ (forall pre tx post,
          l = (pre ++ tx :: post)%list ->
          Forall (fun tx => renderable tx = true) pre -> renderable tx = false ->
          fst (loadTransactions CONFIG env w) = Throw "TypeError"
          /\ List.map rowTitle (txList (page (after (loadTransactions CONFIG env) w)))
             = List.map (fun tx => Some (titleShown tx)) pre).
Proof.
  intros Hc.
  destruct (apiFetch_total CONFIG env "/me/transactions" no_options w Hc)
    as (res & w1 & Hcall).
  pose proof (loadTransactions_stores w res w1 Hcall) as Hrun. cbv zeta in Hrun.
  unfold after. rewrite Hrun.
  set (stored := if ok res && isArray (field (data res) "transactions") then _ else _).
  assert (Harr : exists l, stored = JArr l).
  { unfold stored.
    destruct (ok res && isArray (field (data res) "transactions")) eqn:E1.
    - apply andb_true_iff in E1 as [_ E1].
      destruct (field (data res) "transactions"); try discriminate; eauto.
    - destruct (ok res && isArray (data res)) eqn:E2.
      + apply andb_true_iff in E2 as [_ E2].
        destruct (data res); try discriminate; eauto.
      + eexists; reflexivity. }
  destruct Harr as [l Hl]. exists l.
  fold (after renderTransactions (set_App (set_transactions stored) w1)).
  rewrite renderTransactions_App. split; [exact Hl |]. split.
  - intros Hall. apply renderTransactions_rows; [exact Hl | exact Hall].
  - intros pre tx post -> Hall Hbad.
    apply (renderTransactions_stops _ pre tx post); [exact Hl | exact Hall | exact Hbad].
Qed.

(** The rows of the fixture and their titles. *)
Lemma mock_rows_titles :
  Forall (fun tx => renderable tx = true)
    match mock_rows with JArr l => l | _ => [] end
  /\ List.map (fun tx => Some (titleShown tx))
       match mock_rows with JArr l => l | _ => [] end
     = mock_titles.
Proof. split; [repeat constructor | reflexivity]. Qed.

(** A refresh whose request fails falls back on the fixture: the balance
    becomes 15200.5, and the transactions become the three rows of the
    fixture, rendered. *)
Theorem failed_refresh_uses_fixture w res w1 :
  (apiFetch CONFIG env "/me/balance" no_options w = (Normal res, w1) ->
   ok res = false ->
   balance (App (after (refreshBalance CONFIG env) w)) = JNum num_15200_5)
  /\ (apiFetch CONFIG env "/me/transactions" no_options w = (Normal res, w1) ->
      ok res = false ->
      fst (loadTransactions CONFIG env w) = Normal tt
      /\ transactions (App (after (loadTransactions CONFIG env) w)) = mock_rows
      /\ List.map rowTitle (txList (page (after (loadTransactions CONFIG env) w)))
         = mock_titles).
Proof.
  split; intros Hcall Hok.
  - destruct (refreshBalance_stores CONFIG env w res w1 Hcall) as [_ Hb]; [congruence |].
    rewrite Hb, Hok. reflexivity.
  - pose proof (loadTransactions_stores w res w1 Hcall) as Hrun. cbv zeta in Hrun.
    rewrite Hok in Hrun. simpl andb in Hrun. cbv iota in Hrun.
    unfold after. rewrite Hrun.
    fold (after renderTransactions (set_App (set_transactions (mock_transactions MOCK)) w1)).
    rewrite renderTransactions_App.
    destruct mock_rows_titles as [Hall Ht].
    destruct (renderTransactions_rows
                (set_App (set_transactions (mock_transactions MOCK)) w1)
                _ eq_refl Hall) as [Hn Hrows].
    split; [exact Hn |]. split; [reflexivity |]. rewrite Hrows. exact Ht.
Qed.

(** A refresh that completes leaves the page showing the balance it
    stored. *)
Lemma refreshBalance_rendered w :
  fst (refreshBalance CONFIG env w) = Normal tt ->
  rendered (after (refreshBalance CONFIG env) w).
Proof.
  unfold refreshBalance. intros Hn.
  apply bind_normal_inv in Hn as (res & _ & Hn & ->).
  apply bind_normal_inv in Hn as ([] & _ & Hn & ->).
  apply updateBalanceUI_rendered, Hn.
Qed.

(** Two refreshes of the balance that get the same reply end where one
    ends: the stored balance and the text on the page are the same. *)
Theorem refresh_twice_same_reply w res w1 w2 :
  apiFetch CONFIG env "/me/balance" no_options w = (Normal res, w1) ->
  apiFetch CONFIG env "/me/balance" no_options (after (refreshBalance CONFIG env) w)
  = (Normal res, w2) ->
  balance (App (after (refreshBalance CONFIG env) (after (refreshBalance CONFIG env) w)))
  = balance (App (after (refreshBalance CONFIG env) w))
  /\ balanceValue (page (after (refreshBalance CONFIG env)
                           (after (refreshBalance CONFIG env) w)))
     = balanceValue (page (after (refreshBalance CONFIG env) w)).
Proof.
  intros H1 H2.
  destruct (ok res && negb (convertible (field (data res) "balance"))) eqn:Hbad.
  - apply andb_true_iff in Hbad as [Hok Hc]. apply negb_true_iff in Hc.
    pose proof (refreshBalance_throws CONFIG env _ _ _ H2 Hok Hc) as Hrun.
    unfold after at 1 4. rewrite Hrun. simpl snd.
    destruct (apiFetch_leaves CONFIG env _ _ _ _ _ H2) as (HA & _ & HP & _).
    rewrite HA, HP. split; reflexivity.
  - assert (Hconv : ok res = true -> convertible (field (data res) "balance") = true).
    { intros Hok. rewrite Hok in Hbad. simpl in Hbad.
      apply negb_false_iff in Hbad. exact Hbad. }
    destruct (refreshBalance_stores CONFIG env _ _ _ H1 Hconv) as [Hn1 Hb1].
    destruct (refreshBalance_stores CONFIG env _ _ _ H2 Hconv) as [Hn2 Hb2].
    assert (Hv : forall x, balanceVisible (App (after (refreshBalance CONFIG env) x))
                           = balanceVisible (App x)).
    { intros x. apply (refreshBalance_frame CONFIG env (fun y => balanceVisible (App y)));
        reflexivity. }
    split; [rewrite Hb2, Hb1; reflexivity |].
    pose proof (refreshBalance_rendered _ Hn1) as Hr1.
    pose proof (refreshBalance_rendered _ Hn2) as Hr2.
    unfold rendered, balanceShown in Hr1, Hr2.
    rewrite Hv, Hb2, <- Hb1, Hr1 in Hr2. injection Hr2 as ->. reflexivity.
Qed.

End Refresh.

(** The dashboard refreshed while the network is down. *)
Lemma failed_refresh_uses_fixture_witness :
  balance (App (after (refreshBalance (engine := refEngine) CONFIG_script
                         (always (Rejected "Failed to fetch" "TypeError"))) world0))
  = JNum num_15200_5
  /\ List.map rowTitle
       (txList (page (after (loadTransactions (engine := refEngine) CONFIG_script
                               (always (Rejected "Failed to fetch" "TypeError"))) world0)))
     = mock_titles.
Proof.
  split.
  - apply (proj1 (failed_refresh_uses_fixture (engine := refEngine) CONFIG_script
                    (always (Rejected "Failed to fetch" "TypeError")) world0
                    (failure (JStr "Failed to fetch"))
                    (after (apiFetch (engine := refEngine) CONFIG_script
                              (always (Rejected "Failed to fetch" "TypeError"))
                              "/me/balance" no_options) world0)));
      vm_compute; reflexivity.
  - apply (proj2 (failed_refresh_uses_fixture (engine := refEngine) CONFIG_script
                    (always (Rejected "Failed to fetch" "TypeError")) world0
                    (failure (JStr "Failed to fetch"))
                    (after (apiFetch (engine := refEngine) CONFIG_script
                              (always (Rejected "Failed to fetch" "TypeError"))
                              "/me/transactions" no_options) world0)));
      vm_compute; reflexivity.
Defined.

(** A backend that answers with an empty list: the placeholder line. *)
Lemma loadTransactions_array_witness :
  List.map rowTitle
    (txList (page (after (loadTransactions (engine := refEngine) CONFIG_script
                            (always (Replied true num_200 (JArr [])))) world0)))
  = [None].
Proof.
  destruct (loadTransactions_array (engine := refEngine) CONFIG_script
              (always (Replied true num_200 (JArr []))) world0 eq_refl)
    as (l & Hl & Hrows & _).
  assert (El : l = []).
  { vm_compute in Hl. injection Hl as <-. reflexivity. }
  subst l. apply Hrows. constructor.
Defined.

(** Two refreshes answered with the same balance. *)
Lemma refresh_twice_same_reply_witness :
  balanceValue
    (page (after (refreshBalance (engine := refEngine) CONFIG_script
                    (always (Replied true num_200 body_balance_120)))
             (after (refreshBalance (engine := refEngine) CONFIG_script
                       (always (Replied true num_200 body_balance_120))) world0)))
  = "₦120.00".
Proof.
  rewrite (proj2 (refresh_twice_same_reply (engine := refEngine) CONFIG_script
                    (always (Replied true num_200 body_balance_120)) world0
                    (replied true num_200 body_balance_120)
                    (after (apiFetch (engine := refEngine) CONFIG_script
                              (always (Replied true num_200 body_balance_120))
                              "/me/balance" no_options) world0)
                    (after (apiFetch (engine := refEngine) CONFIG_script
                              (always (Replied true num_200 body_balance_120))
                              "/me/balance" no_options)
                       (after (refreshBalance (engine := refEngine) CONFIG_script
                                 (always (Replied true num_200 body_balance_120)))
                          world0))
                    ltac:(vm_compute; reflexivity) ltac:(vm_compute; reflexivity))).
  vm_compute. reflexivity.
Defined.

(** ** Start-up *)

Section StartupFacts.
Context {engine : Engine} {builtins : Builtins}.
Variable CONFIG : Config.
Variable env : Env.

Lemma loadPaystackKey_keeps {B} (proj : World -> B) :
  (forall b w, proj (set_paystackScript b w) = proj w) ->
  keeps proj (loadPaystackKey CONFIG).
Proof.
  intros Hp. unfold loadPaystackKey.
  apply keeps_bind; [apply keeps_gets | intros p].
  destruct (_ && _); [apply keeps_modify; intros; apply Hp | apply keeps_ret].
Qed.

Lemma loadPaystackKey_normal w : fst (loadPaystackKey CONFIG w) = Normal tt.
Proof.
  unfold loadPaystackKey. rewrite bind_gets. destruct (_ && _); reflexivity.
Qed.

(** What [getItem] reads is falsy exactly when nothing, or the empty
    string, is stored. *)
Lemma getItem_falsy k w :
  truthy (getItem k w) = false
  <-> localStorage w !! k = None \/ localStorage w !! k = Some "".
Proof.
  unfold getItem. destruct (localStorage w !! k) as [s |]; simpl.
  - rewrite negb_false_iff. split.
    + intros E. right. apply String.eqb_eq in E. congruence.
    + intros [E | E]; [discriminate | injection E as ->; reflexivity].
  - split; auto.
Qed.

Lemma getItem_paystack k w :
  getItem k (after (loadPaystackKey CONFIG) w) = getItem k w.
Proof. apply (loadPaystackKey_keeps (getItem k)). reflexivity. Qed.

(** What [getItem] reads is a string or [null], and converts. *)
Lemma ToString_getItem k w :
  ToString (getItem k w) = Normal (stringOf (getItem k w)).
Proof. unfold getItem. destruct (localStorage w !! k); reflexivity. Qed.

(** Start-up without a stored token. *)
Lemma init_without_token w :
  truthy (getItem "pd_token" w) = false ->
  fst (init CONFIG env w) = Normal tt
  /\ App (after (init CONFIG env) w) = App w
  /\ localStorage (after (init CONFIG env) w) = localStorage w
  /\ fetchLog (after (init CONFIG env) w) = fetchLog w
  /\ notices (after (init CONFIG env) w) = notices w
  /\ hidden (page (after (init CONFIG env) w))
     = ({[dashboardScreen]} ∪ hidden (page w)) ∖ {[authScreen]}.
Proof.
  intros Hno. unfold init.
  rewrite (fst_bind _ _ _ _ (loadPaystackKey_normal w)).
  rewrite (after_bind_fst _ _ _ _ (loadPaystackKey_normal w)).
  rewrite bind_gets, after_gets_bind, getItem_paystack, Hno.
  unfold hide, show. rewrite bind_modify, after_modify_bind.
  unfold modify, after. simpl.
  fold (after (loadPaystackKey CONFIG) w).
  rewrite (loadPaystackKey_keeps App), (loadPaystackKey_keeps localStorage),
    (loadPaystackKey_keeps fetchLog), (loadPaystackKey_keeps notices),
    (loadPaystackKey_keeps (fun x => hidden (page x))) by reflexivity.
  repeat split; reflexivity.
Qed.

(** The greeting [onLoggedIn] writes stays through the refreshes. *)
Lemma onLoggedIn_greeting w :
  convertible (field (user (App w)) "name" ||| JStr "User") = true ->
  greeting (page (after (onLoggedIn CONFIG env) w))
  = "Hi, " +:+ stringOf (field (user (App w)) "name" ||| JStr "User").
Proof.
  intros Hc. unfold onLoggedIn, hide, show.
  rewrite !after_modify_bind, after_gets_bind.
  cbn [App set_page]. rewrite (ToString_convertible _ Hc).
  rewrite after_lift_bind, after_modify_bind.
  match goal with |- greeting (page (after ?m ?w0)) = _ =>
    assert (Hk : keeps (fun x => greeting (page x)) m) end.
  { keeps_step; [keeps_step |].
    keeps_step; [keeps_step; reflexivity |].
    apply keeps_bind; [apply refreshBalance_keeps | intros _; apply loadTransactions_keeps];
      repeat split; reflexivity. }
  etransitivity; [apply Hk | reflexivity].
Qed.

(** Start-up with a stored token. *)
Lemma init_with_token w t :
  localStorage w !! "pd_token" = Some t -> t <> "" ->
  let w' := after (init CONFIG env) w in
  fst (init CONFIG env w) = Normal tt
  /\ token (App w') = JStr t
  /\ user (App w') = restoredUser w
  /\ localStorage w' = localStorage w
  /\ (convertible (field (restoredUser w) "name" ||| JStr "User") = true ->
      greeting (page w')
      = "Hi, " +:+ stringOf (field (restoredUser w) "name" ||| JStr "User"))
  /\ hidden (page w') = ({[authScreen]} ∪ hidden (page w)) ∖ {[dashboardScreen]}.
Proof.
  intros Ht Hne. cbv zeta. unfold init.
  rewrite (fst_bind _ _ _ _ (loadPaystackKey_normal w)).
  rewrite (after_bind_fst _ _ _ _ (loadPaystackKey_normal w)).
  rewrite bind_gets, after_gets_bind, getItem_paystack.
  assert (Htok : getItem "pd_token" w = JStr t) by (unfold getItem; rewrite Ht; reflexivity).
  rewrite Htok.
  assert (Htr : truthy (JStr t) = true).
  { simpl. destruct (String.eqb_spec t ""); [contradiction | reflexivity]. }
  rewrite Htr.
  rewrite bind_modify, bind_gets, ToString_getItem, bind_lift_normal, bind_modify.
  rewrite after_modify_bind, after_gets_bind, ToString_getItem, after_lift_bind,
    after_modify_bind.
  set (w0 := after (loadPaystackKey CONFIG) w).
  assert (Hs0 : localStorage w0 = localStorage w)
    by (apply (loadPaystackKey_keeps localStorage); reflexivity).
  assert (Hh0 : hidden (page w0) = hidden (page w))
    by (apply (loadPaystackKey_keeps (fun x => hidden (page x))); reflexivity).
  assert (Hu : getItem "pd_user" (set_App (set_token (JStr t)) w0) = getItem "pd_user" w).
  { unfold getItem. simpl. rewrite Hs0. reflexivity. }
  rewrite Hu. fold (restoredUser w).
  set (w1 := set_App (set_user (restoredUser w)) (set_App (set_token (JStr t)) w0)).
  split; [reflexivity |].
  change (after (detached (onLoggedIn CONFIG env)) w1)
    with (after (onLoggedIn CONFIG env) w1).
  split; [apply (onLoggedIn_keeps CONFIG env (fun x => token (App x)));
          try (repeat split; reflexivity); reflexivity |].
  split; [apply (onLoggedIn_keeps CONFIG env (fun x => user (App x)));
          try (repeat split; reflexivity); reflexivity |].
  split.
  { rewrite (onLoggedIn_keeps CONFIG env localStorage);
      try (repeat split; reflexivity); try reflexivity. exact Hs0. }
  split; [intros Hc; apply onLoggedIn_greeting; exact Hc |].
  rewrite onLoggedIn_screens. simpl. rewrite Hh0. reflexivity.
Qed.

(** With nothing, or the empty string, stored as the token, start-up
    shows the login screen and hides the dashboard; the [App] object is
    untouched, and nothing is sent or shown. *)
Theorem init_signed_out w :
  localStorage w !! "pd_token" = None \/ localStorage w !! "pd_token" = Some "" ->
  fst (init CONFIG env w) = Normal tt
  /\ App (after (init CONFIG env) w) = App w
  /\ fetchLog (after (init CONFIG env) w) = fetchLog w
  /\ notices (after (init CONFIG env) w) = notices w
  /\ (dashboardScreen ∈ hidden (page (after (init CONFIG env) w)))
  /\ (authScreen ∉ hidden (page (after (init CONFIG env) w))).
Proof.
  intros Hno. apply getItem_falsy in Hno.
  destruct (init_without_token w Hno) as (Hn & HA & _ & HF & HN & HH).
  rewrite HH. repeat split; try assumption.
  - rewrite elem_of_difference, elem_of_union, !elem_of_singleton.
    split; [left; reflexivity | discriminate].
  - rewrite not_elem_of_difference, elem_of_singleton. right; reflexivity.
Qed.

(** With a stored token, start-up signs in with it without asking the
    backend about it, and enters the dashboard.  The user is the stored
    profile as [JSON.parse] reads it, the text [null] standing for a
    missing one, and the user of the fixture when it does not parse. *)
Theorem init_restores_session w t :
  localStorage w !! "pd_token" = Some t -> t <> "" ->
  fst (init CONFIG env w) = Normal tt
  /\ token (App (after (init CONFIG env) w)) = JStr t
  /\ authenticated (after (init CONFIG env) w) = true
  /\ user (App (after (init CONFIG env) w))
     = match JSON_parse (stringOf (getItem "pd_user" w)) with
       | Normal u => u
       | Throw _ => mock_user MOCK
       end
  /\ (dashboardScreen ∉ hidden (page (after (init CONFIG env) w)))
  /\ (authScreen ∈ hidden (page (after (init CONFIG env) w))).
Proof.
  intros Ht Hne.
  destruct (init_with_token w t Ht Hne) as (Hn & Htok & Hu & _ & _ & HH).
  unfold authenticated. rewrite Htok, Hu, HH.
  split; [exact Hn |]. split; [reflexivity |]. split.
  { simpl. destruct (String.eqb_spec t ""); [contradiction | reflexivity]. }
  split; [reflexivity |].
  rewrite not_elem_of_difference, elem_of_difference, !elem_of_union,
    !elem_of_singleton.
  split; [right; reflexivity | split; [left; reflexivity | discriminate]].
Qed.

(** A session entered by a login whose token can be converted to a
    string survives a reload: in any world that has the local storage the
    login left, start-up signs in with the token as a string and enters
    the dashboard, provided the token does not print as the empty string;
    the user comes back when parsing undoes the printing of it.  (A token
    that cannot be converted is never stored: [setItem] throws.) *)
Theorem login_survives_reload w res w1 w2 :
  loginFilled w = true ->
  apiFetch CONFIG env "/auth/login" (loginOptions w) w = (Normal res, w1) ->
  accepts res = true ->
  convertible (tokenOf res) = true ->
  localStorage w2 = localStorage (after (handleLogin CONFIG env) w) ->
  stringOf (token (App (after (handleLogin CONFIG env) w))) <> "" ->
  token (App (after (init CONFIG env) w2))
  = JStr (stringOf (token (App (after (handleLogin CONFIG env) w))))
  /\ authenticated (after (init CONFIG env) w2) = true
  /\ (dashboardScreen ∉ hidden (page (after (init CONFIG env) w2)))
  /\ (JSON_parse (JSON_stringify (user (App (after (handleLogin CONFIG env) w))))
      = Normal (user (App (after (handleLogin CONFIG env) w))) ->
      user (App (after (init CONFIG env) w2))
      = user (App (after (handleLogin CONFIG env) w))).
Proof.
  intros Hf Hcall Hacc Hconv Hs Hne.
  assert (Hent : enteredFrom res (after (handleLogin CONFIG env) w)).
  { rewrite (handleLogin_call _ _ _ _ _ Hf Hcall).
    unfold accepts in Hacc. apply andb_true_iff in Hacc as [Hacc Htok].
    apply andb_true_iff in Hacc as [Hok _].
    apply enterSession_success; assumption. }
  destruct Hent as (_ & _ & _ & Hpt & Hpu & _ & _).
  rewrite <- Hs in Hpt, Hpu.
  destruct (init_with_token w2 _ Hpt Hne) as (_ & Htok & Hu & _ & _ & HH).
  unfold authenticated. rewrite Htok, Hu, HH.
  split; [reflexivity |]. split.
  { simpl. destruct (String.eqb_spec (stringOf (token (App (after (handleLogin CONFIG env) w)))) "");
      [contradiction | reflexivity]. }
  split.
  { rewrite not_elem_of_difference, elem_of_singleton. right; reflexivity. }
  intros Hrt. unfold restoredUser, getItem. rewrite Hpu. simpl stringOf.
  rewrite Hrt. reflexivity.
Qed.

(** After a logout a reload stays signed out: in any world that has the
    local storage the logout left, start-up shows the login screen and
    leaves [App] alone. *)
Theorem logout_survives_reload w w2 :
  localStorage w2 = localStorage (after logout_click w) ->
  App (after (init CONFIG env) w2) = App w2
  /\ fetchLog (after (init CONFIG env) w2) = fetchLog w2
  /\ (dashboardScreen ∈ hidden (page (after (init CONFIG env) w2)))
  /\ (authScreen ∉ hidden (page (after (init CONFIG env) w2))).
Proof.
  intros Hs.
  destruct (logout_click_clears w) as (_ & _ & _ & Hpt & _).
  rewrite <- Hs in Hpt.
  assert (Hno : truthy (getItem "pd_token" w2) = false).
  { apply getItem_falsy. left. exact Hpt. }
  destruct (init_without_token w2 Hno) as (_ & HA & _ & HF & _ & HH).
  rewrite HH. repeat split; try assumption.
  - rewrite elem_of_difference, elem_of_union, !elem_of_singleton.
    split; [left; reflexivity | discriminate].
  - rewrite not_elem_of_difference, elem_of_singleton. right; reflexivity.
Qed.

End StartupFacts.

(** Start-up on the page as it first loads. *)
Lemma init_signed_out_witness :
  App (after (init (engine := refEngine) (builtins := refBuiltins) CONFIG_script
                (always (Rejected "" ""))) world0) = App0
  /\ fetchLog (after (init (engine := refEngine) (builtins := refBuiltins) CONFIG_script
                       (always (Rejected "" ""))) world0) = [].
Proof.
  destruct (init_signed_out (engine := refEngine) (builtins := refBuiltins)
              CONFIG_script (always (Rejected "" "")) world0 (or_introl eq_refl))
    as (_ & HA & HF & _).
  split; [exact HA | exact HF].
Defined.

(** Start-up over a stored token whose profile does not parse: the user
    of the fixture is signed in. *)
Lemma init_restores_session_witness :
  token (App (after (init (engine := refEngine) (builtins := refBuiltins) CONFIG_script
                       (always (Rejected "" ""))) world_bad_profile))
  = JStr "demo-token"
  /\ user (App (after (init (engine := refEngine) (builtins := refBuiltins) CONFIG_script
                         (always (Rejected "" ""))) world_bad_profile))
     = mock_user MOCK.
Proof.
  destruct (init_restores_session (engine := refEngine) (builtins := refBuiltins)
              CONFIG_script (always (Rejected "" "")) world_bad_profile "demo-token")
    as (_ & Ht & _ & Hu & _).
  - reflexivity.
  - discriminate.
  - split; [exact Ht | exact Hu].
Defined.

Lemma reloaded_storage w : localStorage (reloaded w) = localStorage w.
Proof. reflexivity. Qed.

(** A login, then a reload of the page. *)
Lemma login_survives_reload_witness :
  token (App (after (init (engine := refEngine) (builtins := refBuiltins) CONFIG_script
                       (always (Replied true num_200 body_alternate)))
                (reloaded
                   (after (handleLogin (engine := refEngine) CONFIG_script
                             (always (Replied true num_200 body_alternate)))
                      world_login))))
  = JStr "t-1"
  /\ user (App (after (init (engine := refEngine) (builtins := refBuiltins) CONFIG_script
                         (always (Replied true num_200 body_alternate)))
                  (reloaded
                     (after (handleLogin (engine := refEngine) CONFIG_script
                               (always (Replied true num_200 body_alternate)))
                        world_login))))
     = obj [("name", JStr "Ada")].
Proof.
  destruct (login_survives_reload (engine := refEngine) (builtins := refBuiltins)
              CONFIG_script (always (Replied true num_200 body_alternate)) world_login
              (replied true num_200 body_alternate)
              (after (apiFetch (engine := refEngine) CONFIG_script
                        (always (Replied true num_200 body_alternate))
                        "/auth/login" (loginOptions (engine := refEngine) world_login))
                 world_login)
              (reloaded
                 (after (handleLogin (engine := refEngine) CONFIG_script
                           (always (Replied true num_200 body_alternate)))
                    world_login)))
    as (Ht & _ & _ & Hu).
  - vm_compute. reflexivity.
  - vm_compute. reflexivity.
  - vm_compute. reflexivity.
  - vm_compute. reflexivity.
  - apply reloaded_storage.
  - vm_compute. discriminate.
  - split.
    + etransitivity; [exact Ht | vm_compute; reflexivity].
    + etransitivity; [apply Hu; vm_compute; reflexivity | vm_compute; reflexivity].
Defined.

(** A logout, then a reload of the page. *)
Lemma logout_survives_reload_witness :
  authenticated
    (after (init (engine := refEngine) (builtins := refBuiltins) CONFIG_script
              (always (Rejected "" "")))
       (reloaded (after logout_click world_signed_in)))
  = false.
Proof.
  destruct (logout_survives_reload (engine := refEngine) (builtins := refBuiltins)
              CONFIG_script (always (Rejected "" "")) world_signed_in
              (reloaded (after logout_click world_signed_in))
              (reloaded_storage _)) as (HA & _).
  unfold authenticated. rewrite HA. reflexivity.
Defined.

(** ** The demo variant, beyond the claims *)

Section LegacyFacts.
Context {engine : Engine} {builtins : Builtins}.
Variable CONFIG : Config.
Variable env : Env.

(** With a token that can be converted to a string, [apiFetch] of the
    demo variant returns. *)
Lemma legacy_apiFetch_normal path options w :
  convertible (token (App w)) = true ->
  exists res, fst (Legacy.apiFetch CONFIG env path options w) = Normal res.
Proof.
  intros Hc. unfold Legacy.apiFetch.
  destruct (String.eqb (Legacy.base CONFIG) ""); [eauto |].
  rewrite bind_gets, (apiFetch_header _ _ _ Hc).
  unfold bind, gets, modify, ret; simpl.
  destruct (respond env _ _); eauto.
Qed.

Lemma legacy_refreshBalance_keeps {B} (proj : World -> B) :
  (forall f w, proj (set_fetchLog f w) = proj w) ->
  (forall s w, proj (set_page (set_balanceValue s) w) = proj w) ->
  (forall v w, proj (set_App (set_balance v) w) = proj w) ->
  keeps proj (Legacy.refreshBalance CONFIG env).
Proof.
  intros Hl Hb Ha. unfold Legacy.refreshBalance.
  apply keeps_bind; [apply legacy_apiFetch_keeps, Hl | intros res].
  apply keeps_bind; [| intros _; apply updateBalanceUI_keeps, Hb].
  destruct (ok res).
  - apply keeps_bind; [apply keeps_lift | intros b].
    apply keeps_modify; intros; apply Ha.
  - apply keeps_modify; intros; apply Ha.
Qed.

Lemma legacy_renderTransactions_keeps {B} (proj : World -> B) :
  (forall f w, proj (set_page (set_txList f) w) = proj w) ->
  keeps proj Legacy.renderTransactions.
Proof.
  intros Hp. unfold Legacy.renderTransactions.
  apply keeps_bind; [apply keeps_modify; intros; apply Hp | intros _].
  apply keeps_bind; [apply keeps_gets | intros txs].
  destruct (_ || _); [apply keeps_modify; intros; apply Hp |].
  destruct txs; try apply keeps_throw.
  apply keeps_appendRows. intros; apply Hp.
Qed.

Lemma legacy_loadTransactions_keeps {B} (proj : World -> B) :
  (forall f w, proj (set_fetchLog f w) = proj w) ->
  (forall f w, proj (set_page (set_txList f) w) = proj w) ->
  (forall v w, proj (set_App (set_transactions v) w) = proj w) ->
  keeps proj (Legacy.loadTransactions CONFIG env).
Proof.
  intros Hl Hx Ht. unfold Legacy.loadTransactions.
  apply keeps_bind; [apply legacy_apiFetch_keeps, Hl | intros res].
  apply keeps_bind; [| intros _; apply legacy_renderTransactions_keeps, Hx].
  destruct (ok res).
  - apply keeps_bind; [apply keeps_lift | intros b].
    apply keeps_modify; intros; apply Ht.
  - apply keeps_modify; intros; apply Ht.
Qed.

(** Entering the dashboard of the demo variant switches the two screens
    and leaves alone what the refreshes do not write, however the
    refreshes end. *)
Lemma legacy_onLoggedIn_keeps {B} (proj : World -> B) :
  refresh_blind proj ->
  (forall f w, proj (set_page (set_hidden f) w) = proj w) ->
  (forall s w, proj (set_page (set_greeting s) w) = proj w) ->
  (forall s w, proj (set_page (set_userEmail s) w) = proj w) ->
  keeps proj (LegacyFlows.onLoggedIn CONFIG env).
Proof.
  intros (Hl & Hb & Hx & Ha & Ht) Hh Hg He. unfold LegacyFlows.onLoggedIn, hide, show.
  apply keeps_bind; [apply keeps_modify; intros; apply Hh | intros _].
  apply keeps_bind; [apply keeps_modify; intros; apply Hh | intros _].
  apply keeps_bind; [apply keeps_gets | intros u].
  apply keeps_bind; [apply keeps_lift | intros name].
  apply keeps_bind; [apply keeps_modify; intros; apply Hg | intros _].
  apply keeps_bind; [apply keeps_lift | intros email].
  apply keeps_bind; [apply keeps_modify; intros; apply He | intros _].
  apply keeps_bind; [apply legacy_refreshBalance_keeps; assumption | intros _].
  apply legacy_loadTransactions_keeps; assumption.
Qed.

Lemma legacy_onLoggedIn_screens w :
  hidden (page (after (LegacyFlows.onLoggedIn CONFIG env) w))
  = ({[authScreen]} ∪ hidden (page w)) ∖ {[dashboardScreen]}.
Proof.
  unfold LegacyFlows.onLoggedIn, hide, show.
  rewrite !after_modify_bind.
  match goal with |- hidden (page (after ?m ?w0)) = _ =>
    assert (Hk : keeps (fun x => hidden (page x)) m) end.
  { do 5 (keeps_step; [keeps_step; reflexivity |]).
    apply keeps_bind;
      [apply legacy_refreshBalance_keeps | intros _; apply legacy_loadTransactions_keeps];
      reflexivity. }
  etransitivity; [apply Hk | reflexivity].
Qed.

(** What a notice of the demo variant does, the text being a string. *)
Lemma legacy_toast_effect text w :
  toastPresent (page w) = true ->
  fst (Legacy.toast (JStr text) w) = Normal tt
  /\ App (after (Legacy.toast (JStr text)) w) = App w
  /\ localStorage (after (Legacy.toast (JStr text)) w) = localStorage w
  /\ fetchLog (after (Legacy.toast (JStr text)) w) = fetchLog w
  /\ hidden (page (after (Legacy.toast (JStr text)) w)) = hidden (page w) ∖ {[toastEl]}
  /\ toastPresent (page (after (Legacy.toast (JStr text)) w)) = true
  /\ notices (after (Legacy.toast (JStr text)) w) = (notices w ++ [text])%list.
Proof.
  intros Hp. unfold after, Legacy.toast, bind, gets, modify, show; simpl.
  rewrite Hp. simpl. repeat split; try reflexivity. exact Hp.
Qed.

(** In the demo variant any reply that is [ok] and has a body signs in:
    the token and the user become what the fields [token] and [user] of
    the body read, the dashboard is entered and nothing is written to
    local storage.  A body without a token therefore leaves the
    dashboard open on a session that is not authenticated. *)
Theorem legacy_login_without_token w res w1 :
  loginFilled w = true -> toastPresent (page w) = true ->
  Legacy.apiFetch CONFIG env "/auth/login" (loginOptions w) w = (Normal res, w1) ->
  ok res = true -> nullish (data res) = false ->
  token (App (after (LegacyFlows.handleLogin CONFIG env) w)) = field (data res) "token"
  /\ user (App (after (LegacyFlows.handleLogin CONFIG env) w)) = field (data res) "user"
  /\ localStorage (after (LegacyFlows.handleLogin CONFIG env) w) = localStorage w
  /\ (dashboardScreen ∉ hidden (page (after (LegacyFlows.handleLogin CONFIG env) w)))
  /\ (authScreen ∈ hidden (page (after (LegacyFlows.handleLogin CONFIG env) w)))
  /\ (hasOwn (data res) "token" = false ->
      authenticated (after (LegacyFlows.handleLogin CONFIG env) w) = false).
Proof.
  intros Hf Hp Hcall Hok Hn.
  destruct (legacy_apiFetch_leaves CONFIG env _ _ _ _ _ Hcall) as (HA & HS & HP & _).
  unfold LegacyFlows.handleLogin. rewrite !after_gets_bind.
  unfold loginFilled in Hf. apply negb_true_iff in Hf. rewrite Hf.
  rewrite (after_bind _ _ _ _ _ Hcall).
  unfold LegacyFlows.enterSession. rewrite Hok. unfold getProp. rewrite Hn.
  unfold lift. rewrite (after_bind _ _ _ _ _ eq_refl), after_modify_bind.
  rewrite (after_bind _ _ _ _ _ eq_refl), after_modify_bind, after_detached_bind.
  set (w2 := set_App (set_user (field (data res) "user"))
               (set_App (set_token (field (data res) "token")) w1)).
  set (w3 := after (LegacyFlows.onLoggedIn CONFIG env) w2).
  assert (Hp3 : toastPresent (page w3) = true).
  { unfold w3.
    rewrite (legacy_onLoggedIn_keeps (fun x => toastPresent (page x)));
      try (repeat split; reflexivity); try reflexivity.
    simpl. rewrite HP. exact Hp. }
  destruct (legacy_toast_effect "Logged in" w3 Hp3) as (_ & TA & TS & _ & TH & _).
  unfold authenticated. rewrite !TA, TS, !TH.
  assert (Ht : token (App w3) = field (data res) "token").
  { unfold w3. rewrite (legacy_onLoggedIn_keeps (fun x => token (App x)));
      try (repeat split; reflexivity); reflexivity. }
  assert (Hu : user (App w3) = field (data res) "user").
  { unfold w3. rewrite (legacy_onLoggedIn_keeps (fun x => user (App x)));
      try (repeat split; reflexivity); reflexivity. }
  assert (Hs : localStorage w3 = localStorage w).
  { unfold w3. rewrite (legacy_onLoggedIn_keeps localStorage);
      try (repeat split; reflexivity); try reflexivity. exact HS. }
  unfold authenticated. rewrite Ht, Hu, Hs. unfold w3.
  rewrite legacy_onLoggedIn_screens.
  split; [reflexivity |]. split; [reflexivity |]. split; [reflexivity |].
  split.
  { rewrite not_elem_of_difference, not_elem_of_difference, elem_of_singleton.
    left. right. reflexivity. }
  split.
  { rewrite !elem_of_difference, elem_of_union, !elem_of_singleton.
    split; [split; [left; reflexivity | discriminate] | discriminate]. }
  intros Hno. rewrite (field_absent _ _ Hno) by discriminate. reflexivity.
Qed.

(** The handlers the demo variant binds to its forms never write local
    storage, whatever the reply. *)
Lemma legacy_handleLogin_storage :
  keeps localStorage (LegacyFlows.handleLogin CONFIG env).
Proof.
  unfold LegacyFlows.handleLogin.
  apply keeps_bind; [apply keeps_gets | intros identifier].
  apply keeps_bind; [apply keeps_gets | intros password].
  assert (Htoast : forall msg, keeps localStorage (Legacy.toast msg)).
  { intros msg. unfold Legacy.toast, show.
    apply keeps_bind; [apply keeps_gets | intros p].
    destruct (negb p); [apply keeps_throw |].
    apply keeps_bind; [apply keeps_lift | intros s].
    repeat (apply keeps_bind; [| intros _]); apply keeps_modify; reflexivity. }
  destruct (_ || _); [apply Htoast |].
  apply keeps_bind; [apply legacy_apiFetch_keeps; reflexivity | intros res].
  unfold LegacyFlows.enterSession.
  destruct (ok res);
    [| apply keeps_bind; [apply keeps_lift | intros e; apply Htoast]].
  apply keeps_bind; [apply keeps_lift | intros t].
  apply keeps_bind; [apply keeps_modify; reflexivity | intros _].
  apply keeps_bind; [apply keeps_lift | intros u].
  apply keeps_bind; [apply keeps_modify; reflexivity | intros _].
  apply keeps_bind; [| intros _; apply Htoast].
  intros w. apply (legacy_onLoggedIn_keeps localStorage);
    try (repeat split; reflexivity); reflexivity.
Qed.

End LegacyFacts.

Section LegacyFlowsFacts.
Context {engine : Engine} {builtins : Builtins}.
Variable CONFIG : Config.
Variable env : Env.

(** The stored profile, or the text [null] in its place, converts. *)
Lemma ToString_stored k w :
  ToString (getItem k w ||| JStr "null")
  = Normal (stringOf (getItem k w ||| JStr "null")).
Proof.
  unfold getItem. destruct (localStorage w !! k) as [[| a r] |]; reflexivity.
Qed.

(** In demo mode, without a key for the payment frame, every top-up of
    the demo variant that passes the amount check ends in the notice of
    a failure: its [apiFetch] does not know the top-up endpoint.  The
    [App] object is untouched and the modal stays as it is. *)
Theorem legacy_demo_topup_fails w :
  Legacy.base CONFIG = "" -> PAYSTACK_PUBLIC_KEY CONFIG = "" ->
  SFleb num_50 (topupAmount w) = true -> toastPresent (page w) = true ->
  notices (after (LegacyFlows.startPayment CONFIG env) w)
  = (notices w ++ ["Top up failed: No API configured (demo mode)"])%list
  /\ App (after (LegacyFlows.startPayment CONFIG env) w) = App w
  /\ fetchLog (after (LegacyFlows.startPayment CONFIG env) w) = fetchLog w
  /\ (addMoneyModal ∈ hidden (page (after (LegacyFlows.startPayment CONFIG env) w))
      <-> addMoneyModal ∈ hidden (page w)).
Proof.
  intros Hb Hk Hge Hp. unfold LegacyFlows.startPayment.
  rewrite !after_gets_bind, amount_guard, Hge. simpl negb. cbv iota.
  unfold LegacyFlows.startPayment_pay, LegacyFlows.openWidget.
  rewrite Hk. rewrite andb_false_r.
  rewrite (after_bind _ _ w false w eq_refl). cbv iota.
  assert (Hcall : Legacy.apiFetch CONFIG env "/pay/topup"
                    (post (JSON_stringify (obj [("amount", JNum (topupAmount w))]))) w
                  = (Normal (failure (JStr "No API configured (demo mode)")), w)).
  { unfold Legacy.apiFetch. rewrite Hb. reflexivity. }
  rewrite (after_bind _ _ _ _ _ Hcall).
  change (ok (failure (JStr "No API configured (demo mode)"))) with false. cbv iota.
  rewrite (after_bind _ _ w "No API configured (demo mode)" w eq_refl).
  destruct (legacy_toast_effect
              ("Top up failed: " +:+ "No API configured (demo mode)") w Hp)
    as (_ & TA & _ & TF & TH & _ & TN).
  rewrite TA, TF, TH, TN.
  split; [reflexivity |]. split; [reflexivity |]. split; [reflexivity |].
  rewrite elem_of_difference, elem_of_singleton.
  split; [intros [H _]; exact H | intros H; split; [exact H | discriminate]].
Qed.

(** A stored profile that does not parse makes the start-up of the demo
    variant throw: the token is restored, but the user is not, the
    dashboard is not entered and nothing is sent. *)
Theorem legacy_init_bad_profile w t e :
  localStorage w !! "pd_token" = Some t -> t <> "" ->
  JSON_parse (stringOf (getItem "pd_user" w ||| JStr "null")) = Throw e ->
  fst (LegacyFlows.init CONFIG env w) = Throw e
  /\ token (App (after (LegacyFlows.init CONFIG env) w)) = JStr t
  /\ user (App (after (LegacyFlows.init CONFIG env) w)) = user (App w)
  /\ hidden (page (after (LegacyFlows.init CONFIG env) w)) = hidden (page w)
  /\ fetchLog (after (LegacyFlows.init CONFIG env) w) = fetchLog w.
Proof.
  intros Ht Hne Hbad. unfold LegacyFlows.init.
  rewrite (fst_bind _ _ _ _ (loadPaystackKey_normal CONFIG w)).
  rewrite (after_bind_fst _ _ _ _ (loadPaystackKey_normal CONFIG w)).
  rewrite bind_gets, after_gets_bind, getItem_paystack.
  assert (Htok : getItem "pd_token" w = JStr t) by (unfold getItem; rewrite Ht; reflexivity).
  rewrite Htok.
  assert (Htr : truthy (JStr t) = true).
  { simpl. destruct (String.eqb_spec t ""); [contradiction | reflexivity]. }
  rewrite Htr. rewrite bind_modify, bind_gets, after_modify_bind, after_gets_bind.
  rewrite ToString_stored, bind_lift_normal, after_lift_bind.
  set (w0 := after (loadPaystackKey CONFIG) w).
  assert (Hs0 : localStorage w0 = localStorage w)
    by (apply (loadPaystackKey_keeps CONFIG localStorage); reflexivity).
  assert (Hu : getItem "pd_user" (set_App (set_token (JStr t)) w0) = getItem "pd_user" w).
  { unfold getItem. simpl. rewrite Hs0. reflexivity. }
  assert (Hu0 : user (App w0) = user (App w))
    by (apply (loadPaystackKey_keeps CONFIG (fun x => user (App x))); reflexivity).
  assert (Hh0 : hidden (page w0) = hidden (page w))
    by (apply (loadPaystackKey_keeps CONFIG (fun x => hidden (page x))); reflexivity).
  assert (Hf0 : fetchLog w0 = fetchLog w)
    by (apply (loadPaystackKey_keeps CONFIG fetchLog); reflexivity).
  rewrite Hu, Hbad. clearbody w0. unfold throw, after. simpl.
  rewrite Hu0, Hh0, Hf0. repeat split; reflexivity.
Qed.

(** A logout of the demo variant does not survive a reload: in any world
    that has the local storage the logout left, its start-up signs in
    again with the token that was stored, when the stored profile
    parses. *)
Theorem legacy_logout_then_reload w t u w2 :
  localStorage w !! "pd_token" = Some t -> t <> "" ->
  localStorage w2 = localStorage (after Legacy.logout_click w) ->
  JSON_parse (stringOf (getItem "pd_user" w2 ||| JStr "null")) = Normal u ->
  authenticated (after Legacy.logout_click w) = false
  /\ token (App (after (LegacyFlows.init CONFIG env) w2)) = JStr t
  /\ authenticated (after (LegacyFlows.init CONFIG env) w2) = true
  /\ (dashboardScreen ∉ hidden (page (after (LegacyFlows.init CONFIG env) w2))).
Proof.
  intros Ht Hne Hs Hparse.
  split; [reflexivity |].
  assert (Ht2 : localStorage w2 !! "pd_token" = Some t) by (rewrite Hs; exact Ht).
  unfold authenticated, LegacyFlows.init.
  rewrite (after_bind_fst _ _ _ _ (loadPaystackKey_normal CONFIG w2)).
  rewrite after_gets_bind, getItem_paystack.
  assert (Htok : getItem "pd_token" w2 = JStr t)
    by (unfold getItem; rewrite Ht2; reflexivity).
  rewrite Htok.
  assert (Htr : truthy (JStr t) = true).
  { simpl. destruct (String.eqb_spec t ""); [contradiction | reflexivity]. }
  rewrite Htr. rewrite after_modify_bind, after_gets_bind.
  rewrite ToString_stored, after_lift_bind.
  set (w0 := after (loadPaystackKey CONFIG) w2).
  assert (Hs0 : localStorage w0 = localStorage w2)
    by (apply (loadPaystackKey_keeps CONFIG localStorage); reflexivity).
  assert (Hu : getItem "pd_user" (set_App (set_token (JStr t)) w0) = getItem "pd_user" w2).
  { unfold getItem. simpl. rewrite Hs0. reflexivity. }
  rewrite Hu, Hparse. rewrite after_modify_bind.
  change (after (detached (LegacyFlows.onLoggedIn CONFIG env)) ?x)
    with (after (LegacyFlows.onLoggedIn CONFIG env) x).
  rewrite (legacy_onLoggedIn_keeps CONFIG env (fun x => token (App x)));
    try (repeat split; reflexivity); try reflexivity.
  rewrite legacy_onLoggedIn_screens. simpl token.
  split; [reflexivity |]. split; [exact Htr |].
  rewrite not_elem_of_difference, elem_of_singleton. right; reflexivity.
Qed.

End LegacyFlowsFacts.

(** A login of the demo variant answered with success and no token. *)
Lemma legacy_login_without_token_witness :
  authenticated
    (after (LegacyFlows.handleLogin (engine := refEngine) CONFIG_script
              (always (Replied true num_200 body_no_token))) world_login)
  = false
  /\ (dashboardScreen
      ∉ hidden (page (after (LegacyFlows.handleLogin (engine := refEngine) CONFIG_script
                               (always (Replied true num_200 body_no_token)))
                        world_login))).
Proof.
  destruct (legacy_login_without_token (engine := refEngine) CONFIG_script
              (always (Replied true num_200 body_no_token)) world_login
              (replied true num_200 body_no_token)
              (after (Legacy.apiFetch (engine := refEngine) CONFIG_script
                        (always (Replied true num_200 body_no_token))
                        "/auth/login" (loginOptions (engine := refEngine) world_login))
                 world_login))
    as (_ & _ & _ & Hd & _ & Ha).
  - vm_compute. reflexivity.
  - reflexivity.
  - vm_compute. reflexivity.
  - reflexivity.
  - reflexivity.
  - split; [apply Ha; vm_compute; reflexivity | exact Hd].
Defined.

(** A top-up of 500 in the demo variant as it ships. *)
Lemma legacy_demo_topup_fails_witness :
  notices (after (LegacyFlows.startPayment (engine := refEngine) Legacy.CONFIG_demo
                    (always (Rejected "" ""))) (world_topup_signed_in "500"))
  = ["Top up failed: No API configured (demo mode)"].
Proof.
  apply (legacy_demo_topup_fails (engine := refEngine) Legacy.CONFIG_demo
           (always (Rejected "" "")) (world_topup_signed_in "500"));
    vm_compute; reflexivity.
Defined.

(** The start-up of the demo variant over a profile that does not parse. *)
Lemma legacy_init_bad_profile_witness :
  fst (LegacyFlows.init (engine := refEngine) (builtins := refBuiltins)
         Legacy.CONFIG_demo (always (Rejected "" "")) world_bad_profile)
  = Throw "SyntaxError"
  /\ hidden (page (after (LegacyFlows.init (engine := refEngine) (builtins := refBuiltins)
                            Legacy.CONFIG_demo (always (Rejected "" "")))
                     world_bad_profile))
     = hidden (page world_bad_profile).
Proof.
  destruct (legacy_init_bad_profile (engine := refEngine) (builtins := refBuiltins)
              Legacy.CONFIG_demo (always (Rejected "" "")) world_bad_profile
              "demo-token" "SyntaxError") as (Hn & _ & _ & Hh & _).
  - vm_compute. reflexivity.
  - discriminate.
  - vm_compute. reflexivity.
  - split; [exact Hn | exact Hh].
Defined.

(** The signed-in user logs out of the demo variant and reloads. *)
Lemma legacy_logout_then_reload_witness :
  authenticated
    (after (LegacyFlows.init (engine := refEngine) (builtins := refBuiltins)
              Legacy.CONFIG_demo (always (Rejected "" "")))
       (reloaded (after Legacy.logout_click world_signed_in)))
  = true.
Proof.
  destruct (legacy_logout_then_reload (engine := refEngine) (builtins := refBuiltins)
              Legacy.CONFIG_demo (always (Rejected "" "")) world_signed_in
              "demo-token" (obj [])
              (reloaded (after Legacy.logout_click world_signed_in)))
    as (_ & _ & Ha & _).
  - vm_compute. reflexivity.
  - discriminate.
  - apply reloaded_storage.
  - vm_compute. reflexivity.
  - exact Ha.
Defined.

(** ** The callback of the payment frame *)

Section Callback.
Context {engine : Engine} {builtins : Builtins}.
Variable CONFIG : Config.
Variable env : Env.

Lemma verifyPath_slash : startsWith (verifyPath CONFIG) "/" = true.
Proof.
  unfold verifyPath.
  destruct (startsWith (PAYSTACK_VERIFY_ENDPOINT CONFIG) "/") eqn:E; [exact E |].
  destruct (PAYSTACK_VERIFY_ENDPOINT CONFIG); reflexivity.
Qed.

(** The verification step of the callback of [script.js]: one request,
    one notice, and it completes whatever the answer. *)
Lemma verification_step w path :
  base CONFIG <> "" -> convertible (token (App w)) = true ->
  let step :=
    bind (apiFetch CONFIG env path no_options)
      (fun v => if ok v then toast (JStr "Payment verified")
                else toast (JStr "Verification failed")) in
  fst (step w) = Normal tt
  /\ fetchLog (after step w)
     = (fetchLog w ++ [refreshRequest CONFIG path (token (App w))])%list
  /\ token (App (after step w)) = token (App w).
Proof.
  intros Hb Hc step. unfold step.
  pose proof (apiFetch_backend CONFIG env path no_options w Hb Hc) as Hcall.
  rewrite (bind_normal _ _ _ _ _ Hcall), (after_bind _ _ _ _ _ Hcall).
  match goal with |- context [ok ?r] => destruct (ok r) end;
    (split; [apply toast_text_normal |]);
    rewrite (toast_keeps fetchLog), (toast_keeps (fun x => token (App x))) by reflexivity;
    split; reflexivity.
Qed.

(** When the payment frame reports a payment, the token can be sent and
    the balances that come back can be converted to numbers, the
    callback of [script.js] refreshes the balance and the transactions
    whatever the verification says.  With a verification endpoint
    configured and a reference that can be converted to a string the
    log gains the verification request, whose path starts with a slash,
    and then the two refreshes; a reference that cannot be converted
    makes the callback throw before anything is sent; without an
    endpoint the log gains the two refreshes alone. *)
Theorem payment_callback_always_refreshes w reference :
  base CONFIG <> "" ->
  convertible (token (App w)) = true -> balancesConvert env ->
  (PAYSTACK_VERIFY_ENDPOINT CONFIG <> "" -> convertible reference = true ->
   startsWith (verifyPath CONFIG) "/" = true
   /\ fetchLog (after (paymentCallback CONFIG env reference) w)
      = (fetchLog w
         ++ [refreshRequest CONFIG
               (verifyPath CONFIG +:+ "?reference="
                  +:+ encodeURIComponent (stringOf reference)) (token (App w));
             refreshRequest CONFIG "/me/balance" (token (App w));
             refreshRequest CONFIG "/me/transactions" (token (App w))])%list)
  /\ (PAYSTACK_VERIFY_ENDPOINT CONFIG <> "" -> convertible reference = false ->
      fst (paymentCallback CONFIG env reference w) = Throw "TypeError"
      /\ fetchLog (after (paymentCallback CONFIG env reference) w) = fetchLog w)
  /\ (PAYSTACK_VERIFY_ENDPOINT CONFIG = "" ->
      fetchLog (after (paymentCallback CONFIG env reference) w)
      = (fetchLog w
         ++ [refreshRequest CONFIG "/me/balance" (token (App w));
             refreshRequest CONFIG "/me/transactions" (token (App w))])%list).
Proof.
  intros Hb Hc Henv.
  set (w1 := after (toast (JStr "Payment successful. Verifying...")) w).
  assert (Hf1 : fetchLog w1 = fetchLog w)
    by (apply (toast_keeps fetchLog); reflexivity).
  assert (Ht1 : token (App w1) = token (App w))
    by (apply (toast_keeps (fun x => token (App x))); reflexivity).
  assert (Hc1 : convertible (token (App w1)) = true) by (rewrite Ht1; exact Hc).
  split; [| split].
  - intros Hep Hr. unfold paymentCallback.
    rewrite (after_bind_fst _ _ _ _ (toast_text_normal _ w)); fold w1.
    split; [apply verifyPath_slash |].
    destruct (String.eqb_spec (PAYSTACK_VERIFY_ENDPOINT CONFIG) ""); [contradiction |].
    simpl negb. cbv iota.
    rewrite (ToString_convertible _ Hr).
    destruct (verification_step w1
                (verifyPath CONFIG +:+ "?reference="
                   +:+ encodeURIComponent (stringOf reference)) Hb Hc1)
      as (Hn & Hl & Ht).
    assert (Hn' : fst (bind (lift (Normal (stringOf reference)))
                         (fun r => bind (apiFetch CONFIG env
                                           (verifyPath CONFIG +:+ "?reference="
                                              +:+ encodeURIComponent r) no_options)
                                     (fun v => if ok v then toast (JStr "Payment verified")
                                               else toast (JStr "Verification failed")))
                         w1) = Normal tt) by exact Hn.
    rewrite (after_bind_fst _ _ _ _ Hn').
    rewrite after_lift_bind.
    rewrite (refreshes_log CONFIG env _ Hb), Hl, Ht, Hf1, Ht1, <- app_assoc;
      [reflexivity | rewrite Ht; exact Hc1 | exact Henv].
  - intros Hep Hr. unfold paymentCallback.
    rewrite (fst_bind _ _ _ _ (toast_text_normal _ w)).
    rewrite (after_bind_fst _ _ _ _ (toast_text_normal _ w)); fold w1.
    destruct (String.eqb_spec (PAYSTACK_VERIFY_ENDPOINT CONFIG) ""); [contradiction |].
    simpl negb. cbv iota.
    rewrite (ToString_throws _ Hr).
    unfold after.
    match goal with |- context [bind ?m ?k w1] =>
      rewrite (bind_throws m k w1 "TypeError" w1 eq_refl) end.
    split; [reflexivity | exact Hf1].
  - intros Hep. unfold paymentCallback.
    rewrite (after_bind_fst _ _ _ _ (toast_text_normal _ w)); fold w1.
    rewrite Hep. simpl negb. cbv iota.
    rewrite (after_bind _ _ w1 tt w1 eq_refl).
    rewrite (refreshes_log CONFIG env _ Hb Hc1 Henv), Hf1, Ht1. reflexivity.
Qed.

Lemma legacy_apiFetch_backend path options w :
  Legacy.base CONFIG <> "" -> convertible (token (App w)) = true ->
  exists res,
    Legacy.apiFetch CONFIG env path options w
    = (Normal res,
       set_fetchLog (fun l => (l ++ [requestFor CONFIG path options w])%list) w)
    /\ ok res = ok (resultOf (respond env (length (fetchLog w))
                                (requestFor CONFIG path options w))).
Proof.
  intros Hb Hc. unfold Legacy.apiFetch.
  destruct (String.eqb_spec (Legacy.base CONFIG) ""); [contradiction |].
  rewrite bind_gets, (apiFetch_header _ _ _ Hc), bind_gets, bind_modify.
  change (mkRequest _ _ _ _) with (requestFor CONFIG path options w).
  destruct (respond env _ _); eexists; split; reflexivity.
Qed.

Lemma legacy_apiFetch_throws path options w :
  Legacy.base CONFIG <> "" -> convertible (token (App w)) = false ->
  Legacy.apiFetch CONFIG env path options w = (Throw "TypeError", w).
Proof.
  intros Hb Hc. unfold Legacy.apiFetch.
  destruct (String.eqb_spec (Legacy.base CONFIG) ""); [contradiction |].
  rewrite bind_gets. apply apiFetch_header_throws, Hc.
Qed.

(** In the demo variant a verification that fails ends the callback:
    the log gains the verification request and nothing else, and the
    balance and the transactions stay as they were.  This is so when the
    reference can be converted to a string and the token can be sent;
    when either cannot, the callback throws after its first notice,
    with nothing sent at all. *)
Theorem legacy_callback_skips_refresh w reference :
  Legacy.base CONFIG <> "" -> PAYSTACK_VERIFY_ENDPOINT CONFIG <> "" ->
  toastPresent (page w) = true ->
  (forall n req, ok (resultOf (respond env n req)) = false) ->
  (convertible reference && convertible (token (App w)) = true ->
   fetchLog (after (LegacyFlows.paymentCallback CONFIG env reference) w)
   = (fetchLog w
      ++ [refreshRequest CONFIG
            (PAYSTACK_VERIFY_ENDPOINT CONFIG +:+ "?reference="
               +:+ encodeURIComponent (stringOf reference)) (token (App w))])%list
   /\ App (after (LegacyFlows.paymentCallback CONFIG env reference) w) = App w
   /\ notices (after (LegacyFlows.paymentCallback CONFIG env reference) w)
      = (notices w ++ ["Payment success, verifying..."; "Verification failed"])%list)
  /\ (convertible reference && convertible (token (App w)) = false ->
      fst (LegacyFlows.paymentCallback CONFIG env reference w) = Throw "TypeError"
      /\ fetchLog (after (LegacyFlows.paymentCallback CONFIG env reference) w)
         = fetchLog w
      /\ App (after (LegacyFlows.paymentCallback CONFIG env reference) w) = App w
      /\ notices (after (LegacyFlows.paymentCallback CONFIG env reference) w)
         = (notices w ++ ["Payment success, verifying..."])%list).
Proof.
  intros Hb Hep Hp Hdown. unfold LegacyFlows.paymentCallback.
  destruct (legacy_toast_effect "Payment success, verifying..." w Hp)
    as (Hn1 & HA1 & _ & HF1 & _ & Hp1 & HN1).
  rewrite (fst_bind _ _ _ _ Hn1), (after_bind_fst _ _ _ _ Hn1).
  set (w1 := after (Legacy.toast (JStr "Payment success, verifying...")) w) in *.
  destruct (String.eqb_spec (PAYSTACK_VERIFY_ENDPOINT CONFIG) ""); [contradiction |].
  simpl negb. cbv iota.
  split; intros Hconv.
  - apply andb_true_iff in Hconv as [Hr Hc].
    rewrite (ToString_convertible _ Hr), after_lift_bind.
    assert (Hc1 : convertible (token (App w1)) = true) by (rewrite HA1; exact Hc).
    destruct (legacy_apiFetch_backend
                (PAYSTACK_VERIFY_ENDPOINT CONFIG +:+ "?reference="
                   +:+ encodeURIComponent (stringOf reference)) no_options w1 Hb Hc1)
      as (res & Hcall & Hok).
    rewrite Hdown in Hok. rewrite (after_bind _ _ _ _ _ Hcall), Hok.
    set (w2 := set_fetchLog _ w1).
    assert (Hp2 : toastPresent (page w2) = true) by exact Hp1.
    destruct (legacy_toast_effect "Verification failed" w2 Hp2)
      as (_ & HA2 & _ & HF2 & _ & _ & HN2).
    rewrite HA2, HF2, HN2.
    unfold w2; simpl. rewrite HF1, HA1, HN1, <- app_assoc.
    unfold requestFor, refreshRequest. rewrite HA1. repeat split; reflexivity.
  - cbv beta. change (negb false) with true. cbv iota.
    match goal with |- fst (?m w1) = _ /\ _ =>
      assert (Hrun' : m w1 = (Throw "TypeError", w1)) end.
    { destruct (convertible reference) eqn:Hr.
      - rewrite (ToString_convertible _ Hr), bind_lift_normal.
        simpl in Hconv.
        assert (Hc1 : convertible (token (App w1)) = false) by (rewrite HA1; exact Hconv).
        apply bind_throws, legacy_apiFetch_throws; assumption.
      - rewrite (ToString_throws _ Hr). reflexivity. }
    unfold after. rewrite !Hrun'. simpl fst. simpl snd.
    split; [reflexivity |]. split; [exact HF1 |]. split; [exact HA1 | exact HN1].
Qed.

End Callback.

(** The callback under a configuration whose verification endpoint has
    no leading slash, the verification refused. *)
Lemma payment_callback_always_refreshes_witness :
  List.map url
    (fetchLog (after (paymentCallback (engine := refEngine) (builtins := refBuiltins)
                        CONFIG_card (always (Replied false num_402 body_insufficient))
                        (JStr "ref 1"))
                 world_signed_in))
  = ["https://paymomentbackend.onrender.com/api/pay/verify?reference=ref%201";
     "https://paymomentbackend.onrender.com/api/me/balance";
     "https://paymomentbackend.onrender.com/api/me/transactions"].
Proof.
  destruct (payment_callback_always_refreshes (engine := refEngine)
              (builtins := refBuiltins) CONFIG_card
              (always (Replied false num_402 body_insufficient))
              world_signed_in (JStr "ref 1")) as (H & _).
  - discriminate.
  - reflexivity.
  - intros n req o st json [= _ _ <-]. reflexivity.
  - destruct H as [_ H]; [discriminate | reflexivity |].
    rewrite H. vm_compute. reflexivity.
Defined.

(** The same refusal in the demo variant. *)
Lemma legacy_callback_skips_refresh_witness :
  List.map url
    (fetchLog (after (LegacyFlows.paymentCallback (engine := refEngine)
                        (builtins := refBuiltins)
                        CONFIG_card (always (Replied false num_402 body_insufficient))
                        (JStr "ref 1"))
                 world_signed_in))
  = ["https://paymomentbackend.onrender.com/apipay/verify?reference=ref%201"].
Proof.
  destruct (legacy_callback_skips_refresh (engine := refEngine)
              (builtins := refBuiltins) CONFIG_card
              (always (Replied false num_402 body_insufficient))
              world_signed_in (JStr "ref 1")) as (H & _).
  - discriminate.
  - discriminate.
  - reflexivity.
  - intros; reflexivity.
  - destruct H as (H & _); [reflexivity |].
    rewrite H. vm_compute. reflexivity.
Defined.

(** ** The card branch of a top-up *)

Section Card.
Context {engine : Engine}.
Variable CONFIG : Config.
Variable env : Env.


(** Past the amount check [startPayment] is its payment part. *)
Lemma startPayment_passes w :
  SFleb num_50 (topupAmount w) = true ->
  startPayment CONFIG env w
  = startPayment_pay CONFIG env (topupAmount w) (value (page w) "#add-method") w.
Proof.
  intros Hge. unfold startPayment. rewrite !bind_gets, amount_guard, Hge. reflexivity.
Qed.

(** The card branch with the frame usable. *)
Lemma openWidget_opens amount w :
  PAYSTACK_PUBLIC_KEY CONFIG <> "" -> widgetUsable w = true ->
  openWidget CONFIG env amount "card" w
  = (Normal true,
     set_page (set_hidden (fun h => {[addMoneyModal]} ∪ h))
       (set_checkout (Some (mkCheckout (PAYSTACK_PUBLIC_KEY CONFIG)
          (field (user (App w)) "email" ||| JStr "customer@example.com")
          (Math_round (SFmul 53 1024 amount num_100))
          (field (user (App w)) "phone" ||| JStr ""))) w)).
Proof.
  intros Hk Hus. unfold openWidget.
  destruct (String.eqb_spec (PAYSTACK_PUBLIC_KEY CONFIG) ""); [contradiction |].
  change (String.eqb "card" "card" && negb false) with true. cbv iota.
  rewrite bind_gets, Hus. simpl negb. cbv iota.
  unfold closeAddMoneyModal, hide, bind, gets, modify, ret. simpl.
  unfold widgetUsable in *. rewrite Hus. reflexivity.
Qed.

(** With the payment frame usable, a card top-up that passes the amount
    check opens the frame with the configured key, the e-mail and phone
    of the user and the amount in hundredths, hides the modal, and sends
    and announces nothing. *)
Theorem card_payment_opens_frame w :
  value (page w) "#add-method" = "card" ->
  PAYSTACK_PUBLIC_KEY CONFIG <> "" ->
  SFleb num_50 (topupAmount w) = true ->
  widgetUsable w = true ->
  fst (startPayment CONFIG env w) = Normal tt
  /\ checkout (after (startPayment CONFIG env) w)
     = Some (mkCheckout (PAYSTACK_PUBLIC_KEY CONFIG)
               (firstTruthy [field (user (App w)) "email"] (JStr "customer@example.com"))
               (Math_round (SFmul 53 1024 (topupAmount w) num_100))
               (firstTruthy [field (user (App w)) "phone"] (JStr "")))
  /\ (addMoneyModal ∈ hidden (page (after (startPayment CONFIG env) w)))
  /\ fetchLog (after (startPayment CONFIG env) w) = fetchLog w
  /\ notices (after (startPayment CONFIG env) w) = notices w
  /\ App (after (startPayment CONFIG env) w) = App w.
Proof.
  intros Hm Hk Hge Hus. unfold after.
  rewrite (startPayment_passes w Hge), Hm. unfold startPayment_pay.
  rewrite (bind_normal _ _ _ _ _ (openWidget_opens (topupAmount w) w Hk Hus)).
  cbv iota. unfold ret. simpl.
  repeat split; try reflexivity.
  rewrite elem_of_union, elem_of_singleton. left; reflexivity.
Qed.

(** The card branch with the frame missing and not arriving during the
    wait: two notices, no frame. *)
Lemma openWidget_fallback amount w :
  PAYSTACK_PUBLIC_KEY CONFIG <> "" ->
  widgetUsable w = false -> widgetLoads env = false ->
  exists w2,
    openWidget CONFIG env amount "card" w = (Normal false, w2)
    /\ App w2 = App w /\ fetchLog w2 = fetchLog w /\ checkout w2 = checkout w
    /\ notices w2
       = (notices w ++ ["Loading Paystack script...";
                        "Paystack failed to initialize; falling back to transfer flow."])%list.
Proof.
  intros Hk Hus Hwl. unfold openWidget.
  destruct (String.eqb_spec (PAYSTACK_PUBLIC_KEY CONFIG) ""); [contradiction |].
  change (String.eqb "card" "card" && negb false) with true. cbv iota.
  rewrite bind_gets, Hus. simpl negb. cbv iota.
  set (prep := bind (toast (JStr "Loading Paystack script..."))
                 (fun _ => bind (loadPaystackKey CONFIG) (fun _ => awaitWidget env))).
  assert (Hwait : forall {C} (proj : World -> C), keeps proj (awaitWidget env)).
  { intros C proj. apply keeps_modify. intros x. rewrite Hwl. reflexivity. }
  assert (Hkeep : forall {C} (proj : World -> C),
             (forall s x, proj (set_page (set_toastText s) x) = proj x) ->
             (forall f x, proj (set_page (set_hidden f) x) = proj x) ->
             (forall f x, proj (set_notices f x) = proj x) ->
             (forall b x, proj (set_paystackScript b x) = proj x) ->
             keeps proj prep).
  { intros C proj H1 H2 H3 H4. apply keeps_bind; [apply toast_keeps; assumption | intros _].
    apply keeps_bind; [apply loadPaystackKey_keeps; assumption | intros _; apply Hwait]. }
  assert (Hprep : fst (prep w) = Normal tt).
  { unfold prep. rewrite (fst_bind _ _ _ _ (toast_text_normal _ w)).
    rewrite (fst_bind _ _ _ _ (loadPaystackKey_normal CONFIG _)). reflexivity. }
  assert (Hnot : notices (after prep w)
                 = (notices w ++ ["Loading Paystack script..."])%list).
  { unfold prep. rewrite (after_bind_fst _ _ _ _ (toast_text_normal _ w)).
    assert (Hrest : keeps notices
              (bind (loadPaystackKey CONFIG) (fun _ => awaitWidget env))).
    { apply keeps_bind; [apply loadPaystackKey_keeps; reflexivity | intros _; apply Hwait]. }
    rewrite Hrest. apply toast_notice; reflexivity. }
  rewrite (bind_normal _ _ _ _ _ (run_normal _ _ _ Hprep)).
  rewrite bind_gets, (Hkeep _ widgetUsable), Hus by reflexivity.
  rewrite (bind_normal _ _ _ _ _ (run_normal _ _ _ (toast_text_normal _ _))).
  eexists. split; [reflexivity |].
  rewrite !toast_keeps by reflexivity.
  rewrite toast_notice by reflexivity.
  rewrite !Hkeep by reflexivity. rewrite Hnot, <- app_assoc.
  repeat split; reflexivity.
Qed.

(** The request log only grows. *)
Lemma grows_bind {A B} (m : M A) (k : A -> M B) w :
  (exists rest, fetchLog (after m w) = (fetchLog w ++ rest)%list) ->
  (forall a w1, exists rest, fetchLog (after (k a) w1) = (fetchLog w1 ++ rest)%list) ->
  exists rest, fetchLog (after (bind m k) w) = (fetchLog w ++ rest)%list.
Proof.
  intros [r1 H1] Hk. unfold after, bind in *.
  destruct (m w) as [[a | e] w1]; simpl in *.
  - destruct (Hk a w1) as [r2 H2]. exists (r1 ++ r2)%list.
    rewrite H2, H1, app_assoc. reflexivity.
  - exists r1. exact H1.
Qed.

Lemma apiFetch_grows path options w :
  exists rest,
    fetchLog (after (apiFetch CONFIG env path options) w) = (fetchLog w ++ rest)%list.
Proof.
  unfold after. destruct (String.eqb_spec (base CONFIG) "") as [Hb | Hb].
  - rewrite (apiFetch_demo CONFIG env path options w Hb).
    exists []. rewrite app_nil_r. reflexivity.
  - destruct (convertible (token (App w))) eqn:Hc.
    + rewrite (apiFetch_backend CONFIG env path options w Hb Hc). eexists. reflexivity.
    + rewrite (apiFetch_throws CONFIG env path options w Hb Hc).
      exists []. rewrite app_nil_r. reflexivity.
Qed.

Lemma refreshBalance_grows w :
  exists rest,
    fetchLog (after (refreshBalance CONFIG env) w) = (fetchLog w ++ rest)%list.
Proof.
  unfold refreshBalance. rewrite (keeps_after_bind fetchLog); [apply apiFetch_grows |].
  intros res. apply keeps_bind; [| intros _; apply updateBalanceUI_keeps; reflexivity].
  repeat keeps_step; reflexivity.
Qed.

Lemma loadTransactions_grows w :
  exists rest,
    fetchLog (after (loadTransactions CONFIG env) w) = (fetchLog w ++ rest)%list.
Proof.
  unfold loadTransactions. rewrite (keeps_after_bind fetchLog); [apply apiFetch_grows |].
  intros res. apply keeps_bind; [| intros _; apply renderTransactions_keeps; reflexivity].
  repeat keeps_step; reflexivity.
Qed.

(** With the payment frame missing and not arriving during the wait, a
    card top-up says so twice and falls back on the transfer: no frame is
    opened and the next thing sent is the top-up request, the token being
    one that can be sent.  What follows the two notices is decided by
    the reply: [Top up initiated] when it is [ok], else the failure
    message when it can be converted to a string, and nothing, the
    handler throwing, when it cannot. *)
Theorem card_payment_falls_back w :
  base CONFIG <> "" ->
  value (page w) "#add-method" = "card" ->
  PAYSTACK_PUBLIC_KEY CONFIG <> "" ->
  SFleb num_50 (topupAmount w) = true ->
  widgetUsable w = false -> widgetLoads env = false ->
  convertible (token (App w)) = true ->
  let request :=
    requestFor CONFIG "/pay/topup" (topupOptions (topupAmount w) "card") w in
  let res := resultOf (respond env (length (fetchLog w)) request) in
  let message := failureMessage res "Top up failed" in
  checkout (after (startPayment CONFIG env) w) = checkout w
  /\ (exists rest,
        fetchLog (after (startPayment CONFIG env) w)
        = (fetchLog w ++ request :: rest)%list)
  /\ notices (after (startPayment CONFIG env) w)
     = (notices w
        ++ ["Loading Paystack script...";
            "Paystack failed to initialize; falling back to transfer flow."]
        ++ (if ok res then ["Top up initiated"]
            else if convertible message then [stringOf message] else []))%list
  /\ (ok res = false -> convertible message = false ->
      fst (startPayment CONFIG env w) = Throw "TypeError").
Proof.
  intros Hb Hm Hk Hge Hus Hwl Hc request res message.
  pose proof (startPayment_passes w Hge) as Hrun. rewrite Hm in Hrun.
  unfold after. rewrite Hrun. clear Hrun.
  destruct (openWidget_fallback (topupAmount w) w Hk Hus Hwl)
    as (w2 & Hopen & HA & HF & HC & HN).
  assert (Hc2 : convertible (token (App w2)) = true) by (rewrite HA; exact Hc).
  pose proof (apiFetch_backend CONFIG env "/pay/topup"
                (topupOptions (topupAmount w) "card") w2 Hb Hc2) as Hcall.
  assert (Hreq : requestFor CONFIG "/pay/topup" (topupOptions (topupAmount w) "card") w2
                 = request).
  { apply requestFor_token. rewrite HA. reflexivity. }
  rewrite Hreq, HF in Hcall. fold res in Hcall.
  unfold startPayment_pay.
  rewrite (bind_normal _ _ _ _ _ Hopen). cbv iota.
  fold (topupOptions (topupAmount w) "card").
  rewrite (bind_normal _ _ _ _ _ Hcall).
  set (w3 := set_fetchLog _ w2).
  assert (HF3 : fetchLog w3 = (fetchLog w ++ [request])%list).
  { unfold w3; simpl. rewrite HF. reflexivity. }
  assert (HC3 : checkout w3 = checkout w) by exact HC.
  assert (HN3 : notices w3
                = (notices w ++ ["Loading Paystack script...";
                     "Paystack failed to initialize; falling back to transfer flow."])%list)
    by exact HN.
  clearbody w3. fold message.
  destruct (ok res) eqn:Hok; cbv iota.
  - set (rest := bind (refreshBalance CONFIG env)
                   (fun _ => bind (loadTransactions CONFIG env)
                               (fun _ => closeAddMoneyModal))).
    assert (Hrest : forall {C} (proj : World -> C),
               refresh_blind proj ->
               (forall f x, proj (set_page (set_hidden f) x) = proj x) ->
               keeps proj rest).
    { intros C proj (Hl & Hv & Hx & Ha & Ht) Hh. unfold rest.
      apply keeps_bind; [apply refreshBalance_frame; assumption | intros _].
      apply keeps_bind; [apply loadTransactions_frame; assumption | intros _].
      apply keeps_modify. intros; apply Hh. }
    set (w4 := after (toast (JStr "Top up initiated")) w3).
    change (snd (bind (toast (JStr "Top up initiated")) (fun _ => rest) w3))
      with (after (bind (toast (JStr "Top up initiated")) (fun _ => rest)) w3).
    rewrite (after_bind_fst _ _ _ _ (toast_text_normal _ w3)). fold w4.
    cbv beta.
    split; [| split; [| split]].
    + rewrite (Hrest _ checkout) by (repeat split; reflexivity).
      unfold w4. rewrite (toast_keeps checkout) by reflexivity. exact HC3.
    + assert (Hg : exists more, fetchLog (after rest w4) = (fetchLog w4 ++ more)%list).
      { unfold rest. apply grows_bind; [apply refreshBalance_grows | intros _ x].
        apply grows_bind; [apply loadTransactions_grows | intros _ y].
        exists []. rewrite app_nil_r. reflexivity. }
      destruct Hg as [more Hg]. exists more. rewrite Hg.
      unfold w4. rewrite (toast_keeps fetchLog) by reflexivity.
      rewrite HF3, <- app_assoc. reflexivity.
    + rewrite (Hrest _ notices) by (repeat split; reflexivity).
      unfold w4. rewrite toast_notice by reflexivity.
      rewrite HN3, <- app_assoc. reflexivity.
    + discriminate.
  - assert (Ht : truthy message = true)
      by (apply failureMessage_truthy; discriminate).
    destruct (convertible message) eqn:Hconv.
    + change (snd (toast message w3)) with (after (toast message) w3).
      rewrite (toast_keeps checkout), (toast_keeps fetchLog) by reflexivity.
      rewrite (toast_notice _ _ Ht Hconv), HC3, HF3, HN3, <- app_assoc.
      split; [reflexivity |]. split; [exists []; reflexivity |].
      split; [reflexivity | discriminate].
    + rewrite (toast_throws _ _ Hconv). simpl fst. simpl snd.
      rewrite HC3, HF3, HN3.
      split; [reflexivity |]. split; [exists []; reflexivity |].
      split; [reflexivity | reflexivity].
Qed.

End Card.

(** A card top-up of 500 with the frame usable. *)
Lemma card_payment_opens_frame_witness :
  option_map co_key
    (checkout (after (startPayment (engine := refEngine) CONFIG_card
                        (always (Rejected "" ""))) (world_card "500")))
  = Some "pk_test_1"
  /\ fetchLog (after (startPayment (engine := refEngine) CONFIG_card
                        (always (Rejected "" ""))) (world_card "500")) = [].
Proof.
  destruct (card_payment_opens_frame (engine := refEngine) CONFIG_card
              (always (Rejected "" "")) (world_card "500"))
    as (_ & Hc & _ & Hf & _).
  - reflexivity.
  - discriminate.
  - vm_compute. reflexivity.
  - reflexivity.
  - split; [rewrite Hc; reflexivity | exact Hf].
Defined.

(** The same top-up with the frame missing. *)
Lemma card_payment_falls_back_witness :
  checkout (after (startPayment (engine := refEngine) CONFIG_card
                     (always (Replied true num_200 JNull))) (world_card_missing "500"))
  = None
  /\ notices (after (startPayment (engine := refEngine) CONFIG_card
                       (always (Replied true num_200 JNull))) (world_card_missing "500"))
     = ["Loading Paystack script...";
        "Paystack failed to initialize; falling back to transfer flow.";
        "Top up initiated"].
Proof.
  destruct (card_payment_falls_back (engine := refEngine) CONFIG_card
              (always (Replied true num_200 JNull)) (world_card_missing "500"))
    as (Hc & _ & Hn & _).
  - discriminate.
  - vm_compute. reflexivity.
  - discriminate.
  - vm_compute. reflexivity.
  - vm_compute. reflexivity.
  - vm_compute. reflexivity.
  - vm_compute. reflexivity.
  - split; [exact Hc | exact Hn].
Defined.

(** ** Demo mode, end to end *)

Section Demo.
Context {engine : Engine}.
Variable CONFIG : Config.
Variable env : Env.
Hypothesis Hdemo : base CONFIG = "".

(** In demo mode the balance refresh reads the fixture and writes only
    the balance and its text. *)
Lemma demo_refreshBalance w :
  fst (refreshBalance CONFIG env w) = Normal tt
  /\ balance (App (after (refreshBalance CONFIG env) w)) = JNum num_15200_5
  /\ (forall B (proj : World -> B),
        (forall s x, proj (set_page (set_balanceValue s) x) = proj x) ->
        (forall v x, proj (set_App (set_balance v) x) = proj x) ->
        proj (after (refreshBalance CONFIG env) w) = proj w).
Proof.
  pose proof (apiFetch_demo CONFIG env "/me/balance" no_options w Hdemo) as Hcall.
  assert (Hconv : ok (mockReply "/me/balance" (clock w)) = true ->
                  convertible (field (data (mockReply "/me/balance" (clock w))) "balance")
                  = true) by (intros _; vm_compute; reflexivity).
  destruct (refreshBalance_stores CONFIG env w _ _ Hcall Hconv) as [Hn Hb].
  split; [exact Hn |]. split.
  - rewrite Hb. vm_compute. reflexivity.
  - intros B proj Hv Ha. unfold refreshBalance.
    rewrite (after_bind _ _ _ _ _ Hcall).
    match goal with |- proj (after ?m ?w0) = _ => assert (Hk : keeps proj m) end.
    { apply keeps_bind; [| intros _; apply updateBalanceUI_keeps, Hv].
      repeat match goal with |- keeps _ (if ?b then _ else _) => destruct b end;
        apply keeps_modify; intros; apply Ha. }
    apply Hk.
Qed.

(** In demo mode the load of the transactions stores and renders the
    three rows of the fixture and writes only the transactions and their
    list. *)
Lemma demo_loadTransactions w :
  fst (loadTransactions CONFIG env w) = Normal tt
  /\ transactions (App (after (loadTransactions CONFIG env) w)) = mock_rows
  /\ List.map rowTitle (txList (page (after (loadTransactions CONFIG env) w)))
     = mock_titles
  /\ (forall B (proj : World -> B),
        (forall f x, proj (set_page (set_txList f) x) = proj x) ->
        (forall v x, proj (set_App (set_transactions v) x) = proj x) ->
        proj (after (loadTransactions CONFIG env) w) = proj w).
Proof.
  pose proof (apiFetch_demo CONFIG env "/me/transactions" no_options w Hdemo) as Hcall.
  pose proof (loadTransactions_stores CONFIG env w _ _ Hcall) as Hrun. cbv zeta in Hrun.
  assert (Hs : (if ok (mockReply "/me/transactions" (clock w))
                   && isArray (field (data (mockReply "/me/transactions" (clock w)))
                                 "transactions")
                then field (data (mockReply "/me/transactions" (clock w))) "transactions"
                else if ok (mockReply "/me/transactions" (clock w))
                        && isArray (data (mockReply "/me/transactions" (clock w)))
                     then data (mockReply "/me/transactions" (clock w))
                     else mock_transactions MOCK) = mock_rows)
    by (vm_compute; reflexivity).
  rewrite Hs in Hrun. clear Hs.
  destruct mock_rows_titles as [Hall Ht].
  destruct (renderTransactions_rows (set_App (set_transactions mock_rows) w)
              _ eq_refl Hall) as [Hn Hrows].
  unfold after. rewrite Hrun.
  fold (after renderTransactions (set_App (set_transactions mock_rows) w)).
  split; [exact Hn |]. split; [rewrite renderTransactions_App; reflexivity |].
  split; [rewrite Hrows; exact Ht |].
  intros B proj Hx Ha. rewrite (renderTransactions_keeps proj) by exact Hx. apply Ha.
Qed.

(** The two refreshes in demo mode. *)
Lemma demo_refreshes w :
  let m := bind (refreshBalance CONFIG env) (fun _ => loadTransactions CONFIG env) in
  fst (m w) = Normal tt
  /\ balance (App (after m w)) = JNum num_15200_5
  /\ transactions (App (after m w)) = mock_rows
  /\ List.map rowTitle (txList (page (after m w))) = mock_titles
  /\ (forall B (proj : World -> B),
        (forall s x, proj (set_page (set_balanceValue s) x) = proj x) ->
        (forall f x, proj (set_page (set_txList f) x) = proj x) ->
        (forall v x, proj (set_App (set_balance v) x) = proj x) ->
        (forall v x, proj (set_App (set_transactions v) x) = proj x) ->
        proj (after m w) = proj w).
Proof.
  cbv zeta.
  destruct (demo_refreshBalance w) as (Hn & Hb & Hk).
  rewrite (fst_bind _ _ _ _ Hn), (after_bind_fst _ _ _ _ Hn).
  destruct (demo_loadTransactions (after (refreshBalance CONFIG env) w))
    as (Hn2 & Ht & Hrows & Hk2).
  split; [exact Hn2 |]. split; [| split; [exact Ht | split; [exact Hrows |]]].
  - rewrite (Hk2 _ (fun x => balance (App x))) by reflexivity. exact Hb.
  - intros B proj Hv Hx Ha Htx.
    rewrite (Hk2 _ proj Hx Htx). apply (Hk _ proj Hv Ha).
Qed.

(** In demo mode a service payment that passes the form check succeeds
    without any request: it says so, stores the balance of the fixture,
    stores and renders the three rows of the fixture, and closes the
    modal. *)
Theorem demo_service_payment w :
  serviceFilled w = true ->
  fst (payService CONFIG env w) = Normal tt
  /\ notices (after (payService CONFIG env) w) = (notices w ++ ["Service paid"])%list
  /\ balance (App (after (payService CONFIG env) w)) = JNum num_15200_5
  /\ transactions (App (after (payService CONFIG env) w)) = mock_rows
  /\ List.map rowTitle (txList (page (after (payService CONFIG env) w))) = mock_titles
  /\ (serviceModal ∈ hidden (page (after (payService CONFIG env) w)))
  /\ fetchLog (after (payService CONFIG env) w) = fetchLog w
  /\ session (after (payService CONFIG env) w) = session w.
Proof.
  intros Hf. unfold after, payService. rewrite !bind_gets.
  unfold serviceFilled, serviceAmount in Hf. apply negb_true_iff in Hf. rewrite Hf.
  rewrite bind_gets.
  rewrite (bind_normal _ _ _ _ _ (apiFetch_demo CONFIG env "/pay/service" _ w Hdemo)).
  change (ok (mockReply "/pay/service" (clock w))) with true. cbv iota.
  set (w1 := after (toast (JStr "Service paid")) w).
  rewrite (bind_normal _ _ _ _ _ (run_normal _ _ _ (toast_text_normal _ w))). fold w1.
  destruct (demo_refreshes w1) as (Hn & Hb & Ht & Hrows & Hk). cbv zeta in *.
  set (m := bind (refreshBalance CONFIG env) (fun _ => loadTransactions CONFIG env)) in *.
  assert (Hrun : bind (refreshBalance CONFIG env)
                   (fun _ => bind (loadTransactions CONFIG env)
                               (fun _ => closeServiceModal)) w1
                 = closeServiceModal (after m w1)).
  { pose proof (run_normal _ _ _ Hn) as Hm. unfold m, bind in Hm |- *.
    destruct (refreshBalance CONFIG env w1) as [[[] | e] w2]; [| discriminate].
    destruct (loadTransactions CONFIG env w2) as [[[] | e] w3]; [| discriminate].
    injection Hm as <-. reflexivity. }
  rewrite Hrun. unfold closeServiceModal, hide, modify. simpl.
  split; [reflexivity |].
  split; [rewrite (Hk _ notices) by reflexivity;
          apply toast_notice; reflexivity |].
  split; [exact Hb |]. split; [exact Ht |]. split; [exact Hrows |].
  split; [rewrite elem_of_union, elem_of_singleton; left; reflexivity |].
  split.
  - rewrite (Hk _ fetchLog) by reflexivity.
    unfold w1. apply (toast_keeps fetchLog); reflexivity.
  - transitivity (session (after m w1)); [reflexivity |].
    rewrite (Hk _ session) by reflexivity.
    unfold w1. apply (toast_keeps session); reflexivity.
Qed.

(** In demo mode a login with both fields filled signs in as the user of
    the fixture under the token [demo-token], greets that user, and loads
    the balance and the rows of the fixture; nothing is sent. *)
Theorem demo_login w :
  loginFilled w = true ->
  let w' := after (handleLogin CONFIG env) w in
  token (App w') = JStr "demo-token"
  /\ user (App w') = mock_user MOCK
  /\ localStorage w' !! "pd_token" = Some "demo-token"
  /\ greeting (page w') = "Hi, Demo User"
  /\ balance (App w') = JNum num_15200_5
  /\ transactions (App w') = mock_rows
  /\ fetchLog w' = fetchLog w
  /\ notices w' = (notices w ++ ["Logged in"])%list.
Proof.
  intros Hf. cbv zeta.
  rewrite (handleLogin_call CONFIG env w _ _ Hf
             (apiFetch_demo CONFIG env "/auth/login" _ w Hdemo)).
  set (res := mockReply "/auth/login" (clock w)).
  assert (Hok : ok res = true) by (vm_compute; reflexivity).
  assert (Htok : truthy (field (data res) "token" ||| field (data res) "access_token")
                 = true) by (vm_compute; reflexivity).
  assert (HT : tokenOf res = JStr "demo-token") by (vm_compute; reflexivity).
  assert (HU : userOf res = mock_user MOCK) by (vm_compute; reflexivity).
  destruct (enterSession_accepted CONFIG env res "Logged in" "Login failed" w Hok Htok)
    as (w0 & H0t & H0u & H0s & _ & H0n & H0f & _ & Hrun).
  rewrite Hrun by (rewrite HT; reflexivity). clear Hrun.
  rewrite HT, HU in *. clearbody res.
  match goal with |- context [after (onLoggedIn CONFIG env) ?x] => set (w5 := x) end.
  assert (H5 : token (App w5) = JStr "demo-token" /\ user (App w5) = mock_user MOCK
               /\ localStorage w5 !! "pd_token" = Some "demo-token"
               /\ fetchLog w5 = fetchLog w /\ notices w5 = notices w).
  { unfold w5; simpl. rewrite lookup_insert_ne by discriminate.
    rewrite lookup_insert_eq. repeat split; assumption || reflexivity. }
  destruct H5 as (H5t & H5u & H5s & H5f & H5n). clearbody w5.
  set (w6 := after (onLoggedIn CONFIG env) w5).
  assert (H6 : w6 = after (bind (refreshBalance CONFIG env)
                             (fun _ => loadTransactions CONFIG env))
                      (set_page (set_userEmail
                          (textFor (field (user (App w5)) "email" ||| JStr "")))
                        (set_page (set_greeting
                           ("Hi, " +:+ stringOf (field (user (App w5)) "name"
                                                 ||| JStr "User")))
                           (after (show dashboardScreen)
                              (after (hide authScreen) w5))))).
  { unfold w6, onLoggedIn, hide, show.
    rewrite !after_modify_bind, after_gets_bind.
    match goal with |- context [ToString ?v] => assert (Hcn : convertible v = true) end.
    { change (convertible (field (user (App w5)) "name" ||| JStr "User") = true).
      rewrite H5u. vm_compute. reflexivity. }
    rewrite (ToString_convertible _ Hcn), after_lift_bind, after_modify_bind.
    match goal with |- context [textOf ?v] => assert (Hce : convertible v = true) end.
    { change (convertible (field (user (App w5)) "email" ||| JStr "") = true).
      rewrite H5u. vm_compute. reflexivity. }
    rewrite (textOf_convertible _ Hce), after_lift_bind, after_modify_bind.
    reflexivity. }
  destruct (demo_refreshes
              (set_page (set_userEmail
                          (textFor (field (user (App w5)) "email" ||| JStr "")))
                        (set_page (set_greeting
                           ("Hi, " +:+ stringOf (field (user (App w5)) "name"
                                                 ||| JStr "User")))
                           (after (show dashboardScreen)
                              (after (hide authScreen) w5)))))
    as (_ & Hb & Htx & _ & Hk). cbv zeta in *.
  rewrite <- H6 in Hb, Htx, Hk. clear H6.
  rewrite !(toast_keeps (fun x => token (App x))),
    !(toast_keeps (fun x => user (App x))),
    !(toast_keeps (fun x => balance (App x))),
    !(toast_keeps (fun x => transactions (App x))),
    !(toast_keeps localStorage), !(toast_keeps fetchLog),
    !(toast_keeps (fun x => greeting (page x))) by reflexivity.
  rewrite toast_notice by reflexivity.
  rewrite (Hk _ (fun x => token (App x))), (Hk _ (fun x => user (App x))),
    (Hk _ localStorage), (Hk _ fetchLog), (Hk _ notices),
    (Hk _ (fun x => greeting (page x))) by reflexivity.
  simpl. rewrite H5t, H5u, H5s, H5f, H5n.
  repeat split; try reflexivity; assumption.
Qed.

End Demo.

(** A service payment and a login with no backend configured. *)
Lemma demo_service_payment_witness :
  notices (after (payService (engine := refEngine) (mkConfig "" "" "/pay/verify") (always (Rejected "" "")))
             world_service)
  = ["Service paid"].
Proof.
  destruct (demo_service_payment (engine := refEngine) (mkConfig "" "" "/pay/verify")
              (always (Rejected "" "")) eq_refl world_service) as (_ & HN & _).
  - vm_compute. reflexivity.
  - exact HN.
Defined.

Lemma demo_login_witness :
  token (App (after (handleLogin (engine := refEngine) (mkConfig "" "" "/pay/verify")
                       (always (Rejected "" ""))) world_login))
  = JStr "demo-token".
Proof.
  apply (demo_login (engine := refEngine) (mkConfig "" "" "/pay/verify") (always (Rejected "" "")) eq_refl
           world_login).
  vm_compute. reflexivity.
Defined.

(** ** Choosing a service *)

Section ServiceModal.
Context {engine : Engine} {builtins : Builtins}.
Variable CONFIG : Config.
Variable env : Env.

(** A form that fails the check of [payService] gets its notice and
    nothing else. *)
Lemma payService_rejects w :
  serviceFilled w = false ->
  onlyNotice "Complete the service form" w (after (payService CONFIG env) w).
Proof.
  intros Hf. unfold serviceFilled, serviceAmount in Hf. apply negb_false_iff in Hf.
  unfold after, payService. rewrite !bind_gets, Hf.
  apply (toast_onlyNotice (JStr _)); reflexivity.
Qed.

(** What follows a successful payment: the notice, the two refreshes and
    the closing of a modal only add to the log. *)
Lemma after_success_log text (close : M unit) w :
  keeps fetchLog close ->
  exists rest,
    fetchLog (after (bind (toast (JStr text))
                (fun _ => bind (refreshBalance CONFIG env)
                   (fun _ => bind (loadTransactions CONFIG env) (fun _ => close)))) w)
    = (fetchLog w ++ rest)%list.
Proof.
  intros Hclose. apply grows_bind.
  { exists []. rewrite app_nil_r. apply (toast_keeps fetchLog); reflexivity. }
  intros _ x. apply grows_bind; [apply refreshBalance_grows | intros _ y].
  apply grows_bind; [apply loadTransactions_grows | intros _ z].
  exists []. rewrite app_nil_r. apply Hclose.
Qed.

(** Opening the service modal records the service in the variable
    [currentService] of the script, which is no part of [App], sets the
    title of the modal to the service with its first letter in upper
    case, empties the inputs [#service-customer] and [#service-amount]
    and shows the modal.  Paying at once is therefore turned away with
    the notice of the form; closing the modal hides it again. *)
Theorem open_service_modal_resets sh service :
  trim "" = "" ->
  let w' := world (openServiceModal service sh) in
  currentService w' = JStr service
  /\ serviceTitle (openServiceModal service sh)
     = toUpperCase (charAt0 service) +:+ slice1 service
  /\ value (page w') "#service-customer" = ""
  /\ value (page w') "#service-amount" = ""
  /\ (forall sel, sel <> "#service-customer" -> sel <> "#service-amount" ->
      value (page w') sel = value (page (world sh)) sel)
  /\ (serviceModal ∉ hidden (page w'))
  /\ serviceFilled w' = false
  /\ onlyNotice "Complete the service form" w' (after (payService CONFIG env) w')
  /\ (serviceModal ∈ hidden (page (after closeServiceModal w')))
  /\ App w' = App (world sh) /\ fetchLog w' = fetchLog (world sh).
Proof.
  intros Htrim. cbv zeta.
  assert (Hf : serviceFilled (world (openServiceModal service sh)) = false).
  { unfold serviceFilled, openServiceModal. simpl. rewrite Htrim. reflexivity. }
  split; [reflexivity |]. split; [reflexivity |].
  split; [reflexivity |]. split; [reflexivity |]. split.
  { intros sel Hc Ha. unfold openServiceModal, after, show, modify. simpl.
    destruct (String.eqb_spec sel "#service-amount"); [contradiction |].
    destruct (String.eqb_spec sel "#service-customer"); [contradiction |].
    reflexivity. }
  split; [| split; [exact Hf |]].
  - unfold openServiceModal, after, show, modify. simpl.
    rewrite elem_of_difference, elem_of_singleton. tauto.
  - split; [exact (payService_rejects _ Hf) |]. split; [| split; reflexivity].
    unfold closeServiceModal, after, hide, modify. simpl.
    rewrite elem_of_union, elem_of_singleton. left; reflexivity.
Qed.

(** The service picked when the modal was opened is the one asked for:
    with the form then filled in so that it passes the check, and a
    token that can be sent, the request sent next is the service
    payment, under the token of the session, and its body names that
    service with the customer and the amount typed.  With a token that
    cannot be converted to a string the payment throws and nothing is
    sent. *)
Theorem chosen_service_is_requested sh service customer amount :
  base CONFIG <> "" ->
  let w1 := set_page (set_value "#service-amount" amount)
              (set_page (set_value "#service-customer" customer)
                 (world (openServiceModal service sh))) in
  serviceFilled w1 = true ->
  (convertible (token (App (world sh))) = true ->
   exists rest,
     fetchLog (after (payService CONFIG env) w1)
     = (fetchLog (world sh)
        ++ requestFor CONFIG "/pay/service"
             (post (JSON_stringify (obj
                [("service", JStr service); ("customer", JStr (trim customer));
                 ("amount", JNum (StringToNumber amount))])))
             (world sh)
           :: rest)%list)
  /\ (convertible (token (App (world sh))) = false ->
      fst (payService CONFIG env w1) = Throw "TypeError"
      /\ fetchLog (after (payService CONFIG env) w1) = fetchLog (world sh)).
Proof.
  intros Hb w1 Hf.
  assert (Hrun : payService CONFIG env w1
                 = bind (apiFetch CONFIG env "/pay/service" (serviceOptions w1))
                     (fun res =>
                        if ok res then
                          bind (toast (JStr "Service paid"))
                            (fun _ => bind (refreshBalance CONFIG env)
                               (fun _ => bind (loadTransactions CONFIG env)
                                  (fun _ => closeServiceModal)))
                        else toast (failureMessage res "Service payment failed")) w1).
  { unfold payService. rewrite !bind_gets.
    unfold serviceFilled, serviceAmount in Hf. apply negb_true_iff in Hf. rewrite Hf.
    rewrite bind_gets. reflexivity. }
  unfold after. rewrite Hrun. clear Hrun. split; intros Hc.
  - rewrite (bind_normal _ _ _ _ _
               (apiFetch_backend CONFIG env "/pay/service" _ w1 Hb Hc)).
    match goal with |- context [set_fetchLog ?f w1] => set (w2 := set_fetchLog f w1) end.
    assert (H2 : fetchLog w2
                 = (fetchLog (world sh)
                    ++ [requestFor CONFIG "/pay/service"
                          (post (JSON_stringify (obj
                             [("service", JStr service); ("customer", JStr (trim customer));
                              ("amount", JNum (StringToNumber amount))])))
                          (world sh)])%list) by reflexivity.
    clearbody w2.
    match goal with |- context [ok ?r] => destruct (ok r) end.
    + destruct (after_success_log "Service paid" closeServiceModal w2)
        as [rest Hrest].
      { apply keeps_modify. reflexivity. }
      exists rest. unfold after in Hrest. rewrite Hrest, H2, <- app_assoc. reflexivity.
    + exists [].
      match goal with |- context [toast ?msg w2] =>
        change (snd (toast msg w2)) with (after (toast msg) w2) end.
      rewrite (toast_keeps fetchLog) by reflexivity. exact H2.
  - rewrite (bind_throws _ _ _ _ _
               (apiFetch_throws CONFIG env "/pay/service" _ w1 Hb Hc)).
    split; reflexivity.
Qed.

End ServiceModal.

(** Electricity is picked, then paid for at once; then paid for with the
    form filled in. *)
Lemma open_service_modal_resets_witness :
  currentService (world (openServiceModal (builtins := refBuiltins) "electricity"
                           (mkShell world_service "")))
  = JStr "electricity"
  /\ serviceTitle (openServiceModal (builtins := refBuiltins) "electricity"
                     (mkShell world_service ""))
     = "Electricity"
  /\ value (page (world (openServiceModal (builtins := refBuiltins) "electricity"
                           (mkShell world_service "")))) "#service-amount"
     = ""
  /\ notices (after (payService (engine := refEngine) CONFIG_script
                       (always (Replied true num_200 JNull)))
                (world (openServiceModal (builtins := refBuiltins) "electricity"
                          (mkShell world_service ""))))
     = ["Complete the service form"].
Proof.
  destruct (open_service_modal_resets (engine := refEngine) (builtins := refBuiltins)
              CONFIG_script (always (Replied true num_200 JNull))
              (mkShell world_service "") "electricity" eq_refl)
    as (Hs & Ht & _ & Ha & _ & _ & _ & (_ & _ & _ & _ & Hn & _) & _).
  split; [exact Hs |]. split; [rewrite Ht; vm_compute; reflexivity |].
  split; [exact Ha | exact Hn].
Defined.

Lemma chosen_service_is_requested_witness :
  exists rest,
    List.map body
      (fetchLog (after (payService (engine := refEngine) CONFIG_script
                          (always (Replied false num_402 body_insufficient)))
                   (set_page (set_value "#service-amount" "2000")
                      (set_page (set_value "#service-customer" "1234567890")
                         (world (openServiceModal (builtins := refBuiltins) "airtime"
                                   (mkShell world0 "")))))))
    = Some (JSON_stringify (Engine := refEngine) (obj
              [("service", JStr "airtime"); ("customer", JStr "1234567890");
               ("amount", JNum (StringToNumber (Engine := refEngine) "2000"))]))
      :: rest.
Proof.
  destruct (chosen_service_is_requested (engine := refEngine) (builtins := refBuiltins)
              CONFIG_script (always (Replied false num_402 body_insufficient))
              (mkShell world0 "") "airtime" "1234567890" "2000")
    as [H _].
  - discriminate.
  - vm_compute. reflexivity.
  - destruct H as [rest Hrest]; [reflexivity |].
    exists (List.map body rest). rewrite Hrest. reflexivity.
Defined.

(** ** The current script, in short *)

Section Current.
Context {engine : Engine}.
Variable CONFIG : Config.
Variable env : Env.

(** A refresh of the balance that completes leaves a number in
    [App.balance], whatever the backend answered.  It completes unless
    the reply is a success whose [balance] cannot be converted to a
    number; on such a reply it throws, and [App.balance] is as it was. *)
Theorem refreshed_balance_is_a_number w :
  (fst (refreshBalance CONFIG env w) = Normal tt ->
   typeof (balance (App (after (refreshBalance CONFIG env) w))) = "number")
  /\ (forall res w1,
        apiFetch CONFIG env "/me/balance" no_options w = (Normal res, w1) ->
        (ok res = true -> convertible (field (data res) "balance") = true) ->
        fst (refreshBalance CONFIG env w) = Normal tt)
  /\ (forall res w1,
        apiFetch CONFIG env "/me/balance" no_options w = (Normal res, w1) ->
        ok res = true -> convertible (field (data res) "balance") = false ->
        fst (refreshBalance CONFIG env w) = Throw "TypeError"
        /\ balance (App (after (refreshBalance CONFIG env) w)) = balance (App w)).
Proof.
  split; [exact (refreshBalance_number CONFIG env w) |]. split.
  - intros res w1 Hcall Hconv.
    exact (proj1 (refreshBalance_stores CONFIG env w res w1 Hcall Hconv)).
  - intros res w1 Hcall Hok Hc. unfold after.
    rewrite (refreshBalance_throws CONFIG env w res w1 Hcall Hok Hc).
    destruct (apiFetch_leaves CONFIG env _ _ _ _ _ Hcall) as (HA & _).
    simpl. rewrite HA. split; reflexivity.
Qed.

(** Logging out forgets the token and the user, removes both from local
    storage, leaves every other key of local storage alone, and goes back
    to the sign-in screen. *)
Theorem logout_forgets_session w :
  let w' := after logout_click w in
  token (App w') = JNull /\ user (App w') = JNull
  /\ authenticated w' = false
  /\ localStorage w' !! "pd_token" = None
  /\ localStorage w' !! "pd_user" = None
  /\ (forall k, k <> "pd_token" -> k <> "pd_user" ->
      localStorage w' !! k = localStorage w !! k)
  /\ (dashboardScreen ∈ hidden (page w')) /\ (authScreen ∉ hidden (page w')).
Proof. exact (logout_click_clears w). Qed.

(** A service payment or a transfer top-up that the backend refuses shows
    the message of the reply body, else the error field of the body, else
    the error of the call, else the fixed text of the action.  The one
    of these that comes first is shown when it can be converted to a
    string; when it cannot, the handler throws and nothing is shown. *)
Theorem refused_payment_notice w res w1 :
  (serviceFilled w = true ->
   apiFetch CONFIG env "/pay/service" (serviceOptions w) w = (Normal res, w1) ->
   ok res = false ->
   let message := firstTruthy [field (data res) "message";
                               field (data res) "error"; error res]
                    (JStr "Service payment failed") in
   (convertible message = true ->
    fst (payService CONFIG env w) = Normal tt
    /\ notices (after (payService CONFIG env) w)
       = (notices w ++ [stringOf message])%list)
   /\ (convertible message = false ->
       fst (payService CONFIG env w) = Throw "TypeError"
       /\ notices (after (payService CONFIG env) w) = notices w))
  /\ (SFleb num_50 (topupAmount w) = true ->
      value (page w) "#add-method" <> "card" ->
      apiFetch CONFIG env "/pay/topup"
        (topupOptions (topupAmount w) (value (page w) "#add-method")) w
      = (Normal res, w1) ->
      ok res = false ->
      let message := firstTruthy [field (data res) "message";
                                  field (data res) "error"; error res]
                       (JStr "Top up failed") in
      (convertible message = true ->
       fst (startPayment CONFIG env w) = Normal tt
       /\ notices (after (startPayment CONFIG env) w)
          = (notices w ++ [stringOf message])%list)
      /\ (convertible message = false ->
          fst (startPayment CONFIG env w) = Throw "TypeError"
          /\ notices (after (startPayment CONFIG env) w) = notices w)).
Proof.
  split.
  - intros Hf Hcall Hok. cbv zeta. rewrite <- failureMessage_priority.
    unfold after. rewrite (payService_refused CONFIG env _ _ _ Hf Hcall Hok).
    destruct (apiFetch_leaves CONFIG env _ _ _ _ _ Hcall) as (HA & HS & HP & HN).
    destruct (toast_turnedAway (failureMessage res "Service payment failed") w w1)
      as (_ & _ & _ & _ & Hshown & Hthrown); try assumption.
    { apply failureMessage_truthy. discriminate. }
    split; assumption.
  - intros Hge Hm Hcall Hok. cbv zeta. rewrite <- failureMessage_priority.
    assert (Hopen : openWidget CONFIG env (topupAmount w) (value (page w) "#add-method") w
                    = (Normal false, w)).
    { unfold openWidget.
      destruct (String.eqb_spec (value (page w) "#add-method") "card");
        [contradiction | reflexivity]. }
    unfold after. rewrite (startPayment_passes CONFIG env w Hge).
    rewrite (startPayment_pay_refused CONFIG env _ _ _ _ _ _ Hopen Hcall Hok).
    destruct (apiFetch_leaves CONFIG env _ _ _ _ _ Hcall) as (HA & HS & HP & HN).
    destruct (toast_turnedAway (failureMessage res "Top up failed") w w1)
      as (_ & _ & _ & _ & Hshown & Hthrown); try assumption.
    { apply failureMessage_truthy. discriminate. }
    split; assumption.
Qed.

End Current.

(** A refresh answered with a balance of 120. *)
Lemma refreshed_balance_is_a_number_witness :
  typeof (balance (App (after (refreshBalance (engine := refEngine) CONFIG_script
                                 (always (Replied true num_200 body_balance_120)))
                          world0)))
  = "number".
Proof.
  destruct (refreshed_balance_is_a_number (engine := refEngine) CONFIG_script
              (always (Replied true num_200 body_balance_120)) world0) as [H _].
  apply H. vm_compute. reflexivity.
Defined.

(** Both refusals, with the message of the backend. *)
Lemma refused_payment_notice_witness :
  notices (after (payService (engine := refEngine) CONFIG_script
                    (always (Replied false num_402 body_insufficient))) world_service)
  = ["Insufficient funds"]
  /\ notices (after (startPayment (engine := refEngine) CONFIG_script
                       (always (Replied false num_402 body_insufficient)))
                (world_topup "500"))
     = ["Insufficient funds"].
Proof.
  set (env := always (Replied false num_402 body_insufficient)).
  pose (res := mkResult false body_insufficient JUndefined (JNum num_402)).
  split.
  - destruct (refused_payment_notice (engine := refEngine) CONFIG_script env
                world_service res
                (after (apiFetch (engine := refEngine) CONFIG_script env
                          "/pay/service"
                          (serviceOptions (engine := refEngine) world_service))
                   world_service)) as [H _].
    destruct H as [H _].
    + vm_compute. reflexivity.
    + vm_compute. reflexivity.
    + reflexivity.
    + destruct H as [_ H]; [vm_compute; reflexivity |].
      etransitivity; [exact H | vm_compute; reflexivity].
  - destruct (refused_payment_notice (engine := refEngine) CONFIG_script env
                (world_topup "500") res
                (after (apiFetch (engine := refEngine) CONFIG_script env
                          "/pay/topup"
                          (topupOptions (engine := refEngine)
                             (topupAmount (engine := refEngine) (world_topup "500"))
                             "transfer"))
                   (world_topup "500"))) as [_ H].
    destruct H as [H _].
    + vm_compute. reflexivity.
    + discriminate.
    + vm_compute. reflexivity.
    + reflexivity.
    + destruct H as [_ H]; [vm_compute; reflexivity |].
      etransitivity; [exact H | vm_compute; reflexivity].
Defined.

Section CurrentDemo.
Context {engine : Engine}.
Variable CONFIG : Config.
Variable env : Env.

(** Without a base address [apiFetch] sends nothing and leaves the world
    as it is: a path that contains one of the six endpoint families is
    answered with success, and any other path with the error
    [No API configured]. *)
Theorem demo_mode_serves_six_families path options w :
  base CONFIG = "" ->
  (inFamily path = true ->
   exists res, apiFetch CONFIG env path options w = (Normal res, w)
               /\ ok res = true /\ error res = JUndefined)
  /\ (inFamily path = false ->
      apiFetch CONFIG env path options w
      = (Normal (failure (JStr "No API configured")), w)).
Proof. exact (demo_mode_replies CONFIG env path options w). Qed.

End CurrentDemo.

(** The top-up endpoint is served, the verification endpoint is not. *)
Lemma demo_mode_serves_six_families_witness :
  (exists res,
     apiFetch (engine := refEngine) (mkConfig "" "" "/pay/verify") (always (Rejected "" ""))
       "/pay/topup" no_options world0 = (Normal res, world0)
     /\ ok res = true /\ error res = JUndefined)
  /\ apiFetch (engine := refEngine) (mkConfig "" "" "/pay/verify") (always (Rejected "" ""))
       "/pay/verify?reference=r1" no_options world0
     = (Normal (failure (JStr "No API configured")), world0).
Proof.
  split.
  - apply (proj1 (demo_mode_serves_six_families (engine := refEngine)
                    (mkConfig "" "" "/pay/verify") (always (Rejected "" ""))
                    "/pay/topup" no_options world0 eq_refl)).
    reflexivity.
  - apply (proj2 (demo_mode_serves_six_families (engine := refEngine)
                    (mkConfig "" "" "/pay/verify") (always (Rejected "" ""))
                    "/pay/verify?reference=r1" no_options world0 eq_refl)).
    reflexivity.
Defined.

(** A logout from the dashboard keeps the theme stored beside the
    session. *)
Lemma logout_forgets_session_witness :
  localStorage (after logout_click world_signed_in) !! "pd_token" = None
  /\ localStorage (after logout_click world_signed_in) !! "theme" = Some "dark".
Proof.
  destruct (logout_forgets_session world_signed_in)
    as (_ & _ & _ & Ht & _ & Hk & _).
  split; [exact Ht |].
  rewrite (Hk "theme") by discriminate. reflexivity.
Defined.
